(** * FortiGate configuration wizard backend: validators, models and routes

    A shallow embedding of the Flask backend under [backend/app]:
    - [PyStr]: Python [str] values as sequences of Unicode code points,
      with the string methods the backend calls;
    - [Py]: JSON values as [request.get_json()] yields them, exceptions,
      truthiness;
    - [Validators]: [app/utils/validators.py] and the username rule of
      [app/utils/auth.py];
    - [Configuration], [ConfigurationVersion], [AuditLog]: the rows of
      [app/models] and their accessors;
    - [Db], [Http]: the store behind [db.session], requests, responses
      ([app/utils/responses.py]) and error handlers ([app/utils/errors.py]);
    - [Routes]: the views of [app/routes/configs.py] and
      [app/routes/templates.py] over the store;
    - [Samples]: a few requests and stores to run the views on;
    - [Re], [Names], [Credentials]: the regular expressions and the
      remaining validators of [app/utils/validators.py] and
      [app/utils/auth.py];
    - [User], [Auth]: [app/models/user.py], the views of
      [app/routes/auth.py] and the application as a whole.

    The definitions come first; the facts proved about them follow, and
    then the claims of the specification. *)

From Stdlib Require Import ZArith NArith List Bool Lia String Ascii.
From Stdlib Require Import Permutation Sorted.
Import ListNotations.

Set Implicit Arguments.

Local Open Scope Z_scope.

(* ===================================================================== *)
(** ** Python strings *)
(* ===================================================================== *)

Module PyStr.

(** A Python [str] is a sequence of code points. *)
Definition char := N.
Definition str := list char.

(** Literals of the source, written as Rocq strings. *)
Fixpoint lit (s : string) : str :=
  match s with
  | EmptyString => []
  | String a r => N_of_ascii a :: lit r
  end.

Definition comma : char := 44%N.
Definition hyphen : char := 45%N.
Definition underscore : char := 95%N.
Definition plus_sign : char := 43%N.
Definition dquote : char := 34%N.

Fixpoint eqb (a b : str) : bool :=
  match a, b with
  | [], [] => true
  | x :: a', y :: b' => N.eqb x y && eqb a' b'
  | _, _ => false
  end.

(** [len(s)] *)
Definition len (s : str) : Z := Z.of_nat (List.length s).

(** Truth value of a string: the empty string is false. *)
Definition nonempty (s : str) : bool :=
  match s with [] => false | _ => true end.

(** [c in s] for a one-character [c]. *)
Definition contains (c : char) (s : str) : bool := existsb (N.eqb c) s.

Fixpoint starts_with (p s : str) : bool :=
  match p, s with
  | [], _ => true
  | x :: p', y :: s' => N.eqb x y && starts_with p' s'
  | _ :: _, [] => false
  end.

(** [p in s] for strings: substring test. *)
Fixpoint substring_of (p s : str) : bool :=
  starts_with p s ||
  match s with
  | [] => false
  | _ :: s' => substring_of p s'
  end.

(** [str.isspace] on one code point: the interpreter's whitespace table. *)
Definition isspace (c : char) : bool :=
  ((9 <=? c) && (c <=? 13) || (28 <=? c) && (c <=? 32)
   || (c =? 133) || (c =? 160) || (c =? 5760)
   || (8192 <=? c) && (c <=? 8202)
   || (c =? 8232) || (c =? 8233) || (c =? 8239) || (c =? 8287)
   || (c =? 12288))%N.

Fixpoint lstrip_by (sp : char -> bool) (s : str) : str :=
  match s with
  | [] => []
  | c :: r => if sp c then lstrip_by sp r else s
  end.

Definition rstrip_by (sp : char -> bool) (s : str) : str :=
  rev (lstrip_by sp (rev s)).

Definition strip_by (sp : char -> bool) (s : str) : str :=
  rstrip_by sp (lstrip_by sp s).

(** [s.strip()] *)
Definition strip (s : str) : str := strip_by isspace s.

(** A string is trimmed when neither end is whitespace. *)
Definition trimmed (sp : char -> bool) (s : str) : Prop :=
  lstrip_by sp s = s /\ lstrip_by sp (rev s) = rev s.

(** [s.split(sep)] for a one-character separator: never an empty list,
    [''.split(',') == ['']]. *)
Fixpoint split (sep : char) (s : str) : list str :=
  match s with
  | [] => [[]]
  | c :: r =>
      if N.eqb c sep then [] :: split sep r
      else match split sep r with
           | p :: ps => (c :: p) :: ps
           | [] => [[c]]
           end
  end.

(** [sep.join(l)] *)
Fixpoint join (sep : str) (l : list str) : str :=
  match l with
  | [] => []
  | [x] => x
  | x :: r => x ++ sep ++ join sep r
  end.

(** [s.replace(c, '')] for a one-character [c]. *)
Definition remove (c : char) (s : str) : str :=
  filter (fun x => negb (N.eqb x c)) s.

(** The ASCII digits. *)
Definition is_digit (c : char) : Prop := (48 <= c <= 57)%N.

(** Decimal rendering of an [int], as [str(n)] and [f"{n}"] give it. *)
Definition digit_char (d : Z) : char := Z.to_N (48 + d).

Fixpoint digits_fuel (fuel : nat) (n : Z) (acc : str) : str :=
  let acc' := digit_char (n mod 10) :: acc in
  match fuel with
  | O => acc'
  | S f => if n <? 10 then acc' else digits_fuel f (n / 10) acc'
  end.

Definition str_of_nonneg (n : Z) : str :=
  digits_fuel (Z.to_nat (Z.log2 n)) n [].

Definition str_of_int (n : Z) : str :=
  if n <? 0 then hyphen :: str_of_nonneg (- n) else str_of_nonneg n.

End PyStr.

Abbreviation str := PyStr.str.

(* ===================================================================== *)
(** ** Python values, exceptions *)
(* ===================================================================== *)

Module Py.

(** The exceptions the modelled code can raise. *)
Inductive exn :=
| ValueError | TypeError | AttributeError | KeyError
| OverflowError      (* raised by the driver on an integer it cannot bind *)
| SQLAlchemyError.   (* raised by the database layer *)

(** A computation that returns or raises. *)
Inductive result (A : Type) : Type :=
| Ok (a : A)
| Raise (e : exn).
Arguments Ok {A} a.
Arguments Raise {A} e.

Definition bind {A B} (r : result A) (k : A -> result B) : result B :=
  match r with
  | Ok a => k a
  | Raise e => Raise e
  end.

(** A JSON document as [request.get_json()] returns it.  Numbers are the
    integers; an object keeps its members in order, under distinct keys
    as in the [dict] it was parsed into. *)
#[warnings="-register-all"]
Inductive json :=
| JNull
| JBool (b : bool)
| JNum (n : Z)
| JStr (s : str)
| JArr (l : list json)
| JObj (m : list (str * json)).

(** Truth value of a Python object: [None], [False], [0], [''], [[]]
    and [{}] are false. *)
Definition truthy (v : json) : bool :=
  match v with
  | JNull => false
  | JBool b => b
  | JNum n => negb (n =? 0)
  | JStr s => match s with [] => false | _ => true end
  | JArr l => match l with [] => false | _ => true end
  | JObj m => match m with [] => false | _ => true end
  end.

Definition isinstance_str (v : json) : bool :=
  match v with JStr _ => true | _ => false end.

Definition isinstance_list (v : json) : bool :=
  match v with JArr _ => true | _ => false end.

(** [len(v)]: defined on strings, lists and dicts. *)
Definition py_len (v : json) : result Z :=
  match v with
  | JStr s => Ok (PyStr.len s)
  | JArr l => Ok (Z.of_nat (List.length l))
  | JObj m => Ok (Z.of_nat (List.length m))
  | _ => Raise TypeError
  end.

(** [v.strip()]: only strings have the method. *)
Definition py_strip (v : json) : result str :=
  match v with
  | JStr s => Ok (PyStr.strip s)
  | _ => Raise AttributeError
  end.

Fixpoint assoc (k : str) (m : list (str * json)) : option json :=
  match m with
  | [] => None
  | (k', v) :: r => if PyStr.eqb k k' then Some v else assoc k r
  end.

(** [key in data] *)
Definition py_in (key : str) (data : json) : result bool :=
  match data with
  | JObj m => Ok (match assoc key m with Some _ => true | None => false end)
  | JArr l =>
      Ok (existsb (fun e => match e with
                            | JStr s => PyStr.eqb s key
                            | _ => false
                            end) l)
  | JStr s => Ok (PyStr.substring_of key s)
  | _ => Raise TypeError
  end.

(** [data[key]] with a string key. *)
Definition py_getitem (data : json) (key : str) : result json :=
  match data with
  | JObj m => match assoc key m with
              | Some v => Ok v
              | None => Raise KeyError
              end
  | _ => Raise TypeError
  end.

(** [data.get(key, default)]: a dict method. *)
Definition py_get (data : json) (key : str) (default : json) : result json :=
  match data with
  | JObj m => Ok (match assoc key m with Some v => v | None => default end)
  | _ => Raise AttributeError
  end.

End Py.

Export Py.

Declare Scope py_scope.
Delimit Scope py_scope with py.
Notation "x <- c1 ;; c2" := (Py.bind c1 (fun x => c2))
  (at level 61, c1 at next level, right associativity) : py_scope.
Notation "' pat <- c1 ;; c2" := (Py.bind c1 (fun x => match x with pat => c2 end))
  (at level 61, pat pattern, c1 at next level, right associativity) : py_scope.

(* ===================================================================== *)
(** ** app/utils/validators.py, app/utils/auth.py *)
(* ===================================================================== *)

Module Validators.

(** The messages the validators return, one constructor per message of
    the source; the argument is the value the message interpolates. *)
Inductive message :=
| PortOutOfRange (port : json)
    (* "Port must be between 1 and 65535: {port}" *)
| InvalidPortNumber (port : json)
    (* "Invalid port number: {port}" *)
| InvalidPortRangeFormat (s : str)
    (* "Invalid port range format: {port_range_str}" *)
| PortRangeOrder (s : str)
    (* "Port range start must be less than or equal to end: {port_range_str}" *)
| InvalidConfigType
    (* "Invalid configuration type. Must be one of: ..." *)
| TagsNotListOrString
    (* "Tags must be a list or comma-separated string" *)
| TagTooLong (tag : json)
    (* "Tag too long (max 50 characters): {tag}" *)
| UsernameTooShort
    (* "Username must be at least 3 characters long" *)
| UsernameTooLong
    (* "Username must be less than 80 characters" *)
| UsernameCharset.
    (* "Username can only contain letters, numbers, hyphens, and underscores" *)

(** The [(is_valid, error_message)] pair every validator returns. *)
Definition verdict := (bool * option message)%type.

Definition valid : verdict := (true, None).
Definition invalid (m : message) : verdict := (false, Some m).

Section Unicode.

(** The interpreter's Unicode tables outside ASCII: the decimal value
    of a digit character, and [str.isalnum] on one character. *)
Variable unicode_decimal : PyStr.char -> option Z.
Variable unicode_alnum : PyStr.char -> bool.

(** *** int(s) *)

(** Whitespace [int()] skips around the number. *)
Definition int_space (c : PyStr.char) : bool :=
  if (c <? 128)%N then ((9 <=? c) && (c <=? 13) || (c =? 32))%N
  else PyStr.isspace c.

Definition digit_value (c : PyStr.char) : option Z :=
  if ((48 <=? c) && (c <=? 57))%N then Some (Z.of_N c - 48)
  else if (c <? 128)%N then None
  else unicode_decimal c.

(** Digits with single underscores between them. *)
Fixpoint int_digits (s : str) (acc : Z) (after_digit : bool) : option Z :=
  match s with
  | [] => if after_digit then Some acc else None
  | c :: r =>
      if N.eqb c PyStr.underscore then
        if after_digit then int_digits r acc false else None
      else match digit_value c with
           | Some d => int_digits r (10 * acc + d) true
           | None => None
           end
  end.

Definition int_of_str (s : str) : result Z :=
  let t := PyStr.strip_by int_space s in
  let parsed :=
    match t with
    | c :: r =>
        if N.eqb c PyStr.hyphen then option_map Z.opp (int_digits r 0 false)
        else if N.eqb c PyStr.plus_sign then int_digits r 0 false
        else int_digits t 0 false
    | [] => None
    end in
  match parsed with
  | Some n => Ok n
  | None => Raise ValueError
  end.

(** [int(v)] *)
Definition py_int (v : json) : result Z :=
  match v with
  | JNum n => Ok n
  | JBool b => Ok (if b then 1 else 0)
  | JStr s => int_of_str s
  | JNull | JArr _ | JObj _ => Raise TypeError
  end.

(** *** validate_port *)

Definition validate_port (port : json) : result verdict :=
  match port with
  | JNull | JStr [] => Ok valid
  | _ =>
      match py_int port with
      | Ok port_num =>
          if (1 <=? port_num) && (port_num <=? 65535) then Ok valid
          else Ok (invalid (PortOutOfRange port))
      | Raise ValueError | Raise TypeError =>
          Ok (invalid (InvalidPortNumber port))
      | Raise e => Raise e
      end
  end.

(** *** validate_port_range *)

Definition validate_port_range (port_range_str : str) : result verdict :=
  match port_range_str with
  | [] => Ok valid
  | _ =>
      if PyStr.contains PyStr.hyphen port_range_str then
        match PyStr.split PyStr.hyphen port_range_str with
        | [part0; part1] =>
            ('(start_valid, start_error) <- validate_port (JStr part0) ;;
             if negb start_valid then Ok (false, start_error) else
             '(end_valid, end_error) <- validate_port (JStr part1) ;;
             if negb end_valid then Ok (false, end_error) else
             a <- py_int (JStr part0) ;;
             b <- py_int (JStr part1) ;;
             if a >? b then Ok (invalid (PortRangeOrder port_range_str))
             else Ok valid)%py
        | _ => Ok (invalid (InvalidPortRangeFormat port_range_str))
        end
      else validate_port (JStr port_range_str)
  end.

(** *** validate_username (app/utils/auth.py) *)

Definition char_isalnum (c : PyStr.char) : bool :=
  if (c <? 128)%N then
    ((48 <=? c) && (c <=? 57) || (65 <=? c) && (c <=? 90)
     || (97 <=? c) && (c <=? 122))%N
  else unicode_alnum c.

(** [s.isalnum()]: every character alphanumeric and at least one
    character. *)
Definition isalnum (s : str) : bool :=
  match s with
  | [] => false
  | _ => forallb char_isalnum s
  end.

Definition validate_username (username : str) : verdict :=
  if PyStr.len username <? 3 then invalid UsernameTooShort
  else if PyStr.len username >? 80 then invalid UsernameTooLong
  else if negb (isalnum (PyStr.remove PyStr.hyphen
                           (PyStr.remove PyStr.underscore username)))
       then invalid UsernameCharset
  else valid.

End Unicode.

(** The tables of an interpreter that is only ever shown ASCII text;
    they serve to run the validators on concrete ASCII inputs. *)
Definition ascii_decimal : PyStr.char -> option Z := fun _ => None.
Definition ascii_alnum : PyStr.char -> bool := fun _ => false.

(** [f"{a}-{b}"] for two integers. *)
Definition render_range (a b : Z) : str :=
  PyStr.str_of_int a ++ [PyStr.hyphen] ++ PyStr.str_of_int b.

(** *** validate_config_type *)

Definition valid_types : list str :=
  map PyStr.lit
    ["ipsec"; "sdwan"; "firewall"; "interface"; "ha"; "saml";
     "routing"; "dns"; "dhcp"; "vpn"; "other"]%string.

Definition validate_config_type (config_type : str) : verdict :=
  if negb (existsb (PyStr.eqb config_type) valid_types)
  then invalid InvalidConfigType
  else valid.

(** *** validate_tags *)

(** The loop [for tag in tags: if len(tag) > 50: return False, ...]. *)
Fixpoint check_tag_lengths (tags : list json) : result verdict :=
  match tags with
  | [] => Ok valid
  | tag :: rest =>
      (n <- py_len tag ;;
       if n >? 50 then Ok (invalid (TagTooLong tag))
       else check_tag_lengths rest)%py
  end.

Definition validate_tags (tags : json) : result verdict :=
  if negb (truthy tags) then Ok valid
  else
    let tags :=
      match tags with
      | JStr s => JArr (map (fun tag => JStr (PyStr.strip tag))
                            (PyStr.split PyStr.comma s))
      | _ => tags
      end in
    match tags with
    | JArr l => check_tag_lengths l
    | _ => Ok (invalid TagsNotListOrString)
    end.

End Validators.

(* ===================================================================== *)
(** ** app/models *)
(* ===================================================================== *)

(** Timestamps are clock readings ([datetime.utcnow()]) taken as integers.
    A [data_json] column holds [json.dumps] of a document and is read back
    with [json.loads]; the model keeps the document itself. *)

Module Configuration.

Record t := mk {
  id : Z;
  user_id : Z;
  config_type : str;
  name : str;
  description : option str;
  data_json : json;
  tags : option str;            (* comma-separated tags *)
  is_template : bool;
  created_at : Z;
  updated_at : Z
}.

Definition with_name (self : t) (v : str) : t :=
  mk (id self) (user_id self) (config_type self) v (description self)
     (data_json self) (tags self) (is_template self)
     (created_at self) (updated_at self).

Definition with_description (self : t) (v : option str) : t :=
  mk (id self) (user_id self) (config_type self) (name self) v
     (data_json self) (tags self) (is_template self)
     (created_at self) (updated_at self).

Definition with_tags (self : t) (v : option str) : t :=
  mk (id self) (user_id self) (config_type self) (name self)
     (description self) (data_json self) v (is_template self)
     (created_at self) (updated_at self).

Definition with_is_template (self : t) (v : bool) : t :=
  mk (id self) (user_id self) (config_type self) (name self)
     (description self) (data_json self) (tags self) v
     (created_at self) (updated_at self).

Definition with_updated_at (self : t) (v : Z) : t :=
  mk (id self) (user_id self) (config_type self) (name self)
     (description self) (data_json self) (tags self) (is_template self)
     (created_at self) v.

(** [set_data]: [self.data_json = json.dumps(data_dict)] *)
Definition set_data (self : t) (data_dict : json) : t :=
  mk (id self) (user_id self) (config_type self) (name self)
     (description self) data_dict (tags self) (is_template self)
     (created_at self) (updated_at self).

(** [get_data] *)
Definition get_data (self : t) : json := data_json self.

(** [get_tags_list]:
    [[tag.strip() for tag in self.tags.split(',')] if self.tags else []] *)
Definition get_tags_list (self : t) : list str :=
  match tags self with
  | Some ((_ :: _) as s) => map PyStr.strip (PyStr.split PyStr.comma s)
  | _ => []
  end.

(** The generator [tag.strip() for tag in tags_list if tag.strip()]. *)
Fixpoint stripped_tags (tags_list : list json) : result (list str) :=
  match tags_list with
  | [] => Ok []
  | tag :: rest =>
      (s <- py_strip tag ;;
       r <- stripped_tags rest ;;
       Ok (if PyStr.nonempty s then s :: r else r))%py
  end.

(** [set_tags_list]: [self.tags = ','.join(...)] *)
Definition set_tags_list (self : t) (tags_list : list json) : result t :=
  (l <- stripped_tags tags_list ;;
   Ok (with_tags self (Some (PyStr.join [PyStr.comma] l))))%py.

(** The dictionary [to_dict] builds. *)
Record dict := mk_dict {
  d_id : Z;
  d_user_id : Z;
  d_config_type : str;
  d_name : str;
  d_description : option str;
  d_tags : list str;
  d_is_template : bool;
  d_created_at : Z;
  d_updated_at : Z;
  d_version_count : Z;
  d_data : option json          (* present when [include_data] *)
}.

(** [to_dict]; [version_count] is [len(self.versions)], the rows of the
    relationship. *)
Definition to_dict (self : t) (version_count : Z) (include_data : bool) : dict :=
  mk_dict (id self) (user_id self) (config_type self) (name self)
          (description self) (get_tags_list self) (is_template self)
          (created_at self) (updated_at self) version_count
          (if include_data then Some (get_data self) else None).

End Configuration.

Module ConfigurationVersion.

Record t := mk {
  id : Z;
  config_id : Z;
  version : Z;
  data_json : json;
  change_description : option str;
  created_at : Z;
  created_by : Z
}.

Definition get_data (self : t) : json := data_json self.

Record dict := mk_dict {
  d_id : Z;
  d_config_id : Z;
  d_version : Z;
  d_change_description : option str;
  d_created_at : Z;
  d_created_by : Z;
  d_data : option json
}.

Definition to_dict (self : t) (include_data : bool) : dict :=
  mk_dict (id self) (config_id self) (version self)
          (change_description self) (created_at self) (created_by self)
          (if include_data then Some (get_data self) else None).

(** [filter_by(config_id=config_id)] over the table. *)
Definition filter_by_config_id (rows : list t) (cid : Z) : list t :=
  filter (fun v => config_id v =? cid) rows.

(** [db.func.max(ConfigurationVersion.version)]: [None] on no rows. *)
Definition max_version (rows : list t) : option Z :=
  fold_left (fun acc v => match acc with
                          | None => Some (version v)
                          | Some m => Some (Z.max m (version v))
                          end) rows None.

(** [get_next_version_number]: [(last_version or 0) + 1] *)
Definition get_next_version_number (rows : list t) (cid : Z) : Z :=
  let last_version := max_version (filter_by_config_id rows cid) in
  (match last_version with
   | Some v => if v =? 0 then 0 else v
   | None => 0
   end) + 1.

End ConfigurationVersion.

Module AuditLog.

Record t := mk {
  id : Z;
  user_id : Z;
  action : str;
  resource_type : str;
  resource_id : option Z;
  details : option json;
  ip_address : option str;
  user_agent : option str;
  created_at : Z
}.

End AuditLog.

(* ===================================================================== *)
(** ** The store, requests and responses *)
(* ===================================================================== *)

Module Db.

(** The three tables the routes touch, rows in insertion order.  Each
    request runs alone against the store (one worker per request). *)
Record store := mk {
  configurations : list Configuration.t;
  configuration_versions : list ConfigurationVersion.t;
  audit_log : list AuditLog.t
}.

Definition empty : store := mk [] [] [].

(** Primary keys are allocated as the engine configured in [config.py]
    (SQLite) does: one more than the largest key in the table. *)
Definition next_id (ids : list Z) : Z := fold_left Z.max ids 0 + 1.

(** The row of [configurations] whose primary key is [config_id], if
    there is one: what the SELECT behind [db.session.get] finds. *)
Definition get (st : store) (config_id : Z) : option Configuration.t :=
  find (fun c => Configuration.id c =? config_id) (configurations st).

(** An INTEGER of SQLite holds 64 bits, sign included.  The driver
    (sqlite3) raises [OverflowError] on a Python [int] outside this
    range when it binds it to a statement, before the statement runs. *)
Definition max_integer : Z := 9223372036854775807.
Definition min_integer : Z := -9223372036854775808.

Definition bind_integer (n : Z) : result Z :=
  if (n <? min_integer) || (max_integer <? n) then Raise OverflowError
  else Ok n.

(** [db.session.get(Configuration, config_id)]: the session, new with
    the request, holds no row yet, so the key is bound to a SELECT. *)
Definition session_get (st : store) (config_id : Z)
  : result (option Configuration.t) :=
  (key <- bind_integer config_id ;; Ok (get st key))%py.

(** The rows behind the relationship [config.versions]. *)
Definition versions_of (st : store) (config_id : Z) : list ConfigurationVersion.t :=
  ConfigurationVersion.filter_by_config_id (configuration_versions st) config_id.

(** [len(self.versions) if self.versions else 0] *)
Definition version_count (st : store) (config_id : Z) : Z :=
  Z.of_nat (List.length (versions_of st config_id)).

(** [ORDER BY key DESC] *)
Fixpoint insert_desc {A} (key : A -> Z) (x : A) (l : list A) : list A :=
  match l with
  | [] => [x]
  | y :: r => if key y <=? key x then x :: y :: r
              else y :: insert_desc key x r
  end.

Definition order_by_desc {A} (key : A -> Z) (l : list A) : list A :=
  fold_right (insert_desc key) [] l.

(** The order of a descending sort: [a] may come before [b]. *)
Definition desc {A} (key : A -> Z) (a b : A) : Prop := key b <= key a.

(** One step of the aggregate [max]. *)
Definition max_step (acc : option Z) (z : Z) : option Z :=
  match acc with
  | None => Some z
  | Some m => Some (Z.max m z)
  end.

(** The constraint [unique_config_version] on (config_id, version): the
    insert is refused when the pair is taken. *)
Definition add_version (rows : list ConfigurationVersion.t)
           (v : ConfigurationVersion.t) : result (list ConfigurationVersion.t) :=
  if existsb (fun r => (ConfigurationVersion.config_id r =? ConfigurationVersion.config_id v)
                       && (ConfigurationVersion.version r =? ConfigurationVersion.version v))
             rows
  then Raise SQLAlchemyError
  else Ok (rows ++ [v]).

(** Structural equality of documents: equal [json.dumps] texts. *)
Fixpoint json_eqb (a b : json) : bool :=
  match a, b with
  | JNull, JNull => true
  | JBool x, JBool y => Bool.eqb x y
  | JNum x, JNum y => x =? y
  | JStr x, JStr y => PyStr.eqb x y
  | JArr x, JArr y =>
      (fix go (x y : list json) : bool :=
         match x, y with
         | [], [] => true
         | a :: x', b :: y' => json_eqb a b && go x' y'
         | _, _ => false
         end) x y
  | JObj x, JObj y =>
      (fix go (x y : list (str * json)) : bool :=
         match x, y with
         | [], [] => true
         | (k, a) :: x', (k', b) :: y' =>
             PyStr.eqb k k' && json_eqb a b && go x' y'
         | _, _ => false
         end) x y
  | _, _ => false
  end.

Definition opt_str_eqb (a b : option str) : bool :=
  match a, b with
  | None, None => true
  | Some x, Some y => PyStr.eqb x y
  | _, _ => false
  end.

(** Whether the unit of work sees a net change on the row: only then is
    an UPDATE issued, and only then does [onupdate] set [updated_at]. *)
Definition row_changed (old new : Configuration.t) : bool :=
  negb (PyStr.eqb (Configuration.name old) (Configuration.name new)
        && opt_str_eqb (Configuration.description old) (Configuration.description new)
        && opt_str_eqb (Configuration.tags old) (Configuration.tags new)
        && Bool.eqb (Configuration.is_template old) (Configuration.is_template new)
        && json_eqb (Configuration.data_json old) (Configuration.data_json new)).

(** The row as written back at commit. *)
Definition written (now : Z) (old new : Configuration.t) : Configuration.t :=
  if row_changed old new then Configuration.with_updated_at new now
  else new.

Definition update_row (now : Z) (old new : Configuration.t)
           (rows : list Configuration.t) : list Configuration.t :=
  map (fun c => if Configuration.id c =? Configuration.id old
                then written now old new else c)
      rows.

(** [db.session.delete(config)] with the cascade on [versions]. *)
Definition delete (st : store) (config_id : Z) : store :=
  mk (filter (fun c => negb (Configuration.id c =? config_id)) (configurations st))
     (filter (fun v => negb (ConfigurationVersion.config_id v =? config_id))
             (configuration_versions st))
     (audit_log st).

(** The constraints the tables are meant to satisfy: primary keys and
    (config_id, version) pairs are unique, every version belongs to a
    configuration, and the versions of a configuration are numbered
    1, 2, ..., n in the order they were inserted. *)
Definition version_key (v : ConfigurationVersion.t) : Z * Z :=
  (ConfigurationVersion.config_id v, ConfigurationVersion.version v).

Definition numbered_from_1 (st : store) (config_id : Z) : Prop :=
  exists n, (1 <= n)%nat
            /\ map ConfigurationVersion.version (versions_of st config_id)
               = map Z.of_nat (seq 1 n).

Definition consistent (st : store) : Prop :=
  NoDup (map Configuration.id (configurations st))
  /\ NoDup (map version_key (configuration_versions st))
  /\ (forall v, In v (configuration_versions st) ->
        In (ConfigurationVersion.config_id v)
           (map Configuration.id (configurations st)))
  /\ (forall config_id, In config_id (map Configuration.id (configurations st)) ->
        numbered_from_1 st config_id).

End Db.

Module Http.

(** How the verification of the access token failed: no token in the
    [Authorization] header, a token that does not decode or verify, or
    a token past its expiry. *)
Inductive jwt_failure := NoAuthorization | InvalidToken | ExpiredToken.

(** What a view reads from the request.  [jwt_identity] is the identity
    of a token that verified, already converted with [int()]; it is
    [None] when no valid access token came with the request, and
    [jwt_error] then says how the verification failed.  [get_json] is
    the parsed body of a request that carries a JSON document; a request
    whose body is absent or is no JSON is answered by Flask inside
    [request.get_json()] and is not a request of this model. *)
Record request := mk_request {
  jwt_identity : option Z;
  get_json : json;
  now : Z;
  remote_addr : option str;
  user_agent : str;
  jwt_error : jwt_failure
}.

Inductive payload :=
| ConfigData (d : Configuration.dict)
| ConfigListData (l : list Configuration.dict)
| VersionData (d : ConfigurationVersion.dict)
| VersionsData (l : list ConfigurationVersion.dict).

(** The JSON envelope and the status code. *)
Record response := mk_response {
  status_code : Z;
  success : bool;
  message : option str;
  error : option str;
  errors : list (str * option Validators.message);
  data : option payload
}.

(** app/utils/responses.py *)
Definition success_response (data : option payload) (message : option str)
           (status_code : Z) : response :=
  mk_response status_code true message None [] data.

Definition error_response (message : str)
           (errors : list (str * option Validators.message))
           (status_code : Z) : response :=
  mk_response status_code false None (Some message) errors None.

Definition validation_error_response
           (errors : list (str * option Validators.message)) : response :=
  error_response (PyStr.lit "Validation failed") errors 422.

Definition not_found_response (resource : str) : response :=
  error_response (resource ++ PyStr.lit " not found") [] 404.

Definition forbidden_response (message : str) : response :=
  error_response message [] 403.

(** app/utils/errors.py: the answers to a request without a valid
    token, to a database error and to any other exception.  For a
    missing token the handler the application registers for
    [NoAuthorizationError] replaces the one of the extension, so the
    callback given to [unauthorized_loader] is never the answer. *)
Definition handle_no_authorization_error : response :=
  mk_response 401 false (Some (PyStr.lit "Missing or invalid authorization token"))
              (Some (PyStr.lit "Unauthorized")) [] None.

Definition invalid_token_callback : response :=
  mk_response 401 false (Some (PyStr.lit "The token is invalid. Please login again."))
              (Some (PyStr.lit "Invalid Token")) [] None.

Definition expired_token_callback : response :=
  mk_response 401 false (Some (PyStr.lit "The token has expired. Please login again."))
              (Some (PyStr.lit "Token Expired")) [] None.

Definition jwt_error_response (e : jwt_failure) : response :=
  match e with
  | NoAuthorization => handle_no_authorization_error
  | InvalidToken => invalid_token_callback
  | ExpiredToken => expired_token_callback
  end.

Definition handle_database_error : response :=
  mk_response 500 false
              (Some (PyStr.lit "A database error occurred. Please try again later."))
              (Some (PyStr.lit "Database Error")) [] None.

Definition handle_unexpected_error : response :=
  mk_response 500 false
              (Some (PyStr.lit "An unexpected error occurred. Please try again later."))
              (Some (PyStr.lit "Unexpected Error")) [] None.

(** A view function: it answers and leaves a store, or raises. *)
Definition view := request -> Db.store -> result (response * Db.store).

(** [@jwt_required()] *)
Definition jwt_required (f : Z -> view) : view :=
  fun req st =>
    match jwt_identity req with
    | None => Ok (jwt_error_response (jwt_error req), st)
    | Some user_id => f user_id req st
    end.

(** One request through the application: an exception leaving the view
    is answered by the registered error handler and the session, never
    committed, is discarded. *)
Definition handle (v : view) (req : request) (st : Db.store) : response * Db.store :=
  match v req st with
  | Ok r => r
  | Raise SQLAlchemyError => (handle_database_error, st)
  | Raise _ => (handle_unexpected_error, st)
  end.

(** The request is answered with [code] and leaves the store [st]. *)
Definition answers (r : response * Db.store) (code : Z) (st : Db.store) : Prop :=
  status_code (fst r) = code /\ snd r = st.

(** [AuditLog.log] with [**get_request_info()]. *)
Definition log (req : request) (st : Db.store) (user_id : Z)
           (action resource_type : str) (resource_id : option Z)
           (details : json) : Db.store :=
  let entry :=
    AuditLog.mk (Db.next_id (map AuditLog.id (Db.audit_log st)))
                user_id action resource_type resource_id
                (if truthy details then Some details else None)
                (remote_addr req) (Some (user_agent req)) (now req) in
  Db.mk (Db.configurations st) (Db.configuration_versions st)
        (Db.audit_log st ++ [entry]).

End Http.

(* ===================================================================== *)
(** ** app/routes/configs.py, app/routes/templates.py *)
(* ===================================================================== *)

Module Routes.

Import Http.

Abbreviation lit := PyStr.lit.

Section Driver.

(** A view may hand the ORM a JSON value whose type is not the
    column's.  What the ORM and the driver make of it is theirs to
    decide: [Some x] is the value stored, [None] a refused
    statement. *)
Variable bind_text : json -> option (option str).
Variable bind_bool : json -> option bool.

(** A value written to a [Text] or [String] column. *)
Definition text_column (v : json) : result (option str) :=
  match v with
  | JStr s => Ok (Some s)
  | JNull => Ok None
  | _ => match bind_text v with
         | Some x => Ok x
         | None => Raise SQLAlchemyError
         end
  end.

(** A value written to the [Boolean] column. *)
Definition boolean_column (v : json) : result bool :=
  match v with
  | JBool b => Ok b
  | _ => match bind_bool v with
         | Some b => Ok b
         | None => Raise SQLAlchemyError
         end
  end.

(** [if isinstance(tags, list): config.set_tags_list(tags)
     else: config.tags = tags] *)
Definition assign_tags (config : Configuration.t) (tags : json)
  : result Configuration.t :=
  match tags with
  | JArr l => Configuration.set_tags_list config l
  | _ => (x <- text_column tags ;; Ok (Configuration.with_tags config x))%py
  end.

(** *** POST /api/configs *)

Definition create_configuration : view :=
  jwt_required (fun user_id req st =>
    let data := get_json req in
    if negb (truthy data) then
      Ok (error_response (lit "No data provided") [] 400, st)
    else
    (v_name <- py_get data (lit "name") JNull ;;
     if negb (truthy v_name) then
       Ok (error_response (lit "Configuration name is required") [] 400, st)
     else
     v_type <- py_get data (lit "config_type") JNull ;;
     if negb (truthy v_type) then
       Ok (error_response (lit "Configuration type is required") [] 400, st)
     else
     v_data <- py_get data (lit "data") JNull ;;
     if negb (truthy v_data) then
       Ok (error_response (lit "Configuration data is required") [] 400, st)
     else
     name <- (v <- py_get data (lit "name") (JStr []) ;; py_strip v) ;;
     config_type <- (v <- py_get data (lit "config_type") (JStr []) ;; py_strip v) ;;
     description <- (v <- py_get data (lit "description") (JStr []) ;; py_strip v) ;;
     config_data <- py_get data (lit "data") (JObj []) ;;
     tags <- py_get data (lit "tags") (JArr []) ;;
     is_template <- py_get data (lit "is_template") (JBool false) ;;
     let '(config_type_valid, config_type_error) :=
       Validators.validate_config_type config_type in
     '(tags_valid, tags_error) <- Validators.validate_tags tags ;;
     let errors :=
       (if config_type_valid then [] else [(lit "config_type", config_type_error)])
       ++ (if tags_valid then [] else [(lit "tags", tags_error)]) in
     match errors with
     | _ :: _ => Ok (validation_error_response errors, st)
     | [] =>
         (* the row gets its id, and its Boolean column its value, at
            db.session.flush() *)
         let new_id := Db.next_id (map Configuration.id (Db.configurations st)) in
         let config :=
           Configuration.mk new_id user_id config_type name
             (Some description) config_data None false
             (now req) (now req) in
         config <- (if truthy tags then assign_tags config tags
                    else Ok config) ;;
         is_template <- boolean_column is_template ;;
         let config := Configuration.with_is_template config is_template in
         let version :=
           ConfigurationVersion.mk
             (Db.next_id (map ConfigurationVersion.id (Db.configuration_versions st)))
             new_id 1 config_data (Some (lit "Initial version"))
             (now req) user_id in
         versions <- Db.add_version (Db.configuration_versions st) version ;;
         (* db.session.commit() *)
         let st1 := Db.mk (Db.configurations st ++ [config]) versions
                          (Db.audit_log st) in
         let st2 := log req st1 user_id (lit "create") (lit "configuration")
                        (Some new_id)
                        (JObj [(lit "name", JStr name);
                               (lit "config_type", JStr config_type)]) in
         Ok (success_response
               (Some (ConfigData
                        (Configuration.to_dict config
                           (Db.version_count st2 new_id) true)))
               (Some (lit "Configuration created successfully")) 201,
             st2)
     end)%py).

(** *** GET /api/configs/<config_id> *)

Definition get_configuration (config_id : Z) : view :=
  jwt_required (fun user_id req st =>
    (found <- Db.session_get st config_id ;;
     match found with
     | None => Ok (not_found_response (lit "Configuration"), st)
     | Some config =>
         if negb (Configuration.user_id config =? user_id) then
           Ok (forbidden_response
                 (lit "You do not have permission to access this configuration"),
               st)
         else
           Ok (success_response
                 (Some (ConfigData
                          (Configuration.to_dict config
                             (Db.version_count st config_id) true)))
                 None 200,
               st)
     end)%py).

(** *** PUT /api/configs/<config_id> *)

(** The outcome of the field updates: the 422 answer of the tag
    check, or the row as modified in the session. *)
Inductive patched :=
| Rejected (tags_error : option Validators.message)
| Patched (config : Configuration.t).

(** One block [if key in data: ... data[key] ...] of the view. *)
Definition patch_field (data : json) (key : str) (config : Configuration.t)
           (assign : json -> result Configuration.t)
  : result Configuration.t :=
  (present <- py_in key data ;;
   if present then v <- py_getitem data key ;; assign v
   else Ok config)%py.

Definition patch_name (data : json) (config : Configuration.t) :=
  patch_field data (lit "name") config
    (fun v => s <- py_strip v ;; Ok (Configuration.with_name config s))%py.

Definition patch_description (data : json) (config : Configuration.t) :=
  patch_field data (lit "description") config
    (fun v => s <- py_strip v ;;
              Ok (Configuration.with_description config (Some s)))%py.

Definition patch_tags (data : json) (config : Configuration.t)
  : result patched :=
  (present <- py_in (lit "tags") data ;;
   if present
   then tags <- py_getitem data (lit "tags") ;;
        '(tags_valid, tags_error) <- Validators.validate_tags tags ;;
        if negb tags_valid then Ok (Rejected tags_error)
        else c <- assign_tags config tags ;; Ok (Patched c)
   else Ok (Patched config))%py.

Definition patch_is_template (data : json) (config : Configuration.t) :=
  patch_field data (lit "is_template") config
    (fun v => b <- boolean_column v ;;
              Ok (Configuration.with_is_template config b))%py.

Definition patch_data (data : json) (config : Configuration.t) :=
  patch_field data (lit "data") config
    (fun v => Ok (Configuration.set_data config v)).

Definition apply_fields (data : json) (config : Configuration.t)
  : result patched :=
  (config <- patch_name data config ;;
   config <- patch_description data config ;;
   after_tags <- patch_tags data config ;;
   match after_tags with
   | Rejected e => Ok (Rejected e)
   | Patched config =>
       config <- patch_is_template data config ;;
       config <- patch_data data config ;;
       Ok (Patched config)
   end)%py.

Definition update_configuration (config_id : Z) : view :=
  jwt_required (fun user_id req st =>
    let data := get_json req in
    if negb (truthy data) then
      Ok (error_response (lit "No data provided") [] 400, st)
    else
    (found <- Db.session_get st config_id ;;
     match found with
     | None => Ok (not_found_response (lit "Configuration"), st)
     | Some old =>
        if negb (Configuration.user_id old =? user_id) then
          Ok (forbidden_response
                (lit "You do not have permission to modify this configuration"),
              st)
        else
         p <- apply_fields data old ;;
         match p with
         | Rejected tags_error =>
             Ok (validation_error_response [(lit "tags", tags_error)], st)
         | Patched config =>
             data_changed <- py_in (lit "data") data ;;
             versions <-
               (if data_changed
                then
                  let next_version :=
                    ConfigurationVersion.get_next_version_number
                      (Db.configuration_versions st) config_id in
                  v_descr <- py_get data (lit "change_description")
                                    (JStr (lit "Configuration updated")) ;;
                  change_description <- text_column v_descr ;;
                  v_data <- py_getitem data (lit "data") ;;
                  Db.add_version (Db.configuration_versions st)
                    (ConfigurationVersion.mk
                       (Db.next_id (map ConfigurationVersion.id
                                        (Db.configuration_versions st)))
                       config_id next_version v_data change_description
                       (now req) user_id)
                else Ok (Db.configuration_versions st)) ;;
             (* db.session.commit() *)
             let st1 := Db.mk (Db.update_row (now req) old config
                                             (Db.configurations st))
                              versions (Db.audit_log st) in
             let st2 := log req st1 user_id (lit "update") (lit "configuration")
                            (Some config_id)
                            (JObj [(lit "name", JStr (Configuration.name config));
                                   (lit "data_changed", JBool data_changed)]) in
             Ok (success_response
                   (Some (ConfigData
                            (Configuration.to_dict
                               (Db.written (now req) old config)
                               (Db.version_count st2 config_id) true)))
                   (Some (lit "Configuration updated successfully")) 200,
                 st2)
         end
     end)%py).

(** *** DELETE /api/configs/<config_id> *)

Definition delete_configuration (config_id : Z) : view :=
  jwt_required (fun user_id req st =>
    (found <- Db.session_get st config_id ;;
     match found with
     | None => Ok (not_found_response (lit "Configuration"), st)
     | Some config =>
        if negb (Configuration.user_id config =? user_id) then
          Ok (forbidden_response
                (lit "You do not have permission to delete this configuration"),
              st)
        else
          let config_name := Configuration.name config in
          let st1 := Db.delete st config_id in
          let st2 := log req st1 user_id (lit "delete") (lit "configuration")
                         (Some config_id)
                         (JObj [(lit "name", JStr config_name)]) in
          Ok (success_response None
                (Some (lit "Configuration deleted successfully")) 200,
              st2)
     end)%py).

(** *** GET /api/configs/<config_id>/versions *)

Definition get_configuration_versions (config_id : Z) : view :=
  jwt_required (fun user_id req st =>
    (found <- Db.session_get st config_id ;;
     match found with
     | None => Ok (not_found_response (lit "Configuration"), st)
     | Some config =>
        if negb (Configuration.user_id config =? user_id) then
          Ok (forbidden_response
                (lit "You do not have permission to access this configuration"),
              st)
        else
          let versions :=
            map (fun version => ConfigurationVersion.to_dict version false)
                (Db.order_by_desc ConfigurationVersion.version
                                  (Db.versions_of st config_id)) in
          Ok (success_response (Some (VersionsData versions)) None 200, st)
     end)%py).

(** *** GET /api/configs/<config_id>/versions/<version_number> *)

Definition get_configuration_version (config_id version_number : Z) : view :=
  jwt_required (fun user_id req st =>
    (found <- Db.session_get st config_id ;;
     match found with
     | None => Ok (not_found_response (lit "Configuration"), st)
     | Some config =>
        if negb (Configuration.user_id config =? user_id) then
          Ok (forbidden_response
                (lit "You do not have permission to access this configuration"),
              st)
        else
          (* filter_by(config_id=config_id, version=version_number).first() *)
          number <- Db.bind_integer version_number ;;
          match find (fun v => (ConfigurationVersion.config_id v =? config_id)
                               && (ConfigurationVersion.version v =? number))
                     (Db.configuration_versions st) with
          | None => Ok (not_found_response (lit "Version"), st)
          | Some version =>
              Ok (success_response
                    (Some (VersionData (ConfigurationVersion.to_dict version true)))
                    None 200,
                  st)
          end
     end)%py).

(** *** GET /api/templates *)

Definition list_templates : view :=
  jwt_required (fun _ req st =>
    let templates :=
      Db.order_by_desc Configuration.updated_at
        (filter Configuration.is_template (Db.configurations st)) in
    Ok (success_response
          (Some (ConfigListData
                   (map (fun t => Configuration.to_dict t
                                    (Db.version_count st (Configuration.id t))
                                    false)
                        templates)))
          None 200,
        st)).

(** *** POST /api/templates/<template_id>/create *)

Definition template_version_description (template_name : str) : str :=
  lit "Created from template " ++ [PyStr.dquote] ++ template_name
      ++ [PyStr.dquote].

Definition create_from_template (template_id : Z) : view :=
  jwt_required (fun user_id req st =>
    (found <- Db.session_get st template_id ;;
     match found with
     | None => Ok (not_found_response (lit "Template"), st)
     | Some template =>
        if negb (Configuration.is_template template) then
          Ok (error_response (lit "This configuration is not a template") [] 400,
              st)
        else
          let new_id := Db.next_id (map Configuration.id (Db.configurations st)) in
          let new_config :=
            Configuration.mk new_id user_id
              (Configuration.config_type template)
              (Configuration.name template ++ lit " - New")
              (Some (lit "Created from template: " ++ Configuration.name template))
              (Configuration.get_data template)
              (match Configuration.tags template with
               | Some ((_ :: _) as tags) => Some tags
               | _ => None
               end)
              false (now req) (now req) in
          let version :=
            ConfigurationVersion.mk
              (Db.next_id (map ConfigurationVersion.id (Db.configuration_versions st)))
              new_id 1 (Configuration.get_data template)
              (Some (template_version_description (Configuration.name template)))
              (now req) user_id in
          versions <- Db.add_version (Db.configuration_versions st) version ;;
           let st1 := Db.mk (Db.configurations st ++ [new_config]) versions
                            (Db.audit_log st) in
           let st2 := log req st1 user_id (lit "create_from_template")
                          (lit "configuration") (Some new_id)
                          (JObj [(lit "template_id", JNum template_id);
                                 (lit "template_name",
                                  JStr (Configuration.name template))]) in
           Ok (success_response
                 (Some (ConfigData
                          (Configuration.to_dict new_config
                             (Db.version_count st2 new_id) true)))
                 (Some (lit "Configuration created from template")) 201,
               st2)
     end)%py).

(** *** The routes as a whole *)

(** The views of both blueprints.  The application factory of this
    snapshot registers the blueprint of configs.py; the views of
    templates.py are served as the interface of the service lists them.
    The converter [<int:...>] of a URL rule matches digits only: the
    number in a path is never negative and has no upper bound, and a
    path with a sign matches no rule. *)

Inductive route :=
| POST_configs
| GET_config (config_id : N)
| PUT_config (config_id : N)
| DELETE_config (config_id : N)
| GET_config_versions (config_id : N)
| GET_config_version (config_id version_number : N)
| GET_templates
| POST_template_create (template_id : N).

Definition dispatch (r : route) : view :=
  match r with
  | POST_configs => create_configuration
  | GET_config i => get_configuration (Z.of_N i)
  | PUT_config i => update_configuration (Z.of_N i)
  | DELETE_config i => delete_configuration (Z.of_N i)
  | GET_config_versions i => get_configuration_versions (Z.of_N i)
  | GET_config_version i n => get_configuration_version (Z.of_N i) (Z.of_N n)
  | GET_templates => list_templates
  | POST_template_create i => create_from_template (Z.of_N i)
  end.

End Driver.

(** A driver that refuses every value whose type is not the column's;
    it serves to run the views on concrete requests. *)
Definition strict_text : json -> option (option str) := fun _ => None.
Definition strict_bool : json -> option bool := fun _ => None.

End Routes.

(* ===================================================================== *)
(** ** Sample requests and stores *)
(* ===================================================================== *)

Module Samples.

Import Http Routes.

Definition alice : Z := 1.
Definition bob : Z := 2.

(** A request with a token that verifies as [user]'s; its last field is
    read only when no token verifies. *)
Definition request_of (user : Z) (body : json) (clock : Z) : request :=
  mk_request (Some user) body clock None (lit "python-requests") NoAuthorization.

(** One request through the routes, under the strict driver. *)
Definition serve (r : route) (req : request) (st : Db.store)
  : response * Db.store :=
  handle (dispatch strict_text strict_bool r) req st.

Definition body_t1 (is_template : bool) : json :=
  JObj [(lit "name", JStr (lit "T1"));
        (lit "config_type", JStr (lit "ipsec"));
        (lit "data", JObj [(lit "k", JStr (lit "v"))]);
        (lit "is_template", JBool is_template)].

(** Alice has created the configuration T1: it is row 1. *)
Definition st_alice : Db.store :=
  snd (serve POST_configs (request_of alice (body_t1 false) 100) Db.empty).

(** The same, T1 being a template. *)
Definition st_template : Db.store :=
  snd (serve POST_configs (request_of alice (body_t1 true) 100) Db.empty).

Definition patch_data : json :=
  JObj [(lit "data", JObj [(lit "k", JStr (lit "v2"))])].

(** A tag of 51 characters. *)
Definition long_tag : str := repeat 97%N 51.

Definition patch_data_long_tag : json :=
  JObj [(lit "data", JObj [(lit "k", JStr (lit "v2"))]);
        (lit "tags", JArr [JStr long_tag])].

End Samples.

(* ===================================================================== *)
(** ** What each route writes to the audit table *)
(* ===================================================================== *)

Module Audited.

Import Routes.

(** The [action] of the call to [AuditLog.log] in the view of a route;
    the views that only read make no such call. *)
Definition action_of (r : route) : option str :=
  match r with
  | POST_configs => Some (lit "create")
  | PUT_config _ => Some (lit "update")
  | DELETE_config _ => Some (lit "delete")
  | POST_template_create _ => Some (lit "create_from_template")
  | GET_config _ | GET_config_versions _ | GET_config_version _ _
  | GET_templates => None
  end.

(** The status a route answers on success. *)
Definition success_code (r : route) : Z :=
  match r with
  | POST_configs | POST_template_create _ => 201
  | _ => 200
  end.

(** The [resource_id] of the entry: the id in the URL, or the key the new
    row gets. *)
Definition resource_of (r : route) (st : Db.store) : Z :=
  match r with
  | PUT_config i | DELETE_config i => Z.of_N i
  | _ => Db.next_id (map Configuration.id (Db.configurations st))
  end.

End Audited.

(* ===================================================================== *)
(** ** The regular expressions of the validators *)
(* ===================================================================== *)

Module Re.

(** The fragment of [re] the validators use: the anchors [^] and [$], a
    literal character, and a character set repeated at least [min]
    times ([[...]+], [[...]{2,}]). *)

(** A set [[...]] as its ranges; a single character is the range from
    itself to itself. *)
Definition charset := list (PyStr.char * PyStr.char).

(** The set a bracket expression denotes: [x-y] is a range, a hyphen
    that has no character after it stands for itself. *)
Fixpoint set (spec : str) : charset :=
  match spec with
  | [] => []
  | a :: t =>
      match t with
      | h :: b :: r =>
          if N.eqb h PyStr.hyphen then (a, b) :: set r else (a, a) :: set t
      | _ => (a, a) :: set t
      end
  end.

Definition in_set (cs : charset) (c : PyStr.char) : bool :=
  existsb (fun r => (fst r <=? c)%N && (c <=? snd r)%N) cs.

Inductive item :=
| Bol                                  (* ^ *)
| Eol                                  (* $ *)
| Chr (c : PyStr.char)                 (* a literal character, as \. or @ *)
| Rep (cs : charset) (min : nat).      (* [cs]+ is Rep cs 1, [cs]{2,} is Rep cs 2 *)

(** [$] without [re.MULTILINE]: the end of the string, or just before a
    newline that ends it. *)
Definition at_end (s : str) : bool :=
  match s with
  | [] => true
  | [c] => N.eqb c 10%N
  | _ => false
  end.

(** [cs{min,}] followed by the rest of the pattern, [k]; [start] tells
    whether the position is the beginning of the string. *)
Fixpoint rep (cs : charset) (k : bool -> str -> bool) (min : nat)
         (start : bool) (s : str) {struct s} : bool :=
  (match min with O => k start s | S _ => false end)
  || match s with
     | c :: t => in_set cs c && rep cs k (Nat.pred min) false t
     | [] => false
     end.

(** Whether the pattern matches at the current position. *)
Fixpoint match_here (p : list item) (start : bool) (s : str) : bool :=
  match p with
  | [] => true
  | Bol :: p' => start && match_here p' start s
  | Eol :: p' => at_end s && match_here p' start s
  | Chr c :: p' =>
      match s with
      | x :: t => N.eqb x c && match_here p' false t
      | [] => false
      end
  | Rep cs min :: p' => rep cs (match_here p') min start s
  end.

(** [re.match(pattern, string)] as a truth value. *)
Definition re_match (pattern : list item) (string : str) : bool :=
  match_here pattern true string.

End Re.

(* ===================================================================== *)
(** ** app/utils/validators.py: the names *)
(* ===================================================================== *)

Module Names.

(** The messages of the name validators; the argument is the name the
    message interpolates. *)
Inductive message :=
| InvalidInterfaceName (name : str)
    (* "Invalid interface name: {interface_name}" *)
| InterfaceNameTooLong (name : str)
    (* "Interface name too long (max 35 characters): {interface_name}" *)
| InvalidVdomName (name : str)
    (* "Invalid VDOM name: {vdom_name}" *)
| VdomNameTooLong (name : str)
    (* "VDOM name too long (max 31 characters): {vdom_name}" *)
| Phase1NameRequired
    (* "Phase1 name is required" *)
| InvalidPhase1Name (name : str)
    (* "Invalid Phase1 name (alphanumeric, hyphens, underscores only): {name}" *)
| Phase1NameTooLong (name : str)
    (* "Phase1 name too long (max 35 characters): {name}" *)
| PolicyNameTooLong (name : str).
    (* "Policy name too long (max 255 characters): {name}" *)

Definition verdict := (bool * option message)%type.

Definition valid : verdict := (true, None).
Definition invalid (m : message) : verdict := (false, Some m).

(** r'^[a-zA-Z0-9._-]+$' *)
Definition interface_re : list Re.item :=
  [Re.Bol; Re.Rep (Re.set (PyStr.lit "a-zA-Z0-9._-")) 1; Re.Eol].

(** r'^[a-zA-Z0-9_-]+$' *)
Definition name_re : list Re.item :=
  [Re.Bol; Re.Rep (Re.set (PyStr.lit "a-zA-Z0-9_-")) 1; Re.Eol].

(** The argument is a string or [None]. *)
Definition validate_interface_name (interface_name : option str) : verdict :=
  match interface_name with
  | None | Some [] => valid
  | Some name =>
      if negb (Re.re_match interface_re name)
      then invalid (InvalidInterfaceName name)
      else if PyStr.len name >? 35 then invalid (InterfaceNameTooLong name)
      else valid
  end.

Definition validate_vdom_name (vdom_name : option str) : verdict :=
  match vdom_name with
  | None | Some [] => valid
  | Some name =>
      if negb (Re.re_match name_re name) then invalid (InvalidVdomName name)
      else if PyStr.len name >? 31 then invalid (VdomNameTooLong name)
      else valid
  end.

Definition validate_phase1_name (name : option str) : verdict :=
  match name with
  | None | Some [] => invalid Phase1NameRequired
  | Some name =>
      if negb (Re.re_match name_re name) then invalid (InvalidPhase1Name name)
      else if PyStr.len name >? 35 then invalid (Phase1NameTooLong name)
      else valid
  end.

Definition validate_policy_name (name : option str) : verdict :=
  match name with
  | None | Some [] => valid
  | Some name =>
      if PyStr.len name >? 255 then invalid (PolicyNameTooLong name)
      else valid
  end.

End Names.

(* ===================================================================== *)
(** ** app/utils/auth.py: passwords and e-mail addresses *)
(* ===================================================================== *)

Module Credentials.

Inductive message :=
| PasswordTooShort
    (* "Password must be at least 8 characters long" *)
| PasswordNeedsNumber
    (* "Password must contain at least one number" *)
| PasswordNeedsUppercase
    (* "Password must contain at least one uppercase letter" *)
| PasswordNeedsLowercase
    (* "Password must contain at least one lowercase letter" *)
| InvalidEmailFormat.
    (* "Invalid email format" *)

Definition verdict := (bool * option message)%type.

Definition valid : verdict := (true, None).
Definition invalid (m : message) : verdict := (false, Some m).

Section Unicode.

(** The interpreter's Unicode tables outside ASCII: whether a character
    is a digit, uppercase, lowercase or titlecase. *)
Variable unicode_isdigit : PyStr.char -> bool.
Variable unicode_isupper : PyStr.char -> bool.
Variable unicode_islower : PyStr.char -> bool.
Variable unicode_istitle : PyStr.char -> bool.

Definition isdigit (c : PyStr.char) : bool :=
  if (c <? 128)%N then ((48 <=? c) && (c <=? 57))%N else unicode_isdigit c.

Definition isupper (c : PyStr.char) : bool :=
  if (c <? 128)%N then ((65 <=? c) && (c <=? 90))%N else unicode_isupper c.

Definition islower (c : PyStr.char) : bool :=
  if (c <? 128)%N then ((97 <=? c) && (c <=? 122))%N else unicode_islower c.

Definition istitle (c : PyStr.char) : bool :=
  if (c <? 128)%N then false else unicode_istitle c.

(** [s.isdigit()]: every character a digit, and at least one. *)
Definition str_isdigit (s : str) : bool :=
  match s with
  | [] => false
  | _ => forallb isdigit s
  end.

(** [s.isupper()]: no lowercase or titlecase character, and at least one
    uppercase one; on one character, whether it is uppercase. *)
Definition str_isupper (s : str) : bool :=
  match s with
  | [c] => isupper c
  | _ => negb (existsb (fun c => islower c || istitle c) s) && existsb isupper s
  end.

(** [s.islower()] *)
Definition str_islower (s : str) : bool :=
  match s with
  | [c] => islower c
  | _ => negb (existsb (fun c => isupper c || istitle c) s) && existsb islower s
  end.

(** The three methods on a value: only strings have them. *)
Definition py_isdigit (v : json) : result bool :=
  match v with JStr s => Ok (str_isdigit s) | _ => Raise AttributeError end.

Definition py_isupper (v : json) : result bool :=
  match v with JStr s => Ok (str_isupper s) | _ => Raise AttributeError end.

Definition py_islower (v : json) : result bool :=
  match v with JStr s => Ok (str_islower s) | _ => Raise AttributeError end.

(** [for char in password]: the characters of a string, the elements of
    a list, the keys of a dict. *)
Definition py_iter (v : json) : result (list json) :=
  match v with
  | JStr s => Ok (map (fun c => JStr [c]) s)
  | JArr l => Ok l
  | JObj m => Ok (map (fun kv => JStr (fst kv)) m)
  | _ => Raise TypeError
  end.

(** [any(f(x) for x in l)]: it stops at the first true. *)
Fixpoint any_of (f : json -> result bool) (l : list json) : result bool :=
  match l with
  | [] => Ok false
  | x :: r => (b <- f x ;; if b then Ok true else any_of f r)%py
  end.

(** [validate_password]; the argument is whatever the request body
    holds under 'password'. *)
Definition validate_password (password : json) : result verdict :=
  (n <- py_len password ;;
   if n <? 8 then Ok (invalid PasswordTooShort) else
   chars <- py_iter password ;;
   has_digit <- any_of py_isdigit chars ;;
   if negb has_digit then Ok (invalid PasswordNeedsNumber) else
   has_upper <- any_of py_isupper chars ;;
   if negb has_upper then Ok (invalid PasswordNeedsUppercase) else
   has_lower <- any_of py_islower chars ;;
   if negb has_lower then Ok (invalid PasswordNeedsLowercase) else
   Ok valid)%py.

End Unicode.

(** r'^[a-zA-Z0-9._%+-]+@[a-zA-Z0-9.-]+\.[a-zA-Z]{2,}$' *)
Definition email_regex : list Re.item :=
  [Re.Bol;
   Re.Rep (Re.set (PyStr.lit "a-zA-Z0-9._%+-")) 1;
   Re.Chr 64%N;
   Re.Rep (Re.set (PyStr.lit "a-zA-Z0-9.-")) 1;
   Re.Chr 46%N;
   Re.Rep (Re.set (PyStr.lit "a-zA-Z")) 2;
   Re.Eol].

Definition validate_email (email : str) : verdict :=
  if negb (Re.re_match email_regex email) then invalid InvalidEmailFormat
  else valid.

End Credentials.

(* ===================================================================== *)
(** ** app/models/user.py *)
(* ===================================================================== *)

Module User.

Record t := mk {
  id : Z;
  username : str;
  email : str;
  password_hash : str;
  is_active : bool;
  is_admin : bool;
  created_at : Z;
  updated_at : Z
}.

(** The dictionary [to_dict] builds; the last three keys are present
    when [include_email]. *)
Record dict := mk_dict {
  d_id : Z;
  d_username : str;
  d_is_admin : bool;
  d_created_at : Z;
  d_email : option str;
  d_is_active : option bool;
  d_updated_at : option Z
}.

Definition to_dict (self : t) (include_email : bool) : dict :=
  mk_dict (id self) (username self) (is_admin self) (created_at self)
          (if include_email then Some (email self) else None)
          (if include_email then Some (is_active self) else None)
          (if include_email then Some (updated_at self) else None).

End User.

(* ===================================================================== *)
(** ** app/routes/auth.py, and admin_required of app/utils/auth.py *)
(* ===================================================================== *)

Module Auth.

Import Http.

Abbreviation lit := PyStr.lit.

(** The users table beside the tables of the configurations. *)
Record store := mk_store {
  users : list User.t;
  db : Db.store
}.

Definition empty : store := mk_store [] Db.empty.

(** [db.session.get(User, user_id)] *)
Definition get_user (st : store) (user_id : Z) : option User.t :=
  find (fun u => User.id u =? user_id) (users st).

(** INSERT of a user: the columns [username] and [email] are UNIQUE. *)
Definition add_user (rows : list User.t) (u : User.t) : result (list User.t) :=
  if existsb (fun r => PyStr.eqb (User.username r) (User.username u)
                       || PyStr.eqb (User.email r) (User.email u)) rows
  then Raise SQLAlchemyError
  else Ok (rows ++ [u]).

(** The constraints of the table: [id] is the primary key, [username]
    and [email] are declared [unique=True]. *)
Definition unique_columns (rows : list User.t) : Prop :=
  NoDup (map User.id rows)
  /\ NoDup (map User.username rows)
  /\ NoDup (map User.email rows).

(** [AuditLog.log] on the audit table of the store. *)
Definition log (req : request) (st : store) (user_id : Z)
           (action resource_type : str) (resource_id : option Z)
           (details : json) : store :=
  mk_store (users st)
           (Http.log req (db st) user_id action resource_type resource_id details).

(** The messages of the three validators of a registration. *)
Inductive validation_message :=
| OfUsername (m : Validators.message)
| OfCredentials (m : Credentials.message).

Inductive payload :=
| UserData (d : User.dict)
| LoginData (user : User.dict) (access_token refresh_token : str).

(** The JSON envelope and the status code; [success] is [None] where
    the body has no such key. *)
Record response := mk_response {
  status_code : Z;
  success : option bool;
  message : option str;
  error : option str;
  errors : list (str * option validation_message);
  data : option payload
}.

(** app/utils/responses.py *)
Definition success_response (data : option payload) (message : option str)
           (status_code : Z) : response :=
  mk_response status_code (Some true) message None [] data.

Definition error_response (message : str)
           (errors : list (str * option validation_message))
           (status_code : Z) : response :=
  mk_response status_code (Some false) None (Some message) errors None.

Definition validation_error_response
           (errors : list (str * option validation_message)) : response :=
  error_response (lit "Validation failed") errors 422.

(** app/utils/errors.py, as in [Http]. *)
Definition handle_no_authorization_error : response :=
  mk_response 401 (Some false) (Some (lit "Missing or invalid authorization token"))
              (Some (lit "Unauthorized")) [] None.

Definition invalid_token_callback : response :=
  mk_response 401 (Some false) (Some (lit "The token is invalid. Please login again."))
              (Some (lit "Invalid Token")) [] None.

Definition expired_token_callback : response :=
  mk_response 401 (Some false) (Some (lit "The token has expired. Please login again."))
              (Some (lit "Token Expired")) [] None.

Definition jwt_error_response (e : jwt_failure) : response :=
  match e with
  | NoAuthorization => handle_no_authorization_error
  | InvalidToken => invalid_token_callback
  | ExpiredToken => expired_token_callback
  end.

Definition handle_database_error : response :=
  mk_response 500 (Some false)
              (Some (lit "A database error occurred. Please try again later."))
              (Some (lit "Database Error")) [] None.

Definition handle_unexpected_error : response :=
  mk_response 500 (Some false)
              (Some (lit "An unexpected error occurred. Please try again later."))
              (Some (lit "Unexpected Error")) [] None.

Definition view := request -> store -> result (response * store).

Definition jwt_required (f : Z -> view) : view :=
  fun req st =>
    match jwt_identity req with
    | None => Ok (jwt_error_response (jwt_error req), st)
    | Some user_id => f user_id req st
    end.

Definition handle (v : view) (req : request) (st : store) : response * store :=
  match v req st with
  | Ok r => r
  | Raise SQLAlchemyError => (handle_database_error, st)
  | Raise _ => (handle_unexpected_error, st)
  end.

(** What the view takes from outside the code: the interpreter's Unicode
    tables, werkzeug's password hashing, the token factory of
    flask_jwt_extended, and the row the database engine returns first
    where the query does not order its rows. *)
Record library := mk_library {
  unicode_alnum : PyStr.char -> bool;
  unicode_isdigit : PyStr.char -> bool;
  unicode_isupper : PyStr.char -> bool;
  unicode_islower : PyStr.char -> bool;
  unicode_istitle : PyStr.char -> bool;
  unicode_lower : str -> str;
  generate_password_hash : json -> N -> result str;
  check_password_hash : str -> json -> result bool;
  create_access_token : Z -> N -> str;
  create_refresh_token : Z -> N -> str;
  first_index : list User.t -> nat
}.

Section Library.

Variable lib : library.

(** [s.lower()]: on ASCII text the letters A-Z move to a-z; other text
    is lowered by the interpreter's tables. *)
Definition lower (s : str) : str :=
  if forallb (fun c => (c <? 128)%N) s
  then map (fun c => if ((65 <=? c) && (c <=? 90))%N then (c + 32)%N else c) s
  else unicode_lower lib s.

(** [query.first()] on a query that states no order. *)
Definition first (rows : list User.t) : option User.t :=
  nth_error rows (first_index lib rows mod List.length rows).

Definition required_fields : list str :=
  [lit "username"; lit "email"; lit "password"].

(** [[field for field in required_fields if not data.get(field)]] *)
Fixpoint missing (data : json) (fields : list str) : result (list str) :=
  match fields with
  | [] => Ok []
  | field :: rest =>
      (v <- py_get data field JNull ;;
       r <- missing data rest ;;
       Ok (if negb (truthy v) then field :: r else r))%py
  end.

(** *** POST /api/auth/register *)

(** [entropy] is what the salt of the hash is drawn from. *)
Definition register (entropy : N) : view :=
  fun req st =>
    let data := get_json req in
    if negb (truthy data) then
      Ok (error_response (lit "No data provided") [] 400, st)
    else
    (missing_fields <- missing data required_fields ;;
     match missing_fields with
     | _ :: _ =>
         Ok (error_response
               (lit "Missing required fields: "
                ++ PyStr.join (lit ", ") missing_fields) [] 400,
             st)
     | [] =>
         username <- (v <- py_get data (lit "username") (JStr []) ;; py_strip v) ;;
         email <- (v <- py_get data (lit "email") (JStr []) ;;
                   s <- py_strip v ;; Ok (lower s)) ;;
         password <- py_get data (lit "password") JNull ;;
         let '(username_valid, username_error) :=
           Validators.validate_username (unicode_alnum lib) username in
         let '(email_valid, email_error) := Credentials.validate_email email in
         '(password_valid, password_error) <-
           Credentials.validate_password
             (unicode_isdigit lib) (unicode_isupper lib) (unicode_islower lib)
             (unicode_istitle lib) password ;;
         let errors :=
           (if username_valid then []
            else [(lit "username", option_map OfUsername username_error)])
           ++ (if email_valid then []
               else [(lit "email", option_map OfCredentials email_error)])
           ++ (if password_valid then []
               else [(lit "password", option_map OfCredentials password_error)]) in
         match errors with
         | _ :: _ => Ok (validation_error_response errors, st)
         | [] =>
             let existing_user :=
               first (filter (fun u => PyStr.eqb (User.username u) username
                                       || PyStr.eqb (User.email u) email)
                             (users st)) in
             match existing_user with
             | Some existing =>
                 if PyStr.eqb (User.username existing) username then
                   Ok (error_response (lit "Username already exists") [] 409, st)
                 else
                   Ok (error_response (lit "Email already exists") [] 409, st)
             | None =>
                 password_hash <- generate_password_hash lib password entropy ;;
                 let user :=
                   User.mk (Db.next_id (map User.id (users st)))
                           username email password_hash true false
                           (now req) (now req) in
                 rows <- add_user (users st) user ;;
                 (* db.session.commit() *)
                 let st1 := mk_store rows (db st) in
                 let st2 := log req st1 (User.id user) (lit "register") (lit "user")
                                (Some (User.id user)) JNull in
                 Ok (success_response
                       (Some (UserData (User.to_dict user true)))
                       (Some (lit "User registered successfully")) 201,
                     st2)
             end
         end
     end)%py.

(** *** POST /api/auth/login *)

(** [entropy] is what the identifiers of the two tokens are drawn
    from. *)
Definition login (entropy : N) : view :=
  fun req st =>
    let data := get_json req in
    if negb (truthy data) then
      Ok (error_response (lit "No data provided") [] 400, st)
    else
    (username_or_email <-
       (v <- py_get data (lit "username") (JStr []) ;; py_strip v) ;;
     password <- py_get data (lit "password") JNull ;;
     if negb (PyStr.nonempty username_or_email) || negb (truthy password) then
       Ok (error_response (lit "Username and password are required") [] 400, st)
     else
     let user :=
       first (filter (fun u => PyStr.eqb (User.username u) username_or_email
                               || PyStr.eqb (User.email u)
                                            (lower username_or_email))
                     (users st)) in
     match user with
     | None => Ok (error_response (lit "Invalid username or password") [] 401, st)
     | Some user =>
         password_ok <- check_password_hash lib (User.password_hash user) password ;;
         if negb password_ok then
           let st1 := log req st (User.id user) (lit "login_failed") (lit "user")
                          (Some (User.id user))
                          (JObj [(lit "reason", JStr (lit "invalid_password"))]) in
           Ok (error_response (lit "Invalid username or password") [] 401, st1)
         else if negb (User.is_active user) then
           Ok (error_response (lit "Account is inactive") [] 401, st)
         else
           let access_token := create_access_token lib (User.id user) entropy in
           let refresh_token := create_refresh_token lib (User.id user) entropy in
           let st1 := log req st (User.id user) (lit "login") (lit "user")
                          (Some (User.id user)) JNull in
           Ok (success_response
                 (Some (LoginData (User.to_dict user true)
                                  access_token refresh_token))
                 (Some (lit "Login successful")) 200,
               st1)
     end)%py.

(** *** GET /api/auth/me *)

Definition get_current_user : view :=
  jwt_required (fun user_id req st =>
    match get_user st user_id with
    | None => Ok (error_response (lit "User not found") [] 404, st)
    | Some user =>
        Ok (success_response (Some (UserData (User.to_dict user true))) None 200,
            st)
    end).

(** *** POST /api/auth/logout *)

Definition logout : view :=
  jwt_required (fun user_id req st =>
    let st1 := log req st user_id (lit "logout") (lit "user") (Some user_id) JNull in
    Ok (success_response None (Some (lit "Logout successful")) 200, st1)).

(** *** admin_required *)

(** The body of the 403 has the keys 'error' and 'message' only. *)
Definition admin_forbidden : response :=
  mk_response 403 None
              (Some (lit "You do not have permission to access this resource"))
              (Some (lit "Admin privileges required")) [] None.

Definition admin_required (fn : view) : view :=
  jwt_required (fun user_id req st =>
    match get_user st user_id with
    | Some user => if negb (User.is_admin user) then Ok (admin_forbidden, st)
                   else fn req st
    | None => Ok (admin_forbidden, st)
    end).

(** *** The application *)

Variable bind_text : json -> option (option str).
Variable bind_bool : json -> option bool.

(** The routes of the authentication blueprint and, on the tables of
    the configurations, those of [Routes]. *)
Inductive route :=
| POST_register (entropy : N)
| POST_login (entropy : N)
| GET_me
| POST_logout
| Configs (r : Routes.route).

(** The store a request leaves.  The routes left out (the listing
    [GET /api/configs], the token refresh, the readers of admin.py)
    write to no table. *)
Definition serve (r : route) (req : request) (st : store) : store :=
  match r with
  | POST_register entropy => snd (handle (register entropy) req st)
  | POST_login entropy => snd (handle (login entropy) req st)
  | GET_me => snd (handle get_current_user req st)
  | POST_logout => snd (handle logout req st)
  | Configs r =>
      mk_store (users st)
               (snd (Http.handle (Routes.dispatch bind_text bind_bool r) req (db st)))
  end.

(** The stores the application can be in: it starts on empty tables and
    serves one request after another. *)
Inductive reachable : store -> Prop :=
| reachable_empty : reachable empty
| reachable_step : forall st r req,
    reachable st -> reachable (serve r req st).

End Library.

(** A library for running the views on concrete ASCII requests: the
    passwords are kept by werkzeug's method "plain", the tokens are the
    identity and the entropy in decimal, and the engine returns the rows
    in insertion order. *)
Definition sample_library : library :=
  mk_library
    (fun _ => false) (fun _ => false) (fun _ => false) (fun _ => false)
    (fun _ => false) (fun s => s)
    (fun password _ =>
       match password with
       | JStr p => Ok (lit "plain$$" ++ p)
       | _ => Raise AttributeError
       end)
    (fun pwhash password =>
       match password with
       | JStr p => Ok (PyStr.eqb pwhash (lit "plain$$" ++ p))
       | _ => Raise AttributeError
       end)
    (fun identity entropy =>
       lit "a." ++ PyStr.str_of_int identity ++ [46%N]
       ++ PyStr.str_of_int (Z.of_N entropy))
    (fun identity entropy =>
       lit "r." ++ PyStr.str_of_int identity ++ [46%N]
       ++ PyStr.str_of_int (Z.of_N entropy))
    (fun _ => 0%nat).

End Auth.

(* ===================================================================== *)
(** ** Sample registrations *)
(* ===================================================================== *)

Module AuthSamples.

Import Http Auth.

(** A request without token. *)
Definition anonymous (body : json) (clock : Z) : request :=
  mk_request None body clock None (lit "python-requests") NoAuthorization.

(** Carol registers; the body also asks for administrator rights. *)
Definition register_carol : json :=
  JObj [(lit "username", JStr (lit " carol_1 "));
        (lit "email", JStr (lit "Carol@Example.com"));
        (lit "password", JStr (lit "TestPass123"));
        (lit "is_admin", JBool true)].

Definition st_carol : store :=
  serve sample_library Routes.strict_text Routes.strict_bool
        (POST_register 7) (anonymous register_carol 100) empty.

Definition login_carol (password : string) : json :=
  JObj [(lit "username", JStr (lit "carol_1"));
        (lit "password", JStr (lit password))].

(** Carol, the user of id 1, creates the configuration T1, or the
    template T1, and then sends new data for it. *)
Definition carol : Z := 1.

Definition st_carol_t1 (is_template : bool) : store :=
  serve sample_library Routes.strict_text Routes.strict_bool
        (Configs Routes.POST_configs)
        (Samples.request_of carol (Samples.body_t1 is_template) 150) st_carol.

Definition st_carol_t1_updated : store :=
  serve sample_library Routes.strict_text Routes.strict_bool
        (Configs (Routes.PUT_config 1))
        (Samples.request_of carol Samples.patch_data 200) (st_carol_t1 false).

End AuthSamples.

(* ===================================================================== *)
(** * Facts *)
(* ===================================================================== *)

(** ** Strings *)

Module PyStrFacts.

Import PyStr.

Lemma eqb_refl (s : str) : eqb s s = true.
Proof.
  induction s as [|c s IH]; simpl; [reflexivity|].
  now rewrite N.eqb_refl, IH.
Qed.

Lemma eqb_eq (a b : str) : eqb a b = true <-> a = b.
Proof.
  split.
  - revert b; induction a as [|x a IH]; intros [|y b]; simpl; try easy.
    intros H. apply andb_true_iff in H as [Hx Hr].
    apply N.eqb_eq in Hx. apply IH in Hr. now subst.
  - intros ->. apply eqb_refl.
Qed.

(** *** strip *)

Lemma lstrip_by_idem sp (s : str) :
  lstrip_by sp (lstrip_by sp s) = lstrip_by sp s.
Proof.
  induction s as [|c s IH]; simpl; [reflexivity|].
  destruct (sp c) eqn:E; [exact IH|].
  simpl. now rewrite E.
Qed.

Lemma lstrip_by_head sp c (s : str) :
  sp c = false -> lstrip_by sp (c :: s) = c :: s.
Proof. intros H; simpl; now rewrite H. Qed.

Lemma lstrip_by_snoc sp (u : str) c :
  sp c = false -> exists v, lstrip_by sp (u ++ [c]) = v ++ [c].
Proof.
  intros H. induction u as [|x u IH]; simpl.
  - rewrite H. now exists [].
  - destruct (sp x); [exact IH|]. now exists (x :: u).
Qed.

Lemma lstrip_by_Forall sp (P : char -> Prop) (s : str) :
  Forall P s -> Forall P (lstrip_by sp s).
Proof.
  induction 1 as [|c s Hc Hs IH]; simpl; [constructor|].
  destruct (sp c); [exact IH|now constructor].
Qed.

Lemma strip_by_Forall sp (P : char -> Prop) (s : str) :
  Forall P s -> Forall P (strip_by sp s).
Proof.
  intros H. unfold strip_by, rstrip_by.
  apply Forall_rev, lstrip_by_Forall, Forall_rev, lstrip_by_Forall, H.
Qed.

Lemma strip_by_trimmed_id sp (s : str) : trimmed sp s -> strip_by sp s = s.
Proof.
  intros [Hl Hr]. unfold strip_by, rstrip_by.
  now rewrite Hl, Hr, rev_involutive.
Qed.

Lemma strip_by_is_trimmed sp (s : str) : trimmed sp (strip_by sp s).
Proof.
  unfold trimmed, strip_by, rstrip_by. split.
  - remember (lstrip_by sp s) as t eqn:Ht.
    assert (Hfix : lstrip_by sp t = t) by (subst t; apply lstrip_by_idem).
    clear Ht. destruct t as [|c r]; [reflexivity|].
    simpl in Hfix. destruct (sp c) eqn:E.
    + exfalso.
      assert (Hlen : (List.length (lstrip_by sp r) <= List.length r)%nat).
      { clear. induction r as [|x r IH]; simpl; [lia|].
        destruct (sp x); simpl; lia. }
      rewrite Hfix in Hlen. simpl in Hlen. lia.
    + simpl rev. destruct (lstrip_by_snoc sp (rev r) c E) as [v Hv].
      rewrite Hv, rev_app_distr. simpl. now rewrite E.
  - rewrite rev_involutive. apply lstrip_by_idem.
Qed.

Lemma strip_by_idem sp (s : str) :
  strip_by sp (strip_by sp s) = strip_by sp s.
Proof. apply strip_by_trimmed_id, strip_by_is_trimmed. Qed.

Lemma strip_by_no_space sp (s : str) :
  Forall (fun c => sp c = false) s -> strip_by sp s = s.
Proof.
  intros H. apply strip_by_trimmed_id. split.
  - destruct H as [|c r Hc _]; [reflexivity|]. now apply lstrip_by_head.
  - apply Forall_rev in H. destruct H as [|c r Hc _]; [reflexivity|].
    now apply lstrip_by_head.
Qed.

(** *** split and join *)

Lemma split_not_nil sep (s : str) : split sep s <> [].
Proof.
  destruct s as [|c r]; simpl; [easy|].
  destruct (N.eqb c sep); [easy|]. destruct (split sep r); easy.
Qed.

Lemma split_no_sep sep (s : str) :
  contains sep s = false -> split sep s = [s].
Proof.
  unfold contains. induction s as [|c r IH]; simpl; [reflexivity|].
  intros H. apply orb_false_iff in H as [Hc Hr].
  rewrite N.eqb_sym, Hc. now rewrite (IH Hr).
Qed.

Lemma split_app_sep sep (a b : str) :
  contains sep a = false ->
  split sep (a ++ sep :: b) = a :: split sep b.
Proof.
  unfold contains. induction a as [|c r IH]; simpl.
  - intros _. now rewrite N.eqb_refl.
  - intros H. apply orb_false_iff in H as [Hc Hr].
    rewrite N.eqb_sym, Hc. now rewrite (IH Hr).
Qed.

Lemma contains_app c (a b : str) :
  contains c (a ++ b) = contains c a || contains c b.
Proof. unfold contains. apply existsb_app. Qed.

Lemma split_join sep (l : list str) :
  l <> [] ->
  Forall (fun t => contains sep t = false) l ->
  split sep (join [sep] l) = l.
Proof.
  induction l as [|x r IH]; [easy|]. intros _ H.
  inversion H as [|? ? Hx Hr]; subst.
  destruct r as [|y r'].
  - simpl. now apply split_no_sep.
  - change (join [sep] (x :: y :: r')) with (x ++ [sep] ++ join [sep] (y :: r')).
    simpl app. rewrite split_app_sep by exact Hx.
    f_equal. now apply IH.
Qed.

Lemma join_nil_inv sep (l : list str) :
  Forall (fun t => t <> []) l -> join sep l = [] -> l = [].
Proof.
  destruct l as [|x r]; [reflexivity|]. intros H.
  inversion H as [|? ? Hx _]; subst.
  destruct r; simpl; intros E.
  - now subst.
  - destruct x; [easy|discriminate].
Qed.

(** *** decimal rendering *)

Lemma digit_char_is_digit d : 0 <= d <= 9 -> is_digit (digit_char d).
Proof. unfold is_digit, digit_char. lia. Qed.

Lemma digits_fuel_Forall fuel : forall n (acc : str),
  Forall is_digit acc -> Forall is_digit (digits_fuel fuel n acc).
Proof.
  induction fuel as [|f IH]; intros n acc Hacc; simpl.
  - constructor; [|exact Hacc].
    apply digit_char_is_digit. pose proof (Z.mod_pos_bound n 10). lia.
  - assert (Forall is_digit (digit_char (n mod 10) :: acc)).
    { constructor; [|exact Hacc].
      apply digit_char_is_digit. pose proof (Z.mod_pos_bound n 10). lia. }
    destruct (n <? 10); [assumption|]. now apply IH.
Qed.

Lemma digits_fuel_not_nil fuel : forall n (acc : str),
  digits_fuel fuel n acc <> [].
Proof.
  induction fuel as [|f IH]; intros n acc; simpl; [easy|].
  destruct (n <? 10); [easy|apply IH].
Qed.

Lemma str_of_nonneg_digits n : Forall is_digit (str_of_nonneg n).
Proof. apply digits_fuel_Forall. constructor. Qed.

Lemma digits_no_char c (s : str) :
  ~ is_digit c -> Forall is_digit s -> contains c s = false.
Proof.
  intros Hc H. unfold contains. induction H as [|x r Hx _ IH]; simpl; [reflexivity|].
  rewrite IH, orb_false_r. apply N.eqb_neq. intros ->. now apply Hc.
Qed.

End PyStrFacts.

(** ** Validators *)

Module ValidatorsFacts.

Import PyStr PyStrFacts Validators.

Section Unicode.

Variable unicode_decimal : char -> option Z.

Local Abbreviation int_digits := (Validators.int_digits unicode_decimal).
Local Abbreviation int_of_str := (Validators.int_of_str unicode_decimal).
Local Abbreviation py_int := (Validators.py_int unicode_decimal).
Local Abbreviation validate_port := (Validators.validate_port unicode_decimal).
Local Abbreviation validate_port_range :=
  (Validators.validate_port_range unicode_decimal).

Lemma int_digits_digit d (r : str) a flag :
  0 <= d <= 9 ->
  int_digits (digit_char d :: r) a flag = int_digits r (10 * a + d) true.
Proof.
  intros Hd. simpl. unfold digit_char, underscore, digit_value.
  replace (Z.to_N (48 + d) =? 95)%N with false
    by (symmetry; apply N.eqb_neq; lia).
  replace ((48 <=? Z.to_N (48 + d)) && (Z.to_N (48 + d) <=? 57))%N with true
    by (symmetry; apply andb_true_iff; split; apply N.leb_le; lia).
  do 2 f_equal. lia.
Qed.

Lemma int_digits_render fuel : forall n (tl : str),
  0 <= n < 2 ^ (Z.of_nat fuel + 1) ->
  int_digits (digits_fuel fuel n tl) 0 false = int_digits tl n true.
Proof.
  induction fuel as [|f IH]; intros n tl Hn.
  - simpl digits_fuel. change (2 ^ (Z.of_nat 0 + 1)) with 2 in Hn.
    rewrite int_digits_digit by (pose proof (Z.mod_pos_bound n 10); lia).
    f_equal. rewrite Z.mod_small by lia. lia.
  - simpl digits_fuel. destruct (n <? 10) eqn:E.
    + apply Z.ltb_lt in E.
      rewrite int_digits_digit by (pose proof (Z.mod_pos_bound n 10); lia).
      f_equal. rewrite Z.mod_small by lia. lia.
    + apply Z.ltb_ge in E.
      rewrite IH.
      * rewrite int_digits_digit by (pose proof (Z.mod_pos_bound n 10); lia).
        f_equal. pose proof (Z.div_mod n 10). lia.
      * replace (Z.of_nat (S f) + 1) with (Z.succ (Z.of_nat f + 1)) in Hn by lia.
        rewrite Z.pow_succ_r in Hn by lia.
        split; [apply Z.div_pos; lia|].
        apply Z.div_lt_upper_bound; lia.
Qed.

Lemma digit_not_int_space c : is_digit c -> int_space c = false.
Proof.
  unfold is_digit, int_space. intros H.
  replace (c <? 128)%N with true by (symmetry; apply N.ltb_lt; lia).
  replace (c <=? 13)%N with false by (symmetry; apply N.leb_gt; lia).
  replace (c =? 32)%N with false by (symmetry; apply N.eqb_neq; lia).
  now rewrite andb_false_r.
Qed.

(** [int(str(n)) == n] for a non-negative [n]. *)
Lemma int_of_str_render n : 0 <= n -> int_of_str (str_of_nonneg n) = Ok n.
Proof.
  intros Hn. unfold Validators.int_of_str.
  rewrite strip_by_no_space.
  2:{ eapply Forall_impl; [|apply str_of_nonneg_digits].
      intros c Hc. now apply digit_not_int_space. }
  pose proof (str_of_nonneg_digits n) as Hd.
  assert (Hv : int_digits (str_of_nonneg n) 0 false = Some n).
  { unfold str_of_nonneg. rewrite int_digits_render; [reflexivity|].
    rewrite Z2Nat.id by apply Z.log2_nonneg.
    destruct (Z.eq_dec n 0) as [->|Hz]; [simpl; lia|].
    pose proof (Z.log2_spec n). replace (Z.log2 n + 1) with (Z.succ (Z.log2 n)) by lia.
    lia. }
  destruct (str_of_nonneg n) as [|c r] eqn:E.
  - exfalso. revert E. apply digits_fuel_not_nil.
  - inversion Hd as [|? ? Hc _]; subst. unfold is_digit in Hc.
    unfold hyphen, plus_sign.
    replace (c =? 45)%N with false by (symmetry; apply N.eqb_neq; lia).
    replace (c =? 43)%N with false by (symmetry; apply N.eqb_neq; lia).
    now rewrite Hv.
Qed.

Lemma str_of_nonneg_no_hyphen n : contains hyphen (str_of_nonneg n) = false.
Proof.
  apply digits_no_char; [|apply str_of_nonneg_digits].
  unfold is_digit, hyphen. lia.
Qed.

Lemma str_of_nonneg_not_nil n : str_of_nonneg n <> [].
Proof. apply digits_fuel_not_nil. Qed.

Lemma validate_port_render n :
  0 <= n ->
  validate_port (JStr (str_of_nonneg n)) =
  Ok (if (1 <=? n) && (n <=? 65535) then valid
      else invalid (PortOutOfRange (JStr (str_of_nonneg n)))).
Proof.
  intros Hn. unfold Validators.validate_port.
  destruct (str_of_nonneg n) as [|c r] eqn:E.
  - exfalso. revert E. apply str_of_nonneg_not_nil.
  - rewrite <- E. simpl Validators.py_int.
    rewrite int_of_str_render by exact Hn.
    now destruct ((1 <=? n) && (n <=? 65535)).
Qed.

(** [validate_port] catches what [int()] raises: it always returns. *)
Lemma validate_port_total port : exists v, validate_port port = Ok v.
Proof.
  unfold Validators.validate_port.
  destruct port as [| b | n | s | l | m]; simpl.
  - eexists; reflexivity.
  - destruct ((1 <=? (if b then 1 else 0)) && ((if b then 1 else 0) <=? 65535));
      eexists; reflexivity.
  - destruct ((1 <=? n) && (n <=? 65535)); eexists; reflexivity.
  - destruct s as [|c r]; [eexists; reflexivity|].
    unfold Validators.int_of_str.
    match goal with
    | |- context [match ?p with Some _ => _ | None => _ end] => destruct p as [k|]
    end.
    + destruct ((1 <=? k) && (k <=? 65535)); eexists; reflexivity.
    + eexists; reflexivity.
  - eexists; reflexivity.
  - eexists; reflexivity.
Qed.

(** The range ["a-b"] rendered from two non-negative integers. *)
Lemma validate_port_range_render a b :
  1 <= a <= 65535 -> 1 <= b <= 65535 ->
  validate_port_range (render_range a b) =
  Ok (if a >? b then invalid (PortRangeOrder (render_range a b)) else valid).
Proof.
  intros Ha Hb. unfold render_range, str_of_int.
  replace (a <? 0) with false by (symmetry; apply Z.ltb_ge; lia).
  replace (b <? 0) with false by (symmetry; apply Z.ltb_ge; lia).
  unfold Validators.validate_port_range.
  destruct (str_of_nonneg a ++ [hyphen] ++ str_of_nonneg b) as [|c r] eqn:E.
  - exfalso. destruct (str_of_nonneg a); discriminate.
  - rewrite <- E. clear E c r.
    replace (contains hyphen (str_of_nonneg a ++ [hyphen] ++ str_of_nonneg b))
      with true
      by (rewrite !contains_app; simpl; now rewrite orb_true_r).
    simpl app. rewrite split_app_sep by apply str_of_nonneg_no_hyphen.
    rewrite split_no_sep by apply str_of_nonneg_no_hyphen.
    rewrite !validate_port_render by lia.
    replace ((1 <=? a) && (a <=? 65535)) with true
      by (symmetry; apply andb_true_iff; split; apply Z.leb_le; lia).
    replace ((1 <=? b) && (b <=? 65535)) with true
      by (symmetry; apply andb_true_iff; split; apply Z.leb_le; lia).
    simpl. rewrite !int_of_str_render by lia. simpl.
    now destruct (a >? b).
Qed.

End Unicode.

End ValidatorsFacts.

(** ** Where the validators return, raise and accept *)

Module ValidatorsCases.

Import PyStr PyStrFacts Validators.

Section Unicode.

Variable unicode_decimal : char -> option Z.
Variable unicode_alnum : char -> bool.

(** [validate_port] on a string: valid for the empty string, otherwise
    what [int()] makes of it. *)
Lemma validate_port_str (s : str) :
  Validators.validate_port unicode_decimal (JStr s)
  = Ok (match s with
        | [] => valid
        | _ => match Validators.int_of_str unicode_decimal s with
               | Ok n => if (1 <=? n) && (n <=? 65535) then valid
                         else invalid (PortOutOfRange (JStr s))
               | Raise _ => invalid (InvalidPortNumber (JStr s))
               end
        end).
Proof.
  destruct s as [|c r]; [reflexivity|].
  unfold Validators.validate_port, Validators.py_int.
  destruct (Validators.int_of_str unicode_decimal (c :: r)) as [n|e] eqn:E.
  - now destruct ((1 <=? n) && (n <=? 65535)).
  - unfold Validators.int_of_str in E.
    destruct (match strip_by int_space (c :: r) with
              | [] => None
              | c0 :: r0 => _
              end); [discriminate|].
    now inversion E.
Qed.

(** [validate_port_range] returns, except on a string with exactly one
    hyphen, an empty side, and an other side that is empty or a port:
    there it raises [ValueError]. *)
Lemma validate_port_range_returns_or_raises (s : str) :
  (exists v, Validators.validate_port_range unicode_decimal s = Ok v)
  \/ (Validators.validate_port_range unicode_decimal s = Raise ValueError
      /\ exists p0 p1, split hyphen s = [p0; p1] /\ (p0 = [] \/ p1 = [])).
Proof.
  unfold Validators.validate_port_range.
  destruct s as [|c r]; [left; eexists; reflexivity|].
  destruct (contains hyphen (c :: r));
    [|left; rewrite validate_port_str; eexists; reflexivity].
  destruct (split hyphen (c :: r)) as [|p0 [|p1 [|p2 ps]]];
    try (left; eexists; reflexivity).
  rewrite !validate_port_str. simpl Py.bind.
  destruct p0 as [|c0 r0].
  - destruct p1 as [|c1 r1].
    + right. split; [reflexivity|]. exists [], []. split; [reflexivity|now left].
    + simpl negb. cbv iota.
      destruct (Validators.int_of_str unicode_decimal (c1 :: r1)) as [n|e].
      * destruct ((1 <=? n) && (n <=? 65535)).
        -- right. split; [reflexivity|]. exists [], (c1 :: r1).
           split; [reflexivity|now left].
        -- left. eexists; reflexivity.
      * left. eexists; reflexivity.
  - destruct (Validators.int_of_str unicode_decimal (c0 :: r0)) as [n|e] eqn:E0.
    + destruct ((1 <=? n) && (n <=? 65535)); [|left; eexists; reflexivity].
      simpl negb. cbv iota.
      destruct p1 as [|c1 r1].
      * right. split; [reflexivity|]. exists (c0 :: r0), [].
        split; [reflexivity|now right].
      * destruct (Validators.int_of_str unicode_decimal (c1 :: r1)) as [m|e] eqn:E1.
        -- destruct ((1 <=? m) && (m <=? 65535)); [|left; eexists; reflexivity].
           left. simpl. destruct (n >? m); eexists; reflexivity.
        -- left. eexists; reflexivity.
    + left. eexists; reflexivity.
Qed.

(** [validate_username] accepts exactly the strings of 3 to 80 characters,
    each alphanumeric, a hyphen or an underscore, that hold at least one
    character other than hyphen and underscore. *)
Lemma validate_username_accepts (username : str) :
  Validators.validate_username unicode_alnum username = valid
  <-> 3 <= len username <= 80
      /\ Forall (fun c => c = hyphen \/ c = underscore
                          \/ Validators.char_isalnum unicode_alnum c = true)
                username
      /\ Exists (fun c => c <> hyphen /\ c <> underscore) username.
Proof.
  unfold Validators.validate_username.
  set (kept := remove hyphen (remove underscore username)).
  assert (Hkept : forall c, In c kept <->
                            In c username /\ c <> hyphen /\ c <> underscore).
  { intros c. unfold kept, remove. rewrite !filter_In, !negb_true_iff, !N.eqb_neq.
    tauto. }
  assert (Halnum : Validators.isalnum unicode_alnum kept = true
                   <-> kept <> []
                       /\ Forall (fun c => Validators.char_isalnum unicode_alnum c = true)
                                 kept).
  { unfold Validators.isalnum. destruct kept as [|k ks] eqn:Ek.
    - split; [discriminate|intros [H _]; now elim H].
    - rewrite forallb_forall, Forall_forall. split.
      + intros H. split; [discriminate|exact H].
      + intros [_ H]. exact H. }
  destruct (len username <? 3) eqn:E3.
  { apply Z.ltb_lt in E3. split; [discriminate|intros [H _]; lia]. }
  apply Z.ltb_ge in E3.
  rewrite Z.gtb_ltb. destruct (80 <? len username) eqn:E80.
  { apply Z.ltb_lt in E80. split; [discriminate|intros [H _]; lia]. }
  apply Z.ltb_ge in E80.
  destruct (Validators.isalnum unicode_alnum kept) eqn:Ea; simpl.
  - split; [intros _|reflexivity].
    destruct (proj1 Halnum eq_refl) as [Hne Hall]. split; [lia|]. split.
    + apply Forall_forall. intros c Hc.
      destruct (N.eq_dec c hyphen) as [->|Hh]; [now left|].
      destruct (N.eq_dec c underscore) as [->|Hu]; [right; now left|].
      right; right. rewrite Forall_forall in Hall. apply Hall.
      apply Hkept. tauto.
    + destruct kept as [|k ks] eqn:Ek; [now elim Hne|].
      apply Exists_exists. exists k.
      assert (Hk : In k (k :: ks)) by now left.
      apply Hkept in Hk. tauto.
  - split; [discriminate|]. intros (_ & Hall & Hex). exfalso.
    assert (Habs : false = true); [|discriminate Habs].
    apply Halnum. split.
    + apply Exists_exists in Hex as [c [Hc [Hh Hu]]].
      intros Hnil. assert (Hin : In c kept) by (apply Hkept; tauto).
      rewrite Hnil in Hin. destruct Hin.
    + apply Forall_forall. intros c Hc. apply Hkept in Hc as (Hc & Hh & Hu).
      rewrite Forall_forall in Hall. destruct (Hall c Hc) as [?|[?|?]]; tauto.
Qed.

End Unicode.

End ValidatorsCases.

(* ===================================================================== *)
(** * Facts about the store *)
(* ===================================================================== *)

Module DbFacts.

Import Db.

(** *** Primary keys *)

Lemma fold_max_ge (ids : list Z) : forall a, a <= fold_left Z.max ids a.
Proof.
  induction ids as [|x r IH]; intros a; simpl; [lia|].
  specialize (IH (Z.max a x)). lia.
Qed.

Lemma fold_max_In (ids : list Z) : forall a x,
  In x ids -> x <= fold_left Z.max ids a.
Proof.
  induction ids as [|y r IH]; intros a x; simpl; [easy|].
  intros [->|H]; [|now apply IH].
  pose proof (fold_max_ge r (Z.max a x)). lia.
Qed.

Lemma next_id_fresh (ids : list Z) x : In x ids -> x < next_id ids.
Proof. intros H. unfold next_id. pose proof (fold_max_In ids 0 x H). lia. Qed.

(** *** get *)

Lemma get_Some st cid c :
  get st cid = Some c -> In c (configurations st) /\ Configuration.id c = cid.
Proof.
  unfold get. intros H. apply find_some in H as [Hin Heq].
  split; [exact Hin|now apply Z.eqb_eq].
Qed.

Lemma get_None st cid :
  get st cid = None ->
  forall c, In c (configurations st) -> Configuration.id c <> cid.
Proof.
  unfold get. intros H c Hc E.
  pose proof (find_none _ _ H c Hc) as Hn. simpl in Hn.
  apply Z.eqb_neq in Hn. contradiction.
Qed.

(** *** Integers bound to a statement *)

Lemma bind_integer_Ok n k :
  bind_integer n = Ok k -> k = n /\ min_integer <= n <= max_integer.
Proof.
  unfold bind_integer.
  destruct (n <? min_integer) eqn:E1; [discriminate|].
  destruct (max_integer <? n) eqn:E2; [discriminate|].
  intros H. inversion H. apply Z.ltb_ge in E1, E2. lia.
Qed.

Lemma bind_integer_in_range n :
  min_integer <= n <= max_integer -> bind_integer n = Ok n.
Proof.
  intros [H1 H2]. unfold bind_integer.
  apply Z.ltb_ge in H1, H2. now rewrite H1, H2.
Qed.

Lemma bind_integer_overflow n :
  max_integer < n -> bind_integer n = Raise OverflowError.
Proof.
  intros H. unfold bind_integer.
  apply Z.ltb_lt in H. rewrite H. now rewrite orb_true_r.
Qed.

Lemma session_get_Ok st cid found :
  session_get st cid = Ok found ->
  get st cid = found /\ min_integer <= cid <= max_integer.
Proof.
  unfold session_get. destruct (bind_integer cid) as [k|e] eqn:E; [|discriminate].
  apply bind_integer_Ok in E as [-> Hr]. simpl. intros H. now inversion H.
Qed.

Lemma session_get_in_range st cid :
  min_integer <= cid <= max_integer -> session_get st cid = Ok (get st cid).
Proof.
  intros H. unfold session_get. now rewrite bind_integer_in_range.
Qed.

Lemma session_get_overflow st cid :
  max_integer < cid -> session_get st cid = Raise OverflowError.
Proof.
  intros H. unfold session_get. now rewrite bind_integer_overflow.
Qed.

(** *** ORDER BY ... DESC *)

Section OrderBy.

Context {A : Type} (key : A -> Z).

Lemma insert_desc_perm x (l : list A) :
  Permutation (x :: l) (insert_desc key x l).
Proof.
  induction l as [|y r IH]; simpl; [reflexivity|].
  destruct (key y <=? key x); [reflexivity|].
  rewrite perm_swap. now constructor.
Qed.

Lemma order_by_desc_perm (l : list A) : Permutation l (order_by_desc key l).
Proof.
  induction l as [|x r IH]; simpl; [constructor|].
  rewrite <- insert_desc_perm. now constructor.
Qed.

Lemma insert_desc_sorted x (l : list A) :
  StronglySorted (desc key) l -> StronglySorted (desc key) (insert_desc key x l).
Proof.
  induction 1 as [|y r Hs IH Hall]; simpl.
  - repeat constructor.
  - destruct (key y <=? key x) eqn:E.
    + apply Z.leb_le in E. constructor; [now constructor|].
      constructor; [exact E|].
      eapply Forall_impl; [|exact Hall]. unfold desc. intros; lia.
    + apply Z.leb_gt in E. constructor; [exact IH|].
      eapply Permutation_Forall; [apply insert_desc_perm|].
      constructor; [unfold desc; lia|exact Hall].
Qed.

Lemma order_by_desc_sorted (l : list A) :
  StronglySorted (desc key) (order_by_desc key l).
Proof.
  induction l as [|x r IH]; simpl; [constructor|].
  now apply insert_desc_sorted.
Qed.

End OrderBy.

(** *** Version numbers *)

Import ConfigurationVersion.

Lemma max_version_numbers (rows : list t) : forall acc,
  fold_left (fun acc v => match acc with
                          | None => Some (version v)
                          | Some m => Some (Z.max m (version v))
                          end) rows acc
  = fold_left max_step (map version rows) acc.
Proof. induction rows as [|v r IH]; intros acc; simpl; [reflexivity|apply IH]. Qed.

Lemma fold_max_step_Some (l : list Z) : forall m,
  exists m', fold_left max_step l (Some m) = Some m'
             /\ m <= m' /\ (forall z, In z l -> z <= m')
             /\ (m' = m \/ In m' l).
Proof.
  induction l as [|z r IH]; intros m; simpl.
  - exists m. split; [reflexivity|]. split; [lia|]. split; [easy|now left].
  - destruct (IH (Z.max m z)) as [m' [E [Hle [Hall Hin]]]].
    exists m'. split; [exact E|]. split; [lia|]. split.
    + intros y [->|Hy]; [lia|now apply Hall].
    + destruct Hin as [->|Hin]; [|now right; right].
      destruct (Z.max_spec m z) as [[_ ->]|[_ ->]]; [right; now left|now left].
Qed.

(** [max_version] is the largest version of the rows, if any. *)
Lemma max_version_spec (rows : list t) :
  match max_version rows with
  | None => rows = []
  | Some m => (forall v, In v rows -> version v <= m)
              /\ In m (map version rows)
  end.
Proof.
  unfold max_version. rewrite max_version_numbers.
  destruct rows as [|v r]; simpl; [reflexivity|].
  destruct (fold_max_step_Some (map version r) (version v)) as [m [E [Hle [Hall Hin]]]].
  rewrite E. split.
  - intros w [<-|Hw]; [exact Hle|]. apply Hall. now apply in_map.
  - destruct Hin as [->|Hin]; [now left|now right].
Qed.

(** [get_next_version_number] is the largest version plus one, or 1. *)
Lemma get_next_version_number_spec (rows : list t) cid :
  get_next_version_number rows cid
  = match max_version (filter_by_config_id rows cid) with
    | Some m => m + 1
    | None => 1
    end.
Proof.
  unfold get_next_version_number.
  destruct (max_version (filter_by_config_id rows cid)) as [m|]; [|reflexivity].
  destruct (m =? 0) eqn:E; [apply Z.eqb_eq in E; now subst|reflexivity].
Qed.

Lemma next_version_above (rows : list t) cid v :
  In v rows -> config_id v = cid ->
  version v < get_next_version_number rows cid.
Proof.
  intros Hin Hc. rewrite get_next_version_number_spec.
  pose proof (max_version_spec (filter_by_config_id rows cid)) as H.
  assert (Hf : In v (filter_by_config_id rows cid)).
  { apply filter_In. split; [exact Hin|now apply Z.eqb_eq]. }
  destruct (max_version (filter_by_config_id rows cid)) as [m|].
  - destruct H as [H _]. specialize (H v Hf). lia.
  - rewrite H in Hf. destruct Hf.
Qed.

(** The next number is never taken: the insert of an update goes
    through the uniqueness constraint. *)
Lemma add_version_next (rows : list t) i cid d descr ts by_ :
  add_version rows (mk i cid (get_next_version_number rows cid) d descr ts by_)
  = Ok (rows ++ [mk i cid (get_next_version_number rows cid) d descr ts by_]).
Proof.
  unfold add_version.
  destruct (existsb _ rows) eqn:E; [|reflexivity].
  apply existsb_exists in E as [r [Hr Heq]]. simpl in Heq.
  apply andb_true_iff in Heq as [Hc Hv].
  apply Z.eqb_eq in Hc, Hv.
  pose proof (next_version_above rows r Hr Hc). lia.
Qed.

Lemma add_version_inv (rows rows' : list t) v :
  add_version rows v = Ok rows' ->
  rows' = rows ++ [v]
  /\ forall r, In r rows ->
       ~ (config_id r = config_id v /\ version r = version v).
Proof.
  unfold add_version. destruct (existsb _ rows) eqn:E; [discriminate|].
  intros H. inversion H; subst. split; [reflexivity|].
  intros r Hr [Hc Hv].
  assert (existsb (fun r0 => (config_id r0 =? config_id v)
                             && (version r0 =? version v)) rows = true).
  { apply existsb_exists. exists r. split; [exact Hr|].
    apply andb_true_iff. split; now apply Z.eqb_eq. }
  congruence.
Qed.

(** Version numbers 1..n, in insertion order. *)
Lemma max_version_seq (rows : list t) n :
  (1 <= n)%nat ->
  map version rows = map Z.of_nat (seq 1 n) ->
  max_version rows = Some (Z.of_nat n).
Proof.
  intros Hn Hrows.
  pose proof (max_version_spec rows) as H.
  destruct (max_version rows) as [m|].
  - destruct H as [Hall Hin]. f_equal.
    rewrite Hrows in Hin. apply in_map_iff in Hin as [k [<- Hk]].
    apply in_seq in Hk.
    assert (Hn_in : In (Z.of_nat n) (map version rows)).
    { rewrite Hrows. apply in_map, in_seq. lia. }
    apply in_map_iff in Hn_in as [v [Hv Hvin]].
    specialize (Hall v Hvin). lia.
  - subst rows. destruct n; [lia|discriminate].
Qed.

End DbFacts.

(** ** Consistency of the tables *)

Module ConsistencyFacts.

Import Db.

Lemma NoDup_snoc {A} (l : list A) x : NoDup l -> ~ In x l -> NoDup (l ++ [x]).
Proof.
  induction 1 as [|y r Hy Hr IH]; intros Hx; simpl.
  - constructor; [easy|constructor].
  - constructor.
    + rewrite in_app_iff. intros [H|[H|[]]]; [contradiction|].
      subst. apply Hx. now left.
    + apply IH. intros H. apply Hx. now right.
Qed.

(** Dropping rows keeps the remaining keys distinct. *)
Lemma filter_keeps_unique {T K} (keep : T -> bool) (key : T -> K) (rows : list T) :
  NoDup (map key rows) -> NoDup (map key (filter keep rows)).
Proof.
  induction rows as [|row rest IH]; simpl; [easy|].
  intros H. inversion H as [|? ? Hrow Hrest]; subst.
  destruct (keep row); simpl; [|now apply IH].
  constructor; [|now apply IH].
  intros Hin. apply Hrow. apply in_map_iff in Hin as [y [<- Hy]].
  apply in_map. now apply filter_In in Hy as [Hy _].
Qed.

Lemma filter_none {A} (p : A -> bool) (l : list A) :
  (forall x, In x l -> p x = false) -> filter p l = [].
Proof.
  induction l as [|x r IH]; simpl; [easy|]. intros H.
  rewrite (H x) by now left. apply IH. intros y Hy. apply H. now right.
Qed.

Lemma filter_filter_implies {A} (p q : A -> bool) (l : list A) :
  (forall x, p x = true -> q x = true) ->
  filter p (filter q l) = filter p l.
Proof.
  intros H. induction l as [|x r IH]; simpl; [reflexivity|].
  destruct (q x) eqn:Eq; simpl.
  - destruct (p x); now rewrite IH.
  - destruct (p x) eqn:Ep; [|exact IH].
    apply H in Ep. congruence.
Qed.

Lemma consistent_empty : consistent empty.
Proof.
  unfold consistent. simpl. repeat split; try constructor; easy.
Qed.

(** The audit table plays no part. *)
Lemma consistent_audit cs vs a a' :
  consistent (mk cs vs a) -> consistent (mk cs vs a').
Proof. exact (fun H => H). Qed.

(** Inserting a configuration under a fresh key with its version 1. *)
Lemma consistent_insert st c v a :
  consistent st ->
  Configuration.id c = next_id (map Configuration.id (configurations st)) ->
  ConfigurationVersion.config_id v = Configuration.id c ->
  ConfigurationVersion.version v = 1 ->
  consistent (mk (configurations st ++ [c]) (configuration_versions st ++ [v]) a).
Proof.
  intros (Hpk & Hkeys & Hfk & Hnum) Hid Hv Hone.
  assert (Hfresh : ~ In (Configuration.id c) (map Configuration.id (configurations st))).
  { intros H. apply DbFacts.next_id_fresh in H. lia. }
  assert (Hnone : forall r, In r (configuration_versions st) ->
                            ConfigurationVersion.config_id r <> Configuration.id c).
  { intros r Hr E. apply Hfresh. rewrite <- E. now apply Hfk. }
  unfold consistent. simpl. rewrite !map_app. simpl.
  split; [now apply NoDup_snoc|]. split; [|split].
  - apply NoDup_snoc; [exact Hkeys|].
    intros H. apply in_map_iff in H as [r [Hk Hr]].
    unfold version_key in Hk. pose proof (f_equal fst Hk) as Hc. simpl in Hc.
    apply (Hnone r Hr). congruence.
  - intros w Hw. apply in_app_iff in Hw as [Hw|[<-|[]]]; apply in_app_iff.
    + left. now apply Hfk.
    + right. left. now symmetry.
  - intros cid Hcid. unfold numbered_from_1, versions_of,
      ConfigurationVersion.filter_by_config_id. simpl.
    rewrite filter_app. simpl.
    apply in_app_iff in Hcid as [Hcid|[<-|[]]].
    + destruct (Hnum cid Hcid) as [n [Hn Hseq]]. exists n. split; [exact Hn|].
      replace (ConfigurationVersion.config_id v =? cid) with false.
      * now rewrite app_nil_r.
      * symmetry. apply Z.eqb_neq. intros E. apply Hfresh. congruence.
    + exists 1%nat. split; [lia|].
      rewrite filter_none.
      * rewrite Hv, Z.eqb_refl. simpl. now rewrite Hone.
      * intros r Hr. apply Z.eqb_neq. now apply Hnone.
Qed.

(** Writing rows back under their keys, with or without a new version
    numbered by [get_next_version_number]. *)
Lemma consistent_rewrite st cs a :
  consistent st ->
  map Configuration.id cs = map Configuration.id (configurations st) ->
  consistent (mk cs (configuration_versions st) a).
Proof.
  intros (Hpk & Hkeys & Hfk & Hnum) Hids.
  unfold consistent. simpl. rewrite Hids. repeat split; assumption.
Qed.

Lemma consistent_append st cs cid i d descr ts by_ a :
  consistent st ->
  map Configuration.id cs = map Configuration.id (configurations st) ->
  In cid (map Configuration.id (configurations st)) ->
  consistent
    (mk cs
        (configuration_versions st
         ++ [ConfigurationVersion.mk i cid
               (ConfigurationVersion.get_next_version_number
                  (configuration_versions st) cid) d descr ts by_])
        a).
Proof.
  intros (Hpk & Hkeys & Hfk & Hnum) Hids Hcid.
  unfold consistent. simpl. rewrite Hids, map_app. simpl.
  split; [exact Hpk|]. split; [|split].
  - apply NoDup_snoc; [exact Hkeys|].
    intros H. apply in_map_iff in H as [r [Hk Hr]].
    unfold version_key in Hk. simpl in Hk.
    pose proof (f_equal fst Hk) as Hc. pose proof (f_equal snd Hk) as Hv.
    simpl in Hc, Hv.
    pose proof (DbFacts.next_version_above (configuration_versions st) r Hr Hc).
    lia.
  - intros w Hw. apply in_app_iff in Hw as [Hw|[<-|[]]]; [now apply Hfk|exact Hcid].
  - intros k Hk. unfold numbered_from_1, versions_of,
      ConfigurationVersion.filter_by_config_id. simpl.
    rewrite filter_app. simpl.
    destruct (Hnum k Hk) as [n [Hn Hseq]].
    destruct (cid =? k) eqn:E.
    + apply Z.eqb_eq in E. subst k. exists (S n). split; [lia|].
      rewrite map_app, seq_S, map_app. simpl.
      unfold versions_of, ConfigurationVersion.filter_by_config_id in Hseq.
      rewrite Hseq. do 2 f_equal.
      rewrite DbFacts.get_next_version_number_spec.
      unfold ConfigurationVersion.filter_by_config_id.
      rewrite (DbFacts.max_version_seq _ Hn Hseq). lia.
    + exists n. split; [exact Hn|]. now rewrite app_nil_r.
Qed.

Lemma consistent_delete st cid :
  consistent st -> consistent (delete st cid).
Proof.
  intros (Hpk & Hkeys & Hfk & Hnum).
  unfold consistent, delete. simpl.
  split; [now apply filter_keeps_unique|].
  split; [now apply filter_keeps_unique|]. split.
  - intros v Hv. apply filter_In in Hv as [Hv Hne].
    apply negb_true_iff, Z.eqb_neq in Hne.
    specialize (Hfk v Hv). apply in_map_iff in Hfk as [c [Hc Hin]].
    apply in_map_iff. exists c. split; [exact Hc|].
    apply filter_In. split; [exact Hin|].
    apply negb_true_iff, Z.eqb_neq. congruence.
  - intros k Hk. apply in_map_iff in Hk as [c [Hc Hin]].
    apply filter_In in Hin as [Hin Hne].
    apply negb_true_iff, Z.eqb_neq in Hne.
    assert (Hk : In k (map Configuration.id (configurations st))).
    { apply in_map_iff. now exists c. }
    destruct (Hnum k Hk) as [n [Hn Hseq]]. exists n. split; [exact Hn|].
    unfold versions_of, ConfigurationVersion.filter_by_config_id in *. simpl.
    rewrite filter_filter_implies; [exact Hseq|].
    intros v Hv. apply Z.eqb_eq in Hv.
    apply negb_true_iff, Z.eqb_neq. congruence.
Qed.

Lemma update_row_ids now old new rows :
  Configuration.id new = Configuration.id old ->
  map Configuration.id (update_row now old new rows) = map Configuration.id rows.
Proof.
  intros Hid. unfold update_row. rewrite map_map. apply map_ext_in.
  intros c _. destruct (Configuration.id c =? Configuration.id old) eqn:E;
    [|reflexivity].
  apply Z.eqb_eq in E. unfold written.
  destruct (row_changed old new); simpl; congruence.
Qed.

End ConsistencyFacts.

(* ===================================================================== *)
(** * Facts about the routes *)
(* ===================================================================== *)

Module RoutesFacts.

Import Http Routes.

Lemma bind_Ok_inv {A B} (r : result A) (k : A -> result B) b :
  Py.bind r k = Ok b -> exists a, r = Ok a /\ k a = Ok b.
Proof. destruct r as [a|e]; simpl; [|discriminate]. intros H. now exists a. Qed.

(** Unfolds a successful run of a view along its binds and tests. *)
Ltac inv_ok H :=
  repeat (simpl in H;
          match type of H with
          | Py.bind _ _ = Ok _ =>
              let a := fresh "a" in
              let E := fresh "E" in
              apply bind_Ok_inv in H as [a [E H]]
          | (if ?c then _ else _) = Ok _ => destruct c eqn:?
          | (match ?x with _ => _ end) = Ok _ => destruct x eqn:?
          | Raise _ = Ok _ => discriminate H
          end).

(** *** The views that only read *)

Lemma handle_jwt_missing (f : Z -> view) req st :
  jwt_identity req = None ->
  handle (jwt_required f) req st = (jwt_error_response (jwt_error req), st).
Proof. intros H. unfold handle, jwt_required. now rewrite H. Qed.

Lemma jwt_error_response_status e : status_code (jwt_error_response e) = 401.
Proof. now destruct e. Qed.

Lemma get_configuration_store config_id req st :
  snd (handle (get_configuration config_id) req st) = st.
Proof.
  unfold handle, get_configuration, jwt_required.
  destruct (jwt_identity req); [|reflexivity].
  destruct (Db.session_get st config_id) as [[config|]|e]; simpl;
    [|reflexivity|now destruct e].
  now destruct (negb _).
Qed.

Lemma get_configuration_versions_store config_id req st :
  snd (handle (get_configuration_versions config_id) req st) = st.
Proof.
  unfold handle, get_configuration_versions, jwt_required.
  destruct (jwt_identity req); [|reflexivity].
  destruct (Db.session_get st config_id) as [[config|]|e]; simpl;
    [|reflexivity|now destruct e].
  now destruct (negb _).
Qed.

Lemma get_configuration_version_store config_id n req st :
  snd (handle (get_configuration_version config_id n) req st) = st.
Proof.
  unfold handle, get_configuration_version, jwt_required.
  destruct (jwt_identity req); [|reflexivity].
  destruct (Db.session_get st config_id) as [[config|]|e]; simpl;
    [|reflexivity|now destruct e].
  destruct (negb _); [reflexivity|].
  destruct (Db.bind_integer n) as [k|e]; simpl; [|now destruct e].
  now destruct (find _ _).
Qed.

Lemma list_templates_store req st :
  snd (handle list_templates req st) = st.
Proof.
  unfold handle, list_templates, jwt_required.
  now destruct (jwt_identity req).
Qed.

(** *** PUT: the field updates *)

Section Driver.

Variable bind_text : json -> option (option str).
Variable bind_bool : json -> option bool.

Lemma patch_field_inv data key config assign c' :
  patch_field data key config assign = Ok c' ->
  (py_in key data = Ok false /\ c' = config)
  \/ (py_in key data = Ok true
      /\ exists v, py_getitem data key = Ok v /\ assign v = Ok c').
Proof.
  unfold patch_field. intros H. inv_ok H.
  - right. split; [assumption|]. eauto.
  - left. split; [assumption|]. now inversion H.
Qed.

Lemma assign_tags_inv config tags c :
  assign_tags bind_text config tags = Ok c ->
  exists x, c = Configuration.with_tags config x.
Proof.
  unfold assign_tags, Configuration.set_tags_list. intros H.
  destruct tags; inv_ok H; inversion H; eauto.
Qed.

(** What the field updates leave alone, and what they read. *)
Lemma apply_fields_patched data old new :
  apply_fields bind_text bind_bool data old = Ok (Patched new) ->
  Configuration.id new = Configuration.id old
  /\ Configuration.user_id new = Configuration.user_id old
  /\ Configuration.config_type new = Configuration.config_type old
  /\ Configuration.created_at new = Configuration.created_at old
  /\ Configuration.updated_at new = Configuration.updated_at old
  /\ exists has_name has_description has_tags has_is_template has_data,
       py_in (lit "name") data = Ok has_name
       /\ py_in (lit "description") data = Ok has_description
       /\ py_in (lit "tags") data = Ok has_tags
       /\ py_in (lit "is_template") data = Ok has_is_template
       /\ py_in (lit "data") data = Ok has_data
       /\ (has_name = false ->
           Configuration.name new = Configuration.name old)
       /\ (has_description = false ->
           Configuration.description new = Configuration.description old)
       /\ (has_tags = false ->
           Configuration.tags new = Configuration.tags old)
       /\ (has_is_template = false ->
           Configuration.is_template new = Configuration.is_template old)
       /\ (has_data = false ->
           Configuration.data_json new = Configuration.data_json old)
       /\ (has_data = true ->
           py_getitem data (lit "data") = Ok (Configuration.data_json new)).
Proof.
  unfold apply_fields. intros H. inv_ok H. inversion H; subst; clear H.
  unfold patch_name, patch_description, patch_is_template, patch_data in *.
  repeat match goal with
         | H : patch_field _ _ _ _ = Ok _ |- _ =>
             apply patch_field_inv in H;
             destruct H as [[? ?]|[? [? [? H]]]]; [|inv_ok H; inversion H; clear H]
         end.
  all: unfold patch_tags in *.
  all: match goal with
       | H : Py.bind (py_in _ _) _ = Ok _ |- _ => inv_ok H
       end.
  all: repeat match goal with
         | H : Ok _ = Ok _ |- _ => inversion H; clear H
         | H : assign_tags _ _ _ = Ok _ |- _ =>
             apply assign_tags_inv in H; destruct H as [? ?]
         end.
  all: subst; simpl.
  all: repeat (split; [reflexivity|]).
  all: do 5 eexists.
  all: repeat (split; [eassumption|]).
  all: repeat split; intros; (reflexivity || discriminate || assumption).
Qed.

(** *** PUT: the view as a whole *)

(** Either the request changes nothing and is not answered 200, or it
    is the owner's, passes every check, and is committed. *)
Lemma update_configuration_cases config_id req st :
  (snd (handle (update_configuration bind_text bind_bool config_id) req st) = st
   /\ status_code (fst (handle (update_configuration bind_text bind_bool config_id)
                               req st)) <> 200)
  \/ exists caller old new has_data versions',
      jwt_identity req = Some caller
      /\ truthy (get_json req) = true
      /\ Db.get st config_id = Some old
      /\ Configuration.user_id old = caller
      /\ apply_fields bind_text bind_bool (get_json req) old = Ok (Patched new)
      /\ py_in (lit "data") (get_json req) = Ok has_data
      /\ (has_data = false -> versions' = Db.configuration_versions st)
      /\ (has_data = true ->
          exists v_descr descr,
            py_get (get_json req) (lit "change_description")
                   (JStr (lit "Configuration updated")) = Ok v_descr
            /\ text_column bind_text v_descr = Ok descr
            /\ versions'
               = Db.configuration_versions st
                 ++ [ConfigurationVersion.mk
                       (Db.next_id (map ConfigurationVersion.id
                                        (Db.configuration_versions st)))
                       config_id
                       (ConfigurationVersion.get_next_version_number
                          (Db.configuration_versions st) config_id)
                       (Configuration.data_json new) descr (now req) caller])
      /\ status_code (fst (handle (update_configuration bind_text bind_bool
                                                        config_id) req st)) = 200
      /\ snd (handle (update_configuration bind_text bind_bool config_id) req st)
         = log req
               (Db.mk (Db.update_row (now req) old new (Db.configurations st))
                      versions' (Db.audit_log st))
               caller (lit "update") (lit "configuration") (Some config_id)
               (JObj [(lit "name", JStr (Configuration.name new));
                      (lit "data_changed", JBool has_data)]).
Proof.
  unfold handle.
  destruct (update_configuration bind_text bind_bool config_id req st)
    as [[resp st']|e] eqn:H.
  2:{ left. destruct e; split; (reflexivity || discriminate). }
  unfold update_configuration, jwt_required in H.
  inv_ok H.
  all: try (inversion H; subst; clear H; left;
            split; [reflexivity|try destruct (jwt_error req); discriminate]).
  inversion H; subst; clear H. right.
  lazymatch goal with
  | Hj : jwt_identity req = Some ?z,
    Ha : apply_fields _ _ _ ?old = Ok (Patched ?new),
    Hd : py_in _ (get_json req) = Ok ?hd,
    Hv : (if ?hd then _ else _) = Ok ?vs |- _ =>
      exists z, old, new, hd, vs;
      pose proof (@apply_fields_patched _ _ _ Ha) as Hframe;
      rename Hv into Hvs; rename Hd into Hdata
  end.
  split; [reflexivity|].
  split; [now apply negb_false_iff|].
  split; [match goal with
          | Hs : Db.session_get _ _ = Ok _ |- _ =>
              exact (proj1 (DbFacts.session_get_Ok _ _ Hs))
          end|].
  split; [match goal with
          | Ho : negb (_ =? _) = false |- _ =>
              apply negb_false_iff, Z.eqb_eq in Ho; exact Ho
          end|].
  split; [assumption|].
  split; [exact Hdata|].
  split; [|split; [|split; reflexivity]].
  - intros ->. now inversion Hvs.
  - intros ->. inv_ok Hvs. rewrite DbFacts.add_version_next in Hvs.
    inversion Hvs; subst; clear Hvs.
    do 2 eexists. split; [eassumption|]. split; [eassumption|].
    destruct Hframe as (_ & _ & _ & _ & _ & hn & hd & ht & hi & hx & _ & _ & _ & _
                        & Hx & _ & _ & _ & _ & _ & Hget).
    assert (Hhx : Ok hx = Ok true)
      by (etransitivity; [symmetry; exact Hx|exact Hdata]).
    inversion Hhx; subst hx. specialize (Hget eq_refl).
    match type of Hget with
    | _ = Ok (Configuration.data_json ?c) =>
        match goal with
        | Hi : py_getitem (get_json req) _ = Ok ?v |- _ =>
            assert (Hv : Ok v = Ok (Configuration.data_json c))
              by (etransitivity; [symmetry; exact Hi|exact Hget]);
            inversion Hv; congruence
        end
    end.
Qed.

(** *** POST /api/configs *)

(** Either the request changes nothing and is not answered 201, or a
    row and its version 1 are inserted together. *)
Lemma create_configuration_cases req st :
  (snd (handle (create_configuration bind_text bind_bool) req st) = st
   /\ status_code (fst (handle (create_configuration bind_text bind_bool) req st))
      <> 201)
  \/ exists caller config version audit,
      jwt_identity req = Some caller
      /\ Configuration.id config
         = Db.next_id (map Configuration.id (Db.configurations st))
      /\ Configuration.user_id config = caller
      /\ version
         = ConfigurationVersion.mk
             (Db.next_id (map ConfigurationVersion.id
                              (Db.configuration_versions st)))
             (Configuration.id config) 1 (Configuration.data_json config)
             (Some (lit "Initial version")) (now req) caller
      /\ (forall r, In r (Db.configuration_versions st) ->
            ~ (ConfigurationVersion.config_id r = Configuration.id config
               /\ ConfigurationVersion.version r = 1))
      /\ status_code (fst (handle (create_configuration bind_text bind_bool)
                                  req st)) = 201
      /\ snd (handle (create_configuration bind_text bind_bool) req st)
         = Db.mk (Db.configurations st ++ [config])
                 (Db.configuration_versions st ++ [version])
                 audit.
Proof.
  unfold handle.
  destruct (create_configuration bind_text bind_bool req st)
    as [[resp st']|e] eqn:H.
  2:{ left. destruct e; split; (reflexivity || discriminate). }
  unfold create_configuration, jwt_required in H.
  inv_ok H.
  all: try (inversion H; subst; clear H; left;
            split; [reflexivity|try destruct (jwt_error req); discriminate]).
  inversion H; subst; clear H. right.
  lazymatch goal with
  | Hj : jwt_identity req = Some ?z,
    Ht : (if truthy ?tags then _ else _) = Ok ?c,
    Hb : boolean_column _ _ = Ok ?b,
    Hv : Db.add_version _ ?v = Ok _ |- _ =>
      exists z, (Configuration.with_is_template c b), v;
      apply DbFacts.add_version_inv in Hv; destruct Hv as [-> Hfree];
      assert (Hc : exists x,
                 c = Configuration.with_tags
                       (Configuration.mk
                          (Db.next_id (map Configuration.id (Db.configurations st)))
                          z _ _ _ _ None false (now req) (now req)) x)
        by (destruct (truthy tags);
            [apply assign_tags_inv in Ht; exact Ht
            |inversion Ht; now exists None]);
      destruct Hc as [x ->]
  end.
  eexists. repeat split; try reflexivity. exact Hfree.
Qed.

End Driver.

(** *** DELETE /api/configs/<config_id> *)

Lemma delete_configuration_cases config_id req st :
  (snd (handle (delete_configuration config_id) req st) = st
   /\ status_code (fst (handle (delete_configuration config_id) req st)) <> 200)
  \/ exists caller old,
      jwt_identity req = Some caller
      /\ Db.get st config_id = Some old
      /\ Configuration.user_id old = caller
      /\ status_code (fst (handle (delete_configuration config_id) req st)) = 200
      /\ snd (handle (delete_configuration config_id) req st)
         = log req (Db.delete st config_id) caller (lit "delete")
               (lit "configuration") (Some config_id)
               (JObj [(lit "name", JStr (Configuration.name old))]).
Proof.
  unfold handle, delete_configuration, jwt_required.
  destruct (jwt_identity req) as [caller|];
    [|left; split; [reflexivity|destruct (jwt_error req); discriminate]].
  destruct (Db.session_get st config_id) as [found|e] eqn:Hs; simpl;
    [|left; destruct e; split; (reflexivity || discriminate)].
  apply DbFacts.session_get_Ok in Hs as [Hs _].
  destruct found as [old|]; [|left; split; [reflexivity|discriminate]].
  destruct (Configuration.user_id old =? caller) eqn:E; simpl;
    [|left; split; [reflexivity|discriminate]].
  right. exists caller, old. apply Z.eqb_eq in E. now repeat split.
Qed.

(** *** POST /api/templates/<template_id>/create *)

Lemma create_from_template_cases template_id req st :
  (snd (handle (create_from_template template_id) req st) = st
   /\ status_code (fst (handle (create_from_template template_id) req st)) <> 201)
  \/ exists caller template config version audit,
      jwt_identity req = Some caller
      /\ Db.get st template_id = Some template
      /\ Configuration.is_template template = true
      /\ Configuration.id config
         = Db.next_id (map Configuration.id (Db.configurations st))
      /\ Configuration.user_id config = caller
      /\ Configuration.is_template config = false
      /\ Configuration.data_json config = Configuration.data_json template
      /\ version
         = ConfigurationVersion.mk
             (Db.next_id (map ConfigurationVersion.id
                              (Db.configuration_versions st)))
             (Configuration.id config) 1 (Configuration.data_json config)
             (Some (template_version_description (Configuration.name template)))
             (now req) caller
      /\ (forall r, In r (Db.configuration_versions st) ->
            ~ (ConfigurationVersion.config_id r = Configuration.id config
               /\ ConfigurationVersion.version r = 1))
      /\ status_code (fst (handle (create_from_template template_id) req st)) = 201
      /\ snd (handle (create_from_template template_id) req st)
         = Db.mk (Db.configurations st ++ [config])
                 (Db.configuration_versions st ++ [version])
                 audit.
Proof.
  unfold handle.
  destruct (create_from_template template_id req st) as [[resp st']|e] eqn:H.
  2:{ left. destruct e; split; (reflexivity || discriminate). }
  unfold create_from_template, jwt_required in H.
  destruct (jwt_identity req) as [caller|];
    [|inversion H; left; split; [reflexivity|destruct (jwt_error req); discriminate]].
  apply bind_Ok_inv in H as [found [Hs H]].
  apply DbFacts.session_get_Ok in Hs as [Hs _].
  destruct found as [template|];
    [|inversion H; left; split; [reflexivity|discriminate]].
  destruct (Configuration.is_template template) eqn:Ht; simpl negb in H; cbv iota in H;
    [|inversion H; left; split; [reflexivity|discriminate]].
  apply bind_Ok_inv in H as [versions [Hv H]].
  apply DbFacts.add_version_inv in Hv as [-> Hfree].
  inversion H; subst; clear H. right.
  exists caller, template. do 3 eexists.
  split; [reflexivity|]. split; [exact Hs|]. split; [exact Ht|].
  split; [|split; [|split; [|split; [|split; [|split; [|split; [|reflexivity]]]]]]];
    try reflexivity.
  exact Hfree.
Qed.

End RoutesFacts.

(** ** Every request keeps the store consistent *)

Module ReachableFacts.

Import Http Routes RoutesFacts ConsistencyFacts.

Lemma log_tables req st user_id action resource_type resource_id details :
  Db.configurations (log req st user_id action resource_type resource_id details)
  = Db.configurations st
  /\ Db.configuration_versions
       (log req st user_id action resource_type resource_id details)
     = Db.configuration_versions st.
Proof. split; reflexivity. Qed.

Lemma consistent_log req st user_id action resource_type resource_id details :
  Db.consistent st ->
  Db.consistent (log req st user_id action resource_type resource_id details).
Proof. destruct st. apply consistent_audit. Qed.

Section Driver.

Variable bind_text : json -> option (option str).
Variable bind_bool : json -> option bool.

Lemma step_consistent r req st :
  Db.consistent st ->
  Db.consistent (snd (handle (dispatch bind_text bind_bool r) req st)).
Proof.
  intros Hst. destruct r as [|i|i|i|i|i n| |i]; simpl dispatch.
  - destruct (create_configuration_cases bind_text bind_bool req st)
      as [[-> _]|(caller & c & v & a & _ & Hid & _ & Hv & _ & _ & ->)];
      [exact Hst|].
    apply consistent_insert; try assumption; now subst v.
  - now rewrite get_configuration_store.
  - destruct (update_configuration_cases bind_text bind_bool (Z.of_N i) req st)
      as [[-> _]|(caller & old & new & has_data & vs & _ & _ & Hget & _ & Hap
                  & _ & Hno & Hyes & _ & ->)];
      [exact Hst|].
    apply consistent_log.
    apply apply_fields_patched in Hap as (Hid & _).
    apply DbFacts.get_Some in Hget as [Hin Hold].
    destruct has_data.
    + destruct (Hyes eq_refl) as (v_descr & descr & _ & _ & ->).
      apply consistent_append; [exact Hst|now apply update_row_ids|].
      rewrite <- Hold. now apply in_map.
    + rewrite (Hno eq_refl).
      apply consistent_rewrite; [exact Hst|now apply update_row_ids].
  - destruct (delete_configuration_cases (Z.of_N i) req st)
      as [[-> _]|(caller & old & _ & _ & _ & _ & ->)];
      [exact Hst|].
    apply consistent_log. now apply consistent_delete.
  - now rewrite get_configuration_versions_store.
  - now rewrite get_configuration_version_store.
  - now rewrite list_templates_store.
  - destruct (create_from_template_cases (Z.of_N i) req st)
      as [[-> _]|(caller & tpl & c & v & a & _ & _ & _ & Hid & _ & _ & _ & Hv
                  & _ & _ & ->)];
      [exact Hst|].
    apply consistent_insert; try assumption; now subst v.
Qed.

End Driver.

End ReachableFacts.

(** ** Tags *)

Module TagsFacts.

Lemma check_tag_lengths_strings (l : list str) :
  exists m,
    Validators.check_tag_lengths (map JStr l)
    = Ok (forallb (fun t => PyStr.len t <=? 50) l, m).
Proof.
  induction l as [|t r [m IH]]; simpl.
  - now exists None.
  - rewrite Z.gtb_ltb, Z.leb_antisym.
    destruct (50 <? PyStr.len t); simpl.
    + eexists; reflexivity.
    + exists m. exact IH.
Qed.

Lemma forallb_len_strip (l : list str) :
  forallb (fun t => PyStr.len t <=? 50) (map PyStr.strip l)
  = forallb (fun t => PyStr.len (PyStr.strip t) <=? 50) l.
Proof.
  induction l as [|t ts IH]; [reflexivity|].
  cbn [map forallb]. now rewrite IH.
Qed.

Lemma stripped_tags_strings (l : list str) :
  Configuration.stripped_tags (map JStr l)
  = Ok (filter PyStr.nonempty (map PyStr.strip l)).
Proof.
  induction l as [|t r IH]; simpl; [reflexivity|].
  rewrite IH. simpl. reflexivity.
Qed.

End TagsFacts.

(** ** The row an update writes *)

Module UpdateFacts.

Lemma get_update_row now old new st vs a cid :
  Db.get st cid = Some old ->
  Configuration.id new = Configuration.id old ->
  Db.get (Db.mk (Db.update_row now old new (Db.configurations st)) vs a) cid
  = Some (Db.written now old new).
Proof.
  intros Hget Hid. pose proof (DbFacts.get_Some _ _ Hget) as [_ Hold].
  assert (Hw : Configuration.id (Db.written now old new) = cid).
  { unfold Db.written. destruct (Db.row_changed old new); simpl; congruence. }
  unfold Db.get, Db.update_row in *. simpl. rewrite Hold.
  induction (Db.configurations st) as [|c r IH]; simpl in *; [discriminate|].
  destruct (Configuration.id c =? cid) eqn:E.
  - now rewrite Hw, Z.eqb_refl.
  - rewrite E. now apply IH.
Qed.


End UpdateFacts.


(* ===================================================================== *)
(** * Facts about the authentication routes *)
(* ===================================================================== *)

Module AuthFacts.

Import Http Auth RoutesFacts ConsistencyFacts.

Section Library.

Variable lib : library.

(** *** The row the engine returns first *)

Lemma first_None rows : first lib rows = None <-> rows = [].
Proof.
  unfold first. split.
  2:{ intros ->. apply nth_error_None. simpl. lia. }
  destruct rows as [|u r]; [reflexivity|]. intros H.
  apply nth_error_None in H.
  pose proof (Nat.mod_upper_bound (first_index lib (u :: r)) (List.length (u :: r))).
  simpl in *. lia.
Qed.

Lemma first_In rows u : first lib rows = Some u -> In u rows.
Proof. unfold first. apply nth_error_In. Qed.

Lemma first_single u : first lib [u] = Some u.
Proof.
  unfold first. simpl List.length.
  now rewrite Nat.mod_1_r.
Qed.

(** *** POST /api/auth/register *)

(** Either the request changes nothing and is not answered 201, or one
    user is appended: validated, clashing with no row, active and no
    administrator. *)
Lemma register_cases entropy req st :
  (snd (handle (register lib entropy) req st) = st
   /\ status_code (fst (handle (register lib entropy) req st)) <> 201)
  \/ exists username email password_hash,
       Validators.validate_username (unicode_alnum lib) username = Validators.valid
       /\ Credentials.validate_email email = Credentials.valid
       /\ (forall u, In u (users st) ->
             User.username u <> username /\ User.email u <> email)
       /\ status_code (fst (handle (register lib entropy) req st)) = 201
       /\ snd (handle (register lib entropy) req st)
          = log req
              (mk_store (users st
                         ++ [User.mk (Db.next_id (map User.id (users st)))
                                     username email password_hash true false
                                     (now req) (now req)])
                        (db st))
              (Db.next_id (map User.id (users st)))
              (lit "register") (lit "user")
              (Some (Db.next_id (map User.id (users st)))) JNull.
Proof.
  unfold handle.
  destruct (register lib entropy req st) as [[resp st']|e] eqn:H.
  2:{ left. destruct e; split; (reflexivity || discriminate). }
  unfold register in H.
  inv_ok H.
  all: try (inversion H; subst; clear H; left; split; [reflexivity|discriminate]).
  inversion H; subst; clear H. right.
  lazymatch goal with
  | Hu : Validators.validate_username _ ?username = (?b, _),
    He : Credentials.validate_email ?email = (?b0, _),
    Herr : (if ?b then _ else _) ++ (if ?b0 then _ else _) ++ _ = [],
    Hfirst : first lib _ = None,
    Hhash : generate_password_hash lib _ _ = Ok ?h,
    Hadd : add_user _ _ = Ok _ |- _ =>
      exists username, email, h;
      assert (Hb : b = true) by (destruct b; [reflexivity|discriminate Herr]);
      subst b;
      assert (Hb0 : b0 = true) by (destruct b0; [reflexivity|discriminate Herr]);
      subst b0;
      apply first_None in Hfirst;
      unfold add_user in Hadd;
      match type of Hadd with
      | (if ?c then _ else _) = _ => destruct c; [discriminate Hadd|]
      end;
      inversion Hadd; subst; clear Hadd;
      rename Hu into Hname; rename He into Hmail; rename Hfirst into Hnone
  end.
  split.
  { unfold Validators.validate_username, Validators.invalid in *.
    repeat match type of Hname with
           | (if ?c then _ else _) = _ => destruct c; try discriminate Hname
           end.
    reflexivity. }
  split.
  { unfold Credentials.validate_email, Credentials.invalid in *.
    destruct (negb (Re.re_match Credentials.email_regex a1));
      [discriminate Hmail|reflexivity]. }
  split; [|split; reflexivity].
  intros u Hin.
  assert (Hf : PyStr.eqb (User.username u) a0 || PyStr.eqb (User.email u) a1 = false).
  { destruct (PyStr.eqb (User.username u) a0 || PyStr.eqb (User.email u) a1) eqn:E';
      [|reflexivity].
    assert (Hin' : In u (filter (fun u => PyStr.eqb (User.username u) a0
                                          || PyStr.eqb (User.email u) a1)
                                (users st)))
      by (apply filter_In; now split).
    rewrite Hnone in Hin'. destruct Hin'. }
  apply orb_false_iff in Hf as [H1 H2].
  split; intros Heq; [rewrite Heq, PyStrFacts.eqb_refl in H1
                     |rewrite Heq, PyStrFacts.eqb_refl in H2]; discriminate.
Qed.

(** *** POST /api/auth/login *)

(** A login never writes the users table; it leaves the store as it
    was, or appends one audit entry about a user of the table. *)
Lemma login_cases entropy req st :
  snd (handle (login lib entropy) req st) = st
  \/ exists user action details,
       In user (users st)
       /\ snd (handle (login lib entropy) req st)
          = log req st (User.id user) action (lit "user")
                (Some (User.id user)) details.
Proof.
  unfold handle.
  destruct (login lib entropy req st) as [[resp st']|e] eqn:H.
  2:{ left. now destruct e. }
  unfold login in H.
  inv_ok H.
  all: inversion H; subst; clear H; try (now left).
  all: right;
    lazymatch goal with
    | Hf : first lib _ = Some ?u |- _ =>
        apply first_In, filter_In in Hf as [Hin _];
        exists u; do 2 eexists; split; [exact Hin|reflexivity]
    end.
Qed.

Lemma get_current_user_store req st :
  snd (handle get_current_user req st) = st.
Proof.
  unfold handle, get_current_user, jwt_required.
  destruct (jwt_identity req); [|reflexivity].
  now destruct (get_user st z).
Qed.

Lemma log_users req st user_id action resource_type resource_id details :
  users (log req st user_id action resource_type resource_id details) = users st.
Proof. reflexivity. Qed.

Lemma logout_users req st : users (snd (handle logout req st)) = users st.
Proof.
  unfold handle, logout, jwt_required. now destruct (jwt_identity req).
Qed.

Lemma logout_cases req st :
  snd (handle logout req st) = st
  \/ exists caller,
       jwt_identity req = Some caller
       /\ snd (handle logout req st)
          = log req st caller (lit "logout") (lit "user") (Some caller) JNull.
Proof.
  unfold handle, logout, jwt_required.
  destruct (jwt_identity req) as [caller|]; [|now left].
  right. now exists caller.
Qed.

(** *** The users table along the requests *)

Variable bind_text : json -> option (option str).
Variable bind_bool : json -> option bool.

(** A request leaves the users table as it was, or appends one user:
    under the next id, validated, clashing with no row, active and no
    administrator. *)
Lemma serve_users r req st :
  users (serve lib bind_text bind_bool r req st) = users st
  \/ exists username email password_hash,
       Validators.validate_username (unicode_alnum lib) username = Validators.valid
       /\ Credentials.validate_email email = Credentials.valid
       /\ (forall u, In u (users st) ->
             User.username u <> username /\ User.email u <> email)
       /\ users (serve lib bind_text bind_bool r req st)
          = users st
            ++ [User.mk (Db.next_id (map User.id (users st)))
                        username email password_hash true false
                        (now req) (now req)].
Proof.
  destruct r as [entropy|entropy| | |r]; simpl serve.
  - destruct (register_cases entropy req st)
      as [[-> _]|(username & email & h & Hn & He & Hfree & _ & ->)];
      [now left|].
    right. exists username, email, h.
    split; [exact Hn|]. split; [exact He|]. split; [exact Hfree|reflexivity].
  - destruct (login_cases entropy req st) as [->|(u & a & d & _ & ->)]; now left.
  - left. now rewrite get_current_user_store.
  - left. apply logout_users.
  - now left.
Qed.

(** *** The tables of the configurations along the requests *)

(** A request is served by a view of [Routes] on the tables of the
    configurations, or it leaves them as they were, or it appends one
    entry to the audit table and writes nothing else. *)
Lemma serve_db r req st :
  (exists r',
     r = Configs r'
     /\ db (serve lib bind_text bind_bool r req st)
        = snd (Http.handle (Routes.dispatch bind_text bind_bool r') req (db st)))
  \/ db (serve lib bind_text bind_bool r req st) = db st
  \/ exists user_id action resource_type resource_id details,
       db (serve lib bind_text bind_bool r req st)
       = Http.log req (db st) user_id action resource_type resource_id details.
Proof.
  destruct r as [entropy|entropy| | |r]; simpl serve.
  - destruct (register_cases entropy req st)
      as [[-> _]|(username & email & h & _ & _ & _ & _ & ->)];
      [now right; left|].
    right. right. now do 5 eexists.
  - destruct (login_cases entropy req st) as [->|(u & a & d & _ & ->)];
      [now right; left|].
    right. right. now do 5 eexists.
  - right. left. now rewrite get_current_user_store.
  - destruct (logout_cases req st) as [->|(caller & _ & ->)];
      [now right; left|].
    right. right. now do 5 eexists.
  - left. now exists r.
Qed.

(** Every store the application reaches satisfies the constraints of
    the tables. *)
Lemma reachable_consistent st :
  reachable lib bind_text bind_bool st -> Db.consistent (db st).
Proof.
  induction 1 as [|st r req _ IH].
  - apply consistent_empty.
  - destruct (serve_db r req st)
      as [(r' & _ & ->)|[->|(u & a & t & i & d & ->)]].
    + now apply ReachableFacts.step_consistent.
    + exact IH.
    + now apply ReachableFacts.consistent_log.
Qed.

End Library.

End AuthFacts.

(** ** The sample stores are stores the application reaches *)

Module AuthSamplesFacts.

Import Auth AuthSamples.

Lemma st_carol_reachable :
  reachable sample_library Routes.strict_text Routes.strict_bool st_carol.
Proof. apply reachable_step, reachable_empty. Qed.

Lemma st_carol_t1_reachable is_template :
  reachable sample_library Routes.strict_text Routes.strict_bool
            (st_carol_t1 is_template).
Proof. apply reachable_step, st_carol_reachable. Qed.

Lemma st_carol_t1_updated_reachable :
  reachable sample_library Routes.strict_text Routes.strict_bool
            st_carol_t1_updated.
Proof. apply reachable_step, st_carol_t1_reachable. Qed.

End AuthSamplesFacts.

(** ** The sample tables satisfy the constraints *)

Module SamplesFacts.

Import Samples.

Lemma st_alice_consistent : Db.consistent st_alice.
Proof.
  apply ReachableFacts.step_consistent, ConsistencyFacts.consistent_empty.
Qed.

Lemma st_template_consistent : Db.consistent st_template.
Proof.
  apply ReachableFacts.step_consistent, ConsistencyFacts.consistent_empty.
Qed.

End SamplesFacts.


(* ===================================================================== *)
(** * More facts about the routes *)
(* ===================================================================== *)

Module CommitFacts.

Import Http Routes RoutesFacts.

Section Driver.

Variable bind_text : json -> option (option str).
Variable bind_bool : json -> option bool.

(** The store a creation answered 201 leaves, audit entry included. *)
Lemma create_configuration_commit req st :
  status_code (fst (handle (create_configuration bind_text bind_bool) req st)) = 201 ->
  exists caller config name,
    jwt_identity req = Some caller
    /\ Configuration.id config
       = Db.next_id (map Configuration.id (Db.configurations st))
    /\ Configuration.user_id config = caller
    /\ Configuration.name config = name
    /\ Configuration.created_at config = now req
    /\ Configuration.updated_at config = now req
    /\ snd (handle (create_configuration bind_text bind_bool) req st)
       = log req
           (Db.mk (Db.configurations st ++ [config])
                  (Db.configuration_versions st
                   ++ [ConfigurationVersion.mk
                         (Db.next_id (map ConfigurationVersion.id
                                          (Db.configuration_versions st)))
                         (Configuration.id config) 1 (Configuration.data_json config)
                         (Some (lit "Initial version")) (now req) caller])
                  (Db.audit_log st))
           caller (lit "create") (lit "configuration")
           (Some (Configuration.id config))
           (JObj [(lit "name", JStr name);
                  (lit "config_type", JStr (Configuration.config_type config))])
    /\ fst (handle (create_configuration bind_text bind_bool) req st)
       = success_response
           (Some (ConfigData (Configuration.to_dict config 
                                (Db.version_count
                                   (snd (handle (create_configuration
                                                   bind_text bind_bool) req st))
                                   (Configuration.id config)) true)))
           (Some (lit "Configuration created successfully")) 201.
Proof.
  unfold handle.
  destruct (create_configuration bind_text bind_bool req st)
    as [[resp st']|e] eqn:H.
  2:{ destruct e; discriminate. }
  unfold create_configuration, jwt_required in H.
  inv_ok H.
  all: try (inversion H; subst; clear H; try destruct (jwt_error req); discriminate).
  inversion H; subst; clear H. intros _.
  lazymatch goal with
  | Hj : jwt_identity req = Some ?z,
    Ht : (if truthy ?tags then _ else _) = Ok ?c,
    Hb : boolean_column _ _ = Ok ?b,
    Hv : Db.add_version _ ?v = Ok _ |- _ =>
      exists z, (Configuration.with_is_template c b);
      apply DbFacts.add_version_inv in Hv; destruct Hv as [-> Hfree];
      assert (Hc : exists x,
                 c = Configuration.with_tags
                       (Configuration.mk
                          (Db.next_id (map Configuration.id (Db.configurations st)))
                          z _ _ _ _ None false (now req) (now req)) x)
        by (destruct (truthy tags);
            [apply assign_tags_inv in Ht; exact Ht
            |inversion Ht; now exists None]);
      destruct Hc as [x ->]
  end.
  eexists. repeat split; reflexivity.
Qed.

End Driver.

(** The store an instantiation answered 201 leaves. *)
Lemma create_from_template_commit template_id req st :
  status_code (fst (handle (create_from_template template_id) req st)) = 201 ->
  exists caller template,
    jwt_identity req = Some caller
    /\ Db.get st template_id = Some template
    /\ Configuration.is_template template = true
    /\ snd (handle (create_from_template template_id) req st)
       = log req
           (Db.mk (Db.configurations st
                   ++ [Configuration.mk
                         (Db.next_id (map Configuration.id (Db.configurations st)))
                         caller (Configuration.config_type template)
                         (Configuration.name template ++ lit " - New")
                         (Some (lit "Created from template: "
                                ++ Configuration.name template))
                         (Configuration.data_json template)
                         (match Configuration.tags template with
                          | Some ((_ :: _) as tags) => Some tags
                          | _ => None
                          end)
                         false (now req) (now req)])
                  (Db.configuration_versions st
                   ++ [ConfigurationVersion.mk
                         (Db.next_id (map ConfigurationVersion.id
                                          (Db.configuration_versions st)))
                         (Db.next_id (map Configuration.id (Db.configurations st)))
                         1 (Configuration.data_json template)
                         (Some (template_version_description
                                  (Configuration.name template)))
                         (now req) caller])
                  (Db.audit_log st))
           caller (lit "create_from_template") (lit "configuration")
           (Some (Db.next_id (map Configuration.id (Db.configurations st))))
           (JObj [(lit "template_id", JNum template_id);
                  (lit "template_name", JStr (Configuration.name template))]).
Proof.
  unfold handle.
  destruct (create_from_template template_id req st) as [[resp st']|e] eqn:H.
  2:{ destruct e; discriminate. }
  unfold create_from_template, jwt_required in H.
  destruct (jwt_identity req) as [caller|];
    [|inversion H; destruct (jwt_error req); discriminate].
  apply bind_Ok_inv in H as [found [Hs H]].
  apply DbFacts.session_get_Ok in Hs as [Hs _].
  destruct found as [template|]; [|inversion H; discriminate].
  destruct (Configuration.is_template template) eqn:Ht; simpl negb in H; cbv iota in H;
    [|inversion H; discriminate].
  apply bind_Ok_inv in H as [versions [Hv H]].
  apply DbFacts.add_version_inv in Hv as [-> _].
  inversion H; subst; clear H. intros _.
  exists caller, template.
  split; [reflexivity|]. split; [exact Hs|]. split; [exact Ht|reflexivity].
Qed.

End CommitFacts.

(** ** Lookups in the tables *)

Module LookupFacts.

Lemma find_filter_implies {A} (p q : A -> bool) (l : list A) :
  (forall x, p x = true -> q x = true) ->
  find p (filter q l) = find p l.
Proof.
  intros H. induction l as [|x r IH]; simpl; [reflexivity|].
  destruct (q x) eqn:Eq; simpl.
  - destruct (p x); [reflexivity|exact IH].
  - destruct (p x) eqn:Ep; [|exact IH].
    apply H in Ep. congruence.
Qed.

Lemma find_filter_excluded {A} (p q : A -> bool) (l : list A) :
  (forall x, p x = true -> q x = false) ->
  find p (filter q l) = None.
Proof.
  intros H. induction l as [|x r IH]; simpl; [reflexivity|].
  destruct (q x) eqn:Eq; simpl; [|exact IH].
  destruct (p x) eqn:Ep; [|exact IH].
  apply H in Ep. congruence.
Qed.

(** Under unique keys, [get] returns the very row of the table. *)
Lemma get_of_In st c :
  NoDup (map Configuration.id (Db.configurations st)) ->
  In c (Db.configurations st) ->
  Db.get st (Configuration.id c) = Some c.
Proof.
  unfold Db.get. induction (Db.configurations st) as [|x r IH]; simpl; [easy|].
  intros Hnd Hin. inversion Hnd as [|? ? Hx Hr]; subst.
  destruct Hin as [->|Hin]; [now rewrite Z.eqb_refl|].
  destruct (Configuration.id x =? Configuration.id c) eqn:E; [|now apply IH].
  apply Z.eqb_eq in E. exfalso. apply Hx. rewrite E. now apply in_map.
Qed.

(** The tables other requests see after a [log]. *)
Lemma get_log req st user_id action resource_type resource_id details cid :
  Db.get (Http.log req st user_id action resource_type resource_id details) cid
  = Db.get st cid.
Proof. reflexivity. Qed.

Lemma versions_of_log req st user_id action resource_type resource_id details cid :
  Db.versions_of (Http.log req st user_id action resource_type resource_id details) cid
  = Db.versions_of st cid.
Proof. reflexivity. Qed.

Lemma get_delete_same st cid : Db.get (Db.delete st cid) cid = None.
Proof.
  unfold Db.get, Db.delete. simpl. apply find_filter_excluded.
  intros x Hx. now rewrite Hx.
Qed.

Lemma get_delete_other st cid other :
  other <> cid -> Db.get (Db.delete st cid) other = Db.get st other.
Proof.
  intros Hne. unfold Db.get, Db.delete. simpl. apply find_filter_implies.
  intros x Hx. apply Z.eqb_eq in Hx. apply negb_true_iff, Z.eqb_neq. congruence.
Qed.

Lemma versions_of_delete_same st cid : Db.versions_of (Db.delete st cid) cid = [].
Proof.
  unfold Db.versions_of, Db.delete, ConfigurationVersion.filter_by_config_id. simpl.
  apply ConsistencyFacts.filter_none. intros v Hv.
  apply filter_In in Hv as [_ Hv]. now apply negb_true_iff in Hv.
Qed.

Lemma versions_of_delete_other st cid other :
  other <> cid ->
  Db.versions_of (Db.delete st cid) other = Db.versions_of st other.
Proof.
  intros Hne.
  unfold Db.versions_of, Db.delete, ConfigurationVersion.filter_by_config_id. simpl.
  apply ConsistencyFacts.filter_filter_implies.
  intros v Hv. apply Z.eqb_eq in Hv. apply negb_true_iff, Z.eqb_neq. congruence.
Qed.

(** A descending sort of rows inserted in ascending order reverses them. *)
Lemma insert_desc_smallest {A} (key : A -> Z) x (l : list A) :
  Forall (fun y => key x < key y) l ->
  Db.insert_desc key x l = l ++ [x].
Proof.
  induction 1 as [|y r Hy _ IH]; simpl; [reflexivity|].
  replace (key y <=? key x) with false by (symmetry; apply Z.leb_gt; lia).
  now rewrite IH.
Qed.

Lemma order_by_desc_numbered {A} (key : A -> Z) (l : list A) : forall a n,
  map key l = map Z.of_nat (seq a n) ->
  Db.order_by_desc key l = rev l.
Proof.
  induction l as [|x r IH]; intros a n H; [reflexivity|].
  destruct n as [|n]; [discriminate|]. simpl in H.
  inversion H as [[Hx Hr]]. simpl.
  rewrite (IH (S a) n Hr). apply insert_desc_smallest.
  apply Forall_rev. apply Forall_forall. intros y Hy.
  assert (Hk : In (key y) (map Z.of_nat (seq (S a) n)))
    by (rewrite <- Hr; now apply in_map).
  apply in_map_iff in Hk as [k [Hk Hin]]. apply in_seq in Hin. lia.
Qed.

End LookupFacts.

Module InsertFacts.

Lemma add_version_fresh rows v :
  (forall r, In r rows ->
     ConfigurationVersion.config_id r <> ConfigurationVersion.config_id v) ->
  Db.add_version rows v = Ok (rows ++ [v]).
Proof.
  intros H. unfold Db.add_version.
  destruct (existsb _ rows) eqn:E; [|reflexivity].
  apply existsb_exists in E as [r [Hr Hk]].
  apply andb_true_iff in Hk as [Hc _]. apply Z.eqb_eq in Hc.
  now elim (H r Hr).
Qed.

(** In a consistent store no version bears the key the next configuration
    gets. *)
Lemma next_id_unused st :
  Db.consistent st ->
  (forall c, In c (Db.configurations st) ->
     Configuration.id c
     <> Db.next_id (map Configuration.id (Db.configurations st)))
  /\ (forall r, In r (Db.configuration_versions st) ->
        ConfigurationVersion.config_id r
        <> Db.next_id (map Configuration.id (Db.configurations st))).
Proof.
  intros (_ & _ & Hfk & _). split.
  - intros c Hc E.
    pose proof (DbFacts.next_id_fresh _ _ (in_map Configuration.id _ _ Hc)). lia.
  - intros r Hr E. pose proof (DbFacts.next_id_fresh _ _ (Hfk r Hr)). lia.
Qed.

Lemma find_app_found {A} (p : A -> bool) (l l' : list A) x :
  find p l = Some x -> find p (l ++ l') = Some x.
Proof.
  induction l as [|y r IH]; simpl; [discriminate|].
  destruct (p y); [easy|exact IH].
Qed.

Lemma find_app_missing {A} (p : A -> bool) (l l' : list A) :
  (forall x, In x l -> p x = false) -> find p (l ++ l') = find p l'.
Proof.
  induction l as [|y r IH]; simpl; [reflexivity|]. intros H.
  rewrite (H y) by now left. apply IH. intros x Hx. apply H. now right.
Qed.

(** Lookups after the insertion of a configuration [c] under the next key
    with its version [v]. *)
Lemma get_inserted st c v a :
  Db.consistent st ->
  Configuration.id c = Db.next_id (map Configuration.id (Db.configurations st)) ->
  Db.get (Db.mk (Db.configurations st ++ [c]) (Db.configuration_versions st ++ [v]) a)
         (Configuration.id c) = Some c.
Proof.
  intros Hst Hid. destruct (next_id_unused Hst) as [Hc _].
  unfold Db.get. simpl. rewrite find_app_missing.
  - simpl. now rewrite Z.eqb_refl.
  - intros x Hx. apply Z.eqb_neq. rewrite Hid. now apply Hc.
Qed.

Lemma get_kept st c v a cid x :
  Db.get st cid = Some x ->
  Db.get (Db.mk (Db.configurations st ++ [c]) (Db.configuration_versions st ++ [v]) a)
         cid = Some x.
Proof. unfold Db.get. simpl. apply find_app_found. Qed.


Lemma versions_of_inserted st c v a :
  Db.consistent st ->
  Configuration.id c = Db.next_id (map Configuration.id (Db.configurations st)) ->
  ConfigurationVersion.config_id v = Configuration.id c ->
  Db.versions_of
    (Db.mk (Db.configurations st ++ [c]) (Db.configuration_versions st ++ [v]) a)
    (Configuration.id c) = [v].
Proof.
  intros Hst Hid Hv. destruct (next_id_unused Hst) as [_ Hr].
  unfold Db.versions_of, ConfigurationVersion.filter_by_config_id. simpl.
  rewrite filter_app, ConsistencyFacts.filter_none.
  - simpl. now rewrite Hv, Z.eqb_refl.
  - intros r Hin. apply Z.eqb_neq. rewrite Hid. now apply Hr.
Qed.

Lemma versions_of_kept st c v a cid :
  ConfigurationVersion.config_id v <> cid ->
  Db.versions_of
    (Db.mk (Db.configurations st ++ [c]) (Db.configuration_versions st ++ [v]) a) cid
  = Db.versions_of st cid.
Proof.
  intros Hne. unfold Db.versions_of, ConfigurationVersion.filter_by_config_id. simpl.
  rewrite filter_app. simpl.
  replace (ConfigurationVersion.config_id v =? cid) with false
    by (symmetry; now apply Z.eqb_neq).
  apply app_nil_r.
Qed.

End InsertFacts.
(* ===================================================================== *)
(** * The specification's claims *)
(* ===================================================================== *)

(** ** Port ranges *)

(** C9 (the code departs from the claim): [validate_port_range] does not
    return on every string.  For ["80-"] both halves pass [validate_port]
    (the empty half counts as an absent port), and the comparison then
    evaluates [int('')], whose [ValueError] nothing catches. *)
Theorem C9_validate_port_range_raises (unicode_decimal : PyStr.char -> option Z) :
  Validators.validate_port_range unicode_decimal (PyStr.lit "80-") = Raise ValueError
  /\ Validators.validate_port_range unicode_decimal (PyStr.lit "-80") = Raise ValueError.
Proof. split; reflexivity. Qed.

(** C6, as stated, fails on the empty string: it has no hyphen and is not
    a numeric string, yet [validate_port_range] answers valid. *)
Lemma C6_counterexample_empty_string :
  PyStr.contains PyStr.hyphen (PyStr.lit "") = false
  /\ Validators.int_of_str Validators.ascii_decimal (PyStr.lit "") = Raise ValueError
  /\ Validators.validate_port_range Validators.ascii_decimal (PyStr.lit "")
     = Ok Validators.valid.
Proof. repeat split. Qed.

(** C6 (amended): for 1 <= a <= b <= 65535 the range ["a-b"] is valid; for
    a > b, both in range, it is invalid with the start/end ordering
    message; the empty string is valid; a non-empty string without hyphen
    is judged as a port, valid exactly when [int()] reads it as an integer
    in 1..65535; a string with a hyphen whose split on ['-'] has other
    than two parts is invalid with the format message. *)
Theorem C6_validate_port_range_amended (unicode_decimal : PyStr.char -> option Z) :
  (forall a b, 1 <= a -> a <= b -> b <= 65535 ->
     Validators.validate_port_range unicode_decimal (Validators.render_range a b)
     = Ok Validators.valid)
  /\ (forall a b, 1 <= b -> b < a -> a <= 65535 ->
        Validators.validate_port_range unicode_decimal (Validators.render_range a b)
        = Ok (Validators.invalid
                (Validators.PortRangeOrder (Validators.render_range a b))))
  /\ Validators.validate_port_range unicode_decimal [] = Ok Validators.valid
  /\ (forall s, s <> [] -> PyStr.contains PyStr.hyphen s = false ->
        Validators.validate_port_range unicode_decimal s
        = Ok (match Validators.int_of_str unicode_decimal s with
              | Ok n => if (1 <=? n) && (n <=? 65535) then Validators.valid
                        else Validators.invalid (Validators.PortOutOfRange (JStr s))
              | Raise _ => Validators.invalid (Validators.InvalidPortNumber (JStr s))
              end))
  /\ (forall s, PyStr.contains PyStr.hyphen s = true ->
        List.length (PyStr.split PyStr.hyphen s) <> 2%nat ->
        Validators.validate_port_range unicode_decimal s
        = Ok (Validators.invalid (Validators.InvalidPortRangeFormat s))).
Proof.
  repeat split.
  - intros a b H1 H2 H3.
    rewrite ValidatorsFacts.validate_port_range_render by lia.
    now replace (a >? b) with false by (rewrite Z.gtb_ltb; symmetry; apply Z.ltb_ge; lia).
  - intros a b H1 H2 H3.
    rewrite ValidatorsFacts.validate_port_range_render by lia.
    now replace (a >? b) with true by (rewrite Z.gtb_ltb; symmetry; apply Z.ltb_lt; lia).
  - intros s Hs Hh. unfold Validators.validate_port_range.
    destruct s as [|c r]; [easy|]. rewrite Hh.
    unfold Validators.validate_port, Validators.py_int.
    destruct (Validators.int_of_str unicode_decimal (c :: r)) as [n|e] eqn:E.
    + now destruct ((1 <=? n) && (n <=? 65535)).
    + unfold Validators.int_of_str in E.
      destruct (match PyStr.strip_by Validators.int_space (c :: r) with
                | [] => None
                | c0 :: r0 => _
                end); [discriminate|].
      now inversion E.
  - intros s Hh Hlen. unfold Validators.validate_port_range.
    destruct s as [|c r]; [discriminate|]. rewrite Hh.
    destruct (PyStr.split PyStr.hyphen (c :: r)) as [|p0 [|p1 [|p2 ps]]];
      try reflexivity.
    now simpl in Hlen.
Qed.

(** C6 at a concrete input: the range 80-443. *)
Lemma C6_witness :
  Validators.validate_port_range Validators.ascii_decimal (PyStr.lit "80-443")
  = Ok Validators.valid.
Proof.
  apply (proj1 (C6_validate_port_range_amended Validators.ascii_decimal) 80 443); lia.
Defined.

(** ** Usernames *)

(** C7 (the code departs from the claim): ["___"] has length 3 and only
    characters of the allowed set, and [validate_username] rejects it,
    with the message that names that very set.  Once the underscores and
    hyphens are removed nothing is left, and [''.isalnum()] is false. *)
Theorem C7_validate_username_rejects_underscores
        (unicode_alnum : PyStr.char -> bool) :
  PyStr.len (PyStr.lit "___") = 3
  /\ Forall (fun c => c = PyStr.underscore) (PyStr.lit "___")
  /\ Validators.validate_username unicode_alnum (PyStr.lit "___")
     = Validators.invalid Validators.UsernameCharset.
Proof. repeat split; repeat constructor. Qed.

(** ** Tags *)

(** C5, as stated, fails on the number [0]: it is neither a list nor a
    string, and [validate_tags] accepts it. *)
Lemma C5_counterexample_zero :
  isinstance_list (JNum 0) = false
  /\ isinstance_str (JNum 0) = false
  /\ Validators.validate_tags (JNum 0) = Ok Validators.valid.
Proof. repeat split. Qed.

(** C5 (amended): [validate_tags] accepts every input whose truth value is
    false (absent, empty list or string, and also [0], [False], [{}]); a
    list of strings is accepted exactly when every tag has length at most
    50; a string exactly when every piece of its split on [','], trimmed,
    has length at most 50; every input with a true truth value that is
    neither a list nor a string is rejected. *)
Theorem C5_validate_tags_amended :
  (forall v, truthy v = false -> Validators.validate_tags v = Ok Validators.valid)
  /\ (forall l : list str, exists m,
        Validators.validate_tags (JArr (map JStr l))
        = Ok (forallb (fun t => PyStr.len t <=? 50) l, m))
  /\ (forall s : str, exists m,
        Validators.validate_tags (JStr s)
        = Ok (forallb (fun t => PyStr.len (PyStr.strip t) <=? 50)
                      (PyStr.split PyStr.comma s), m))
  /\ (forall v, truthy v = true -> isinstance_list v = false ->
        isinstance_str v = false ->
        Validators.validate_tags v
        = Ok (Validators.invalid Validators.TagsNotListOrString)).
Proof.
  repeat split.
  - intros v Hv. unfold Validators.validate_tags. now rewrite Hv.
  - intros l. destruct l as [|t r].
    + now exists None.
    + unfold Validators.validate_tags. simpl truthy. simpl negb. cbv iota.
      apply (TagsFacts.check_tag_lengths_strings (t :: r)).
  - intros s. destruct s as [|c r].
    + now exists None.
    + unfold Validators.validate_tags. simpl truthy. simpl negb. cbv iota.
      destruct (TagsFacts.check_tag_lengths_strings
                  (map PyStr.strip (PyStr.split PyStr.comma (c :: r)))) as [m Hm].
      exists m. rewrite map_map in Hm. rewrite Hm.
      now rewrite TagsFacts.forallb_len_strip.
  - intros v Hv Hl Hs. unfold Validators.validate_tags. rewrite Hv.
    now destruct v.
Qed.

(** C5 at a concrete input: the number 123. *)
Lemma C5_witness :
  Validators.validate_tags (JNum 123)
  = Ok (Validators.invalid Validators.TagsNotListOrString).
Proof.
  apply (proj2 (proj2 (proj2 C5_validate_tags_amended)) (JNum 123)); reflexivity.
Defined.

(** C8, as stated, fails on a tag with a leading blank: it holds no comma,
    and the list read back differs from the list written. *)
Lemma C8_counterexample_leading_blank :
  let self := Configuration.mk 1 1 (PyStr.lit "ipsec") (PyStr.lit "T1") None
                               (JObj []) None false 0 0 in
  Forall (fun t => PyStr.contains PyStr.comma t = false) [PyStr.lit " a"]
  /\ exists self',
       Configuration.set_tags_list self [JStr (PyStr.lit " a")] = Ok self'
       /\ Configuration.get_tags_list self' = [PyStr.lit "a"]
       /\ Configuration.get_tags_list self' <> [PyStr.lit " a"].
Proof.
  split; [repeat constructor|].
  eexists. split; [vm_compute; reflexivity|].
  split; [vm_compute; reflexivity|vm_compute; discriminate].
Qed.

(** C8 (amended): for every list of tag strings none of which holds a
    comma, [set_tags_list] followed by [get_tags_list] returns the tags
    trimmed of surrounding whitespace, the empty ones dropped; it returns
    the original list when every tag is non-empty and already trimmed. *)
Theorem C8_tags_round_trip_amended (self : Configuration.t) (l : list str) :
  Forall (fun t => PyStr.contains PyStr.comma t = false) l ->
  exists self',
    Configuration.set_tags_list self (map JStr l) = Ok self'
    /\ Configuration.get_tags_list self'
       = filter PyStr.nonempty (map PyStr.strip l)
    /\ (Forall (fun t => PyStr.nonempty t = true
                         /\ PyStr.trimmed PyStr.isspace t) l ->
        Configuration.get_tags_list self' = l).
Proof.
  intros Hcomma. unfold Configuration.set_tags_list.
  rewrite TagsFacts.stripped_tags_strings. simpl. eexists. split; [reflexivity|].
  set (kept := filter PyStr.nonempty (map PyStr.strip l)).
  assert (Hkept_comma : Forall (fun t => PyStr.contains PyStr.comma t = false) kept).
  { apply Forall_forall. intros t Ht. apply filter_In in Ht as [Ht _].
    apply in_map_iff in Ht as [u [<- Hu]].
    rewrite Forall_forall in Hcomma. specialize (Hcomma u Hu).
    unfold PyStr.contains in *.
    assert (Hall : Forall (fun c => (PyStr.comma =? c)%N = false) u).
    { apply Forall_forall. intros c Hc.
      destruct (PyStr.comma =? c)%N eqn:E; [|reflexivity].
      rewrite <- Hcomma. symmetry. apply existsb_exists. now exists c. }
    apply (PyStrFacts.strip_by_Forall PyStr.isspace) in Hall.
    destruct (existsb (N.eqb PyStr.comma) (PyStr.strip u)) eqn:E; [|reflexivity].
    apply existsb_exists in E as [c [Hc Hc']].
    rewrite Forall_forall in Hall. now rewrite (Hall c Hc) in Hc'. }
  assert (Hkept_ne : Forall (fun t => t <> []) kept).
  { apply Forall_forall. intros t Ht. apply filter_In in Ht as [_ Ht].
    now destruct t. }
  assert (Hkept_trim : map PyStr.strip kept = kept).
  { rewrite <- (map_id kept) at 2. apply map_ext_in. intros t Ht.
    apply filter_In in Ht as [Ht _]. apply in_map_iff in Ht as [u [<- _]].
    apply PyStrFacts.strip_by_idem. }
  assert (Hget : Configuration.get_tags_list
                   (Configuration.with_tags self
                      (Some (PyStr.join [PyStr.comma] kept))) = kept).
  { unfold Configuration.get_tags_list. simpl Configuration.tags.
    destruct (PyStr.join [PyStr.comma] kept) as [|c r] eqn:E.
    - symmetry. eapply PyStrFacts.join_nil_inv; eassumption.
    - rewrite <- E. rewrite PyStrFacts.split_join; try assumption.
      intros ->. discriminate. }
  split; [exact Hget|].
  intros Hl. rewrite Hget. unfold kept.
  clear - Hl. induction Hl as [|t r [Hne Htrim] _ IH]; simpl; [reflexivity|].
  change (PyStr.strip t) with (PyStr.strip_by PyStr.isspace t).
  rewrite (PyStrFacts.strip_by_trimmed_id Htrim), Hne. now rewrite IH.
Qed.

(** C8 at a concrete input: the tags a and b. *)
Lemma C8_witness :
  exists self',
    Configuration.set_tags_list
      (Configuration.mk 1 1 (PyStr.lit "ipsec") (PyStr.lit "T1") None
                        (JObj []) None false 0 0)
      (map JStr [PyStr.lit "a"; PyStr.lit "b"]) = Ok self'
    /\ Configuration.get_tags_list self' = [PyStr.lit "a"; PyStr.lit "b"].
Proof.
  destruct (@C8_tags_round_trip_amended
              (Configuration.mk 1 1 (PyStr.lit "ipsec") (PyStr.lit "T1") None
                                (JObj []) None false 0 0)
              [PyStr.lit "a"; PyStr.lit "b"]) as [self' [Hset [_ Hid]]].
  - repeat constructor.
  - exists self'. split; [exact Hset|].
    apply Hid. repeat constructor.
Defined.


(** ** Existence before ownership *)




(** ** Templates *)

(** C10, as stated, fails on the creation from a template: Bob, who does
    not own Alice's template, is answered 201 with a copy of it that
    carries the template's data, which the listing leaves out. *)
Lemma C10_counterexample_create_from_template :
  exists template copy,
    Db.get Samples.st_template 1 = Some template
    /\ Configuration.is_template template = true
    /\ Configuration.user_id template = Samples.alice
    /\ Samples.alice <> Samples.bob
    /\ Http.status_code
         (fst (Samples.serve (Routes.POST_template_create 1)
                 (Samples.request_of Samples.bob JNull 200) Samples.st_template))
       = 201
    /\ Http.data
         (fst (Samples.serve (Routes.POST_template_create 1)
                 (Samples.request_of Samples.bob JNull 200) Samples.st_template))
       = Some (Http.ConfigData copy)
    /\ Configuration.d_user_id copy = Samples.bob
    /\ Configuration.d_data copy = Some (Configuration.data_json template)
    /\ Configuration.d_data copy
       = Some (JObj [(PyStr.lit "k", JStr (PyStr.lit "v"))]).
Proof.
  do 2 eexists. split; [reflexivity|]. split; [reflexivity|].
  split; [reflexivity|]. split; [discriminate|].
  split; [reflexivity|]. split; [vm_compute; reflexivity|].
  split; [reflexivity|]. split; reflexivity.
Qed.

(** C10 (amended): a template owned by someone else, under an id the
    database can hold, is answered 403 on [GET /api/configs/<id>], like
    any other configuration, with nothing of the record in the answer
    and the store unchanged.  Its template status shows it to every
    caller in two ways: the template listing has its dictionary, the
    data left out, and the creation from a template, which checks no
    owner, answers 201 with a copy owned by the caller that carries the
    template's type, tags and full data. *)
Theorem C10_template_visibility_amended
        (bind_text : json -> option (option str)) (bind_bool : json -> option bool)
        (st : Db.store) (req : Http.request) (config_id : N) (caller : Z)
        (config : Configuration.t) :
  Http.jwt_identity req = Some caller ->
  Db.consistent st ->
  Z.of_N config_id <= Db.max_integer ->
  Db.get st (Z.of_N config_id) = Some config ->
  Configuration.is_template config = true ->
  Configuration.user_id config <> caller ->
  let serve r := Http.handle (Routes.dispatch bind_text bind_bool r) req st in
  (Http.status_code (fst (serve (Routes.GET_config config_id))) = 403
   /\ Http.success (fst (serve (Routes.GET_config config_id))) = false
   /\ Http.error (fst (serve (Routes.GET_config config_id)))
      = Some (PyStr.lit "You do not have permission to access this configuration")
   /\ Http.data (fst (serve (Routes.GET_config config_id))) = None
   /\ snd (serve (Routes.GET_config config_id)) = st)
  /\ (exists listed entry,
        Http.status_code (fst (serve Routes.GET_templates)) = 200
        /\ Http.data (fst (serve Routes.GET_templates))
           = Some (Http.ConfigListData listed)
        /\ In entry listed
        /\ Configuration.d_id entry = Z.of_N config_id
        /\ Configuration.d_user_id entry = Configuration.user_id config
        /\ Configuration.d_name entry = Configuration.name config
        /\ Configuration.d_data entry = None)
  /\ (exists copy,
        Http.status_code (fst (serve (Routes.POST_template_create config_id))) = 201
        /\ Http.data (fst (serve (Routes.POST_template_create config_id)))
           = Some (Http.ConfigData copy)
        /\ Configuration.d_user_id copy = caller
        /\ Configuration.d_is_template copy = false
        /\ Configuration.d_config_type copy = Configuration.config_type config
        /\ Configuration.d_name copy
           = Configuration.name config ++ PyStr.lit " - New"
        /\ Configuration.d_tags copy = Configuration.get_tags_list config
        /\ Configuration.d_data copy = Some (Configuration.data_json config)).
Proof.
  intros Hjwt Hst Hrange Hget Htemplate Howner serve. subst serve.
  cbn [Routes.dispatch].
  assert (Hfound : Db.session_get st (Z.of_N config_id) = Ok (Some config)).
  { rewrite DbFacts.session_get_in_range
      by (split; [unfold Db.min_integer; lia|exact Hrange]).
    now rewrite Hget. }
  apply Z.eqb_neq in Howner.
  split; [|split].
  - unfold Http.handle, Routes.get_configuration, Http.jwt_required.
    rewrite Hjwt, Hfound. simpl. rewrite Howner. now repeat split.
  - unfold Http.handle, Routes.list_templates, Http.jwt_required.
    rewrite Hjwt. simpl.
    apply DbFacts.get_Some in Hget as [Hin Hid].
    eexists. exists (Configuration.to_dict
                       config (Db.version_count st (Configuration.id config)) false).
    split; [reflexivity|]. split; [reflexivity|]. split.
    { apply in_map with (f := fun t => Configuration.to_dict
                                       t (Db.version_count st (Configuration.id t))
                                       false).
      eapply Permutation_in; [apply DbFacts.order_by_desc_perm|].
      apply filter_In. now split. }
    split; [exact Hid|]. now repeat split.
  - unfold Http.handle, Routes.create_from_template, Http.jwt_required.
    rewrite Hjwt, Hfound. simpl Py.bind. cbv iota. rewrite Htemplate.
    simpl negb. cbv iota.
    destruct (InsertFacts.next_id_unused Hst) as [_ Hr].
    rewrite InsertFacts.add_version_fresh by (intros r Hin; simpl; now apply Hr).
    simpl. eexists. split; [reflexivity|]. split; [reflexivity|].
    simpl. split; [reflexivity|]. split; [reflexivity|]. split; [reflexivity|].
    split; [reflexivity|]. split; [|reflexivity].
    unfold Configuration.get_tags_list. simpl.
    now destruct (Configuration.tags config) as [[|? ?]|].
Qed.

(** C10 at a concrete input: Bob and Alice's template. *)
Lemma C10_witness :
  Http.status_code
    (fst (Http.handle (Routes.dispatch Routes.strict_text Routes.strict_bool
                         (Routes.GET_config 1))
                      (Samples.request_of Samples.bob JNull 200)
                      Samples.st_template)) = 403
  /\ exists copy,
       Http.data
         (fst (Http.handle (Routes.dispatch Routes.strict_text Routes.strict_bool
                              (Routes.POST_template_create 1))
                           (Samples.request_of Samples.bob JNull 200)
                           Samples.st_template))
       = Some (Http.ConfigData copy)
       /\ Configuration.d_data copy
          = Some (JObj [(PyStr.lit "k", JStr (PyStr.lit "v"))]).
Proof.
  destruct (@C10_template_visibility_amended
              Routes.strict_text Routes.strict_bool Samples.st_template
              (Samples.request_of Samples.bob JNull 200) 1 Samples.bob
              (Configuration.mk 1 1 (PyStr.lit "ipsec") (PyStr.lit "T1")
                 (Some []) (JObj [(PyStr.lit "k", JStr (PyStr.lit "v"))])
                 None true 100 100)
              eq_refl SamplesFacts.st_template_consistent)
    as ((H403 & _) & _ & copy & _ & Hdata & _ & _ & _ & _ & _ & Hcopy).
  - unfold Db.max_integer. lia.
  - reflexivity.
  - reflexivity.
  - discriminate.
  - split; [exact H403|]. exists copy. split; [exact Hdata|exact Hcopy].
Defined.

(** C4: the template listing answers 200 with one dictionary for each
    configuration flagged as a template, whoever owns it, the most
    recently updated first; each dictionary has the fields of its
    record, the owner among them, and leaves the data out.  The store is
    unchanged. *)
Theorem C4_list_templates_all_owners
        (st : Db.store) (req : Http.request) (caller : Z) :
  Http.jwt_identity req = Some caller ->
  exists templates listed,
    Http.status_code (fst (Http.handle Routes.list_templates req st)) = 200
    /\ Http.success (fst (Http.handle Routes.list_templates req st)) = true
    /\ Http.data (fst (Http.handle Routes.list_templates req st))
       = Some (Http.ConfigListData listed)
    /\ snd (Http.handle Routes.list_templates req st) = st
    /\ Forall2 (fun t d =>
                  Configuration.d_id d = Configuration.id t
                  /\ Configuration.d_user_id d = Configuration.user_id t
                  /\ Configuration.d_config_type d = Configuration.config_type t
                  /\ Configuration.d_name d = Configuration.name t
                  /\ Configuration.d_description d = Configuration.description t
                  /\ Configuration.d_tags d = Configuration.get_tags_list t
                  /\ Configuration.d_is_template d = true
                  /\ Configuration.d_created_at d = Configuration.created_at t
                  /\ Configuration.d_updated_at d = Configuration.updated_at t
                  /\ Configuration.d_version_count d
                     = Db.version_count st (Configuration.id t)
                  /\ Configuration.d_data d = None)
               templates listed
    /\ Permutation templates
                   (filter Configuration.is_template (Db.configurations st))
    /\ StronglySorted (Db.desc Configuration.updated_at) templates
    /\ (forall c, In c templates <->
                  In c (Db.configurations st)
                  /\ Configuration.is_template c = true)
    /\ (forall c, In c (Db.configurations st) ->
                  Configuration.is_template c = true ->
                  exists d, In d listed
                            /\ Configuration.d_id d = Configuration.id c
                            /\ Configuration.d_user_id d = Configuration.user_id c
                            /\ Configuration.d_name d = Configuration.name c).
Proof.
  intros Hjwt.
  set (templates := Db.order_by_desc Configuration.updated_at
                      (filter Configuration.is_template (Db.configurations st))).
  assert (Hperm : Permutation
                    (filter Configuration.is_template (Db.configurations st))
                    templates) by apply DbFacts.order_by_desc_perm.
  assert (Hflag : forall t, In t templates -> Configuration.is_template t = true).
  { intros t Ht. apply Permutation_sym in Hperm.
    apply (Permutation_in _ Hperm) in Ht. now apply filter_In in Ht. }
  exists templates.
  exists (map (fun t => Configuration.to_dict
                          t (Db.version_count st (Configuration.id t)) false)
              templates).
  unfold Http.handle, Routes.list_templates, Http.jwt_required.
  rewrite Hjwt. fold templates. simpl fst. simpl snd.
  split; [reflexivity|]. split; [reflexivity|]. split; [reflexivity|].
  split; [reflexivity|]. split.
  { clear Hperm. induction templates as [|t r IH]; simpl; constructor.
    - simpl. repeat split. apply Hflag. now left.
    - apply IH. intros x Hx. apply Hflag. now right. }
  split; [now apply Permutation_sym|].
  split; [apply DbFacts.order_by_desc_sorted|].
  split.
  - intros c. rewrite <- filter_In. split; intros H.
    + eapply Permutation_in; [|exact H]. now apply Permutation_sym.
    + eapply Permutation_in; [|exact H]. exact Hperm.
  - intros c Hc Ht.
    exists (Configuration.to_dict c (Db.version_count st (Configuration.id c)) false).
    split; [|now repeat split].
    apply in_map with (f := fun t => Configuration.to_dict
                                       t (Db.version_count st (Configuration.id t))
                                       false).
    eapply Permutation_in; [exact Hperm|]. apply filter_In. now split.
Qed.

(** C4 at a concrete input: Bob listing the templates, Alice's among them. *)
Lemma C4_witness :
  exists listed d,
    Http.data (fst (Http.handle Routes.list_templates
                      (Samples.request_of Samples.bob JNull 200)
                      Samples.st_template))
    = Some (Http.ConfigListData listed)
    /\ In d listed
    /\ Configuration.d_user_id d = Samples.alice
    /\ Configuration.d_name d = PyStr.lit "T1".
Proof.
  destruct (@C4_list_templates_all_owners
              Samples.st_template (Samples.request_of Samples.bob JNull 200)
              Samples.bob eq_refl)
    as (templates & listed & _ & _ & Hdata & _ & _ & _ & _ & _ & Hall).
  destruct (Hall (Configuration.mk 1 Samples.alice (PyStr.lit "ipsec")
                    (PyStr.lit "T1") (Some [])
                    (JObj [(PyStr.lit "k", JStr (PyStr.lit "v"))])
                    None true 100 100))
    as (d & Hd & _ & Huser & Hname).
  - vm_compute. now left.
  - reflexivity.
  - exists listed, d. split; [exact Hdata|]. split; [exact Hd|].
    split; [exact Huser|exact Hname].
Defined.

(** ** Updates *)

(** A patch that is refused is not applied: the owner's patch with
    [data] and a tag of 51 characters is answered 422 at the tag check
    and changes nothing. *)
Example update_refused_at_the_tag_check :
  Db.get Samples.st_alice 1
  = Some (Configuration.mk 1 Samples.alice (PyStr.lit "ipsec") (PyStr.lit "T1")
            (Some []) (JObj [(PyStr.lit "k", JStr (PyStr.lit "v"))])
            None false 100 100)
  /\ py_in (PyStr.lit "data") Samples.patch_data_long_tag = Ok true
  /\ Http.status_code
       (fst (Samples.serve (Routes.PUT_config 1)
               (Samples.request_of Samples.alice Samples.patch_data_long_tag 200)
               Samples.st_alice)) = 422
  /\ snd (Samples.serve (Routes.PUT_config 1)
            (Samples.request_of Samples.alice Samples.patch_data_long_tag 200)
            Samples.st_alice) = Samples.st_alice.
Proof. repeat split. Qed.



(** ** Version numbers *)

(** C2, as stated, fails on a configuration created from a template: its
    version 1 is written together with the record, with a description
    that names the template instead of ["Initial version"]. *)
Lemma C2_counterexample_from_template :
  exists config version,
    Db.configurations
      (snd (Samples.serve (Routes.POST_template_create 1)
              (Samples.request_of Samples.bob JNull 200) Samples.st_template))
    = Db.configurations Samples.st_template ++ [config]
    /\ Db.configuration_versions
         (snd (Samples.serve (Routes.POST_template_create 1)
                 (Samples.request_of Samples.bob JNull 200) Samples.st_template))
       = Db.configuration_versions Samples.st_template ++ [version]
    /\ ConfigurationVersion.config_id version = Configuration.id config
    /\ ConfigurationVersion.version version = 1
    /\ ConfigurationVersion.change_description version
       = Some (Routes.template_version_description (PyStr.lit "T1"))
    /\ ConfigurationVersion.change_description version
       <> Some (PyStr.lit "Initial version").
Proof.
  do 2 eexists. split; [vm_compute; reflexivity|].
  split; [vm_compute; reflexivity|].
  split; [reflexivity|]. split; [reflexivity|].
  split; [reflexivity|]. vm_compute. discriminate.
Qed.

(** C2 (amended): a configuration created by [POST /api/configs] gets,
    together with the record, version 1 with description ["Initial
    version"]; one created from a template gets version 1 with a
    description naming the template; each update that carries data
    appends the version numbered one more than the largest existing
    number for the configuration (1 if there is none); and in every store
    the application reaches through its routes, those of registration,
    login and logout included, no two versions share (config_id, version)
    and the versions of each configuration are numbered 1, 2, ..., n. *)
Theorem C2_version_numbering_amended
        (bind_text : json -> option (option str)) (bind_bool : json -> option bool) :
  (forall req st,
     Http.status_code
       (fst (Http.handle (Routes.create_configuration bind_text bind_bool) req st))
     = 201 ->
     exists config version audit,
       snd (Http.handle (Routes.create_configuration bind_text bind_bool) req st)
       = Db.mk (Db.configurations st ++ [config])
               (Db.configuration_versions st ++ [version]) audit
       /\ ConfigurationVersion.config_id version = Configuration.id config
       /\ ConfigurationVersion.version version = 1
       /\ ConfigurationVersion.change_description version
          = Some (PyStr.lit "Initial version")
       /\ ConfigurationVersion.data_json version = Configuration.data_json config)
  /\ (forall template_id req st,
        Http.status_code
          (fst (Http.handle (Routes.create_from_template template_id) req st)) = 201 ->
        exists template config version audit,
          Db.get st template_id = Some template
          /\ snd (Http.handle (Routes.create_from_template template_id) req st)
             = Db.mk (Db.configurations st ++ [config])
                     (Db.configuration_versions st ++ [version]) audit
          /\ ConfigurationVersion.config_id version = Configuration.id config
          /\ ConfigurationVersion.version version = 1
          /\ ConfigurationVersion.change_description version
             = Some (Routes.template_version_description
                       (Configuration.name template)))
  /\ (forall config_id req st,
        Http.status_code
          (fst (Http.handle
                  (Routes.update_configuration bind_text bind_bool config_id) req st))
        = 200 ->
        py_in (PyStr.lit "data") (Http.get_json req) = Ok true ->
        exists version,
          Db.configuration_versions
            (snd (Http.handle
                    (Routes.update_configuration bind_text bind_bool config_id)
                    req st))
          = Db.configuration_versions st ++ [version]
          /\ ConfigurationVersion.config_id version = config_id
          /\ ConfigurationVersion.version version
             = ConfigurationVersion.get_next_version_number
                 (Db.configuration_versions st) config_id)
  /\ (forall rows config_id,
        ConfigurationVersion.get_next_version_number rows config_id
        = match ConfigurationVersion.max_version
                  (ConfigurationVersion.filter_by_config_id rows config_id) with
          | Some m => m + 1
          | None => 1
          end)
  /\ (forall lib st,
        Auth.reachable lib bind_text bind_bool st ->
        NoDup (map Db.version_key (Db.configuration_versions (Auth.db st)))
        /\ forall config,
             In config (Db.configurations (Auth.db st)) ->
             Db.numbered_from_1 (Auth.db st) (Configuration.id config)).
Proof.
  split; [|split; [|split; [|split]]].
  - intros req st Hstatus.
    destruct (RoutesFacts.create_configuration_cases bind_text bind_bool req st)
      as [[_ Hno]|(caller & c & v & a & _ & _ & _ & Hv & _ & _ & Hst)];
      [contradiction|].
    exists c, v, a. split; [exact Hst|]. now subst v.
  - intros template_id req st Hstatus.
    destruct (RoutesFacts.create_from_template_cases template_id req st)
      as [[_ Hno]|(caller & tpl & c & v & a & _ & Hget & _ & _ & _ & _ & _ & Hv
                   & _ & _ & Hst)];
      [contradiction|].
    exists tpl, c, v, a. split; [exact Hget|]. split; [exact Hst|]. now subst v.
  - intros config_id req st Hstatus Hdata.
    destruct (RoutesFacts.update_configuration_cases bind_text bind_bool
                                                     config_id req st)
      as [[_ Hno]|(caller & old & new & has_data & vs & _ & _ & _ & _ & _
                   & Hdata' & _ & Hyes & _ & Hst)];
      [contradiction|].
    assert (has_data = true) by congruence. subst has_data.
    destruct (Hyes eq_refl) as (v_descr & descr & _ & _ & Hvs).
    rewrite Hst. simpl. rewrite Hvs. eexists. split; [reflexivity|].
    split; reflexivity.
  - intros rows config_id. apply DbFacts.get_next_version_number_spec.
  - intros lib st Hreach.
    destruct (AuthFacts.reachable_consistent Hreach) as (_ & Hkeys & _ & Hnum).
    split; [exact Hkeys|].
    intros config Hin. apply Hnum. now apply in_map.
Qed.

(** C2 at a concrete input: the store after a registration, a creation
    and an update. *)
Lemma C2_witness :
  NoDup (map Db.version_key
             (Db.configuration_versions (Auth.db AuthSamples.st_carol_t1_updated)))
  /\ Db.numbered_from_1 (Auth.db AuthSamples.st_carol_t1_updated) 1.
Proof.
  destruct (proj2 (proj2 (proj2 (proj2
              (C2_version_numbering_amended Routes.strict_text Routes.strict_bool))))
              Auth.sample_library AuthSamples.st_carol_t1_updated
              AuthSamplesFacts.st_carol_t1_updated_reachable)
    as [Hkeys Hnum].
  split; [exact Hkeys|].
  apply (Hnum (Configuration.mk 1 AuthSamples.carol (PyStr.lit "ipsec")
                 (PyStr.lit "T1") (Some [])
                 (JObj [(PyStr.lit "k", JStr (PyStr.lit "v2"))])
                 None false 150 200)).
  vm_compute. now left.
Defined.

(** ** The scenario of the specification, run on the model *)

Example scenario_create_update_list_delete :
  let created := Samples.serve Routes.POST_configs
                   (Samples.request_of Samples.alice (Samples.body_t1 false) 100)
                   Db.empty in
  let updated := Samples.serve (Routes.PUT_config 1)
                   (Samples.request_of Samples.alice Samples.patch_data 200)
                   (snd created) in
  let listed := Samples.serve (Routes.GET_config_versions 1)
                  (Samples.request_of Samples.alice JNull 300) (snd updated) in
  let deleted := Samples.serve (Routes.DELETE_config 1)
                   (Samples.request_of Samples.alice JNull 400) (snd updated) in
  let gone := Samples.serve (Routes.GET_config 1)
                (Samples.request_of Samples.alice JNull 500) (snd deleted) in
  Http.status_code (fst created) = 201
  /\ Db.version_count (snd created) 1 = 1
  /\ Http.status_code (fst updated) = 200
  /\ Db.version_count (snd updated) 1 = 2
  /\ match Http.data (fst listed) with
     | Some (Http.VersionsData l) => map ConfigurationVersion.d_version l = [2; 1]
     | _ => False
     end
  /\ Http.status_code (fst deleted) = 200
  /\ Http.status_code (fst gone) = 404
  /\ Db.configuration_versions (snd deleted) = [].
Proof. vm_compute. repeat split. Qed.

(** ** The cases of the test suite, run on the model *)

Example test_valid_port_ranges :
  map (fun s => Validators.validate_port_range Validators.ascii_decimal (PyStr.lit s))
      ["80-443"; "1-65535"; "8000-9000"; "1024-1024"; "80"; "443"; "8080"; ""]%string
  = repeat (Ok Validators.valid) 8.
Proof. vm_compute. reflexivity. Qed.

Example test_invalid_port_ranges :
  Validators.validate_port_range Validators.ascii_decimal (PyStr.lit "443-80")
  = Ok (Validators.invalid (Validators.PortRangeOrder (PyStr.lit "443-80")))
  /\ Validators.validate_port_range Validators.ascii_decimal (PyStr.lit "80-443-8080")
     = Ok (Validators.invalid
             (Validators.InvalidPortRangeFormat (PyStr.lit "80-443-8080")))
  /\ Validators.validate_port_range Validators.ascii_decimal (PyStr.lit "0-443")
     = Ok (Validators.invalid (Validators.PortOutOfRange (JStr (PyStr.lit "0"))))
  /\ Validators.validate_port_range Validators.ascii_decimal (PyStr.lit "80-100000")
     = Ok (Validators.invalid (Validators.PortOutOfRange (JStr (PyStr.lit "100000"))))
  /\ Validators.validate_port_range Validators.ascii_decimal (PyStr.lit "abc-def")
     = Ok (Validators.invalid (Validators.InvalidPortNumber (JStr (PyStr.lit "abc")))).
Proof. vm_compute. repeat split. Qed.

Example test_tags :
  Validators.validate_tags
    (JArr [JStr (PyStr.lit "aws"); JStr (PyStr.lit "vpn"); JStr (PyStr.lit "production")])
  = Ok Validators.valid
  /\ Validators.validate_tags (JStr (PyStr.lit "tag1, tag2, tag3")) = Ok Validators.valid
  /\ Validators.validate_tags (JArr [JStr Samples.long_tag])
     = Ok (Validators.invalid (Validators.TagTooLong (JStr Samples.long_tag)))
  /\ Validators.validate_tags (JNum 123)
     = Ok (Validators.invalid Validators.TagsNotListOrString)
  /\ Validators.validate_tags (JArr []) = Ok Validators.valid
  /\ Validators.validate_tags (JStr []) = Ok Validators.valid
  /\ Validators.validate_tags JNull = Ok Validators.valid.
Proof. vm_compute. repeat split. Qed.

Example test_usernames :
  Validators.validate_username Validators.ascii_alnum (PyStr.lit "testuser_1700000000")
  = Validators.valid
  /\ Validators.validate_username Validators.ascii_alnum (PyStr.lit "ab")
     = Validators.invalid Validators.UsernameTooShort
  /\ Validators.validate_username Validators.ascii_alnum (PyStr.lit "bad name")
     = Validators.invalid Validators.UsernameCharset.
Proof. vm_compute. repeat split. Qed.

(** ** The string primitives, run on small inputs *)

Example split_join_strip_samples :
  PyStr.split PyStr.comma (PyStr.lit "a,,b")
  = [PyStr.lit "a"; PyStr.lit ""; PyStr.lit "b"]
  /\ PyStr.split PyStr.comma (PyStr.lit "") = [PyStr.lit ""]
  /\ PyStr.split PyStr.hyphen (PyStr.lit "80-") = [PyStr.lit "80"; PyStr.lit ""]
  /\ PyStr.join [PyStr.comma] [PyStr.lit "a"; PyStr.lit "b"; PyStr.lit "c"]
     = PyStr.lit "a,b,c"
  /\ PyStr.join [PyStr.comma] [] = PyStr.lit ""
  /\ PyStr.strip (9 :: 32 :: PyStr.lit "a b" ++ [32; 10])%N = PyStr.lit "a b"
  /\ PyStr.strip (PyStr.lit "   ") = PyStr.lit ""
  /\ PyStr.remove PyStr.hyphen (PyStr.remove PyStr.underscore (PyStr.lit "a_b-c"))
     = PyStr.lit "abc".
Proof. vm_compute. repeat split. Qed.

Example int_samples :
  map (fun s => Validators.int_of_str Validators.ascii_decimal (PyStr.lit s))
      [" 80 "; "+80"; "8_0"; "007"; "-5"; "65535"]%string
  = [Ok 80; Ok 80; Ok 80; Ok 7; Ok (-5); Ok 65535]
  /\ map (fun s => Validators.int_of_str Validators.ascii_decimal (PyStr.lit s))
         [""; " "; "8__0"; "_8"; "8_"; "- 5"; "0x10"; "1 2"; "12a"; "+"]%string
     = repeat (Raise ValueError) 10.
Proof. vm_compute. split; reflexivity. Qed.

Example str_of_int_samples :
  map PyStr.str_of_int [0; 7; 80; 443; 65535; -12]
  = map PyStr.lit ["0"; "7"; "80"; "443"; "65535"; "-12"]%string
  /\ Validators.render_range 80 443 = PyStr.lit "80-443".
Proof. vm_compute. split; reflexivity. Qed.

(* ===================================================================== *)
(** * Further properties of the code *)
(* ===================================================================== *)

(** ** Requests as a whole *)

(** X1: every route of configs.py and templates.py asks for a valid access
    token.  Whatever the route, the ids in the path and the body, a
    request without one is answered 401 with no payload and the store is
    left as it was; the answer names the way the token failed:
    "Unauthorized" when there is none, "Invalid Token" when it does not
    verify, "Token Expired" when it is past its expiry. *)
Theorem X1_every_route_requires_token
        (bind_text : json -> option (option str)) (bind_bool : json -> option bool)
        (r : Routes.route) (req : Http.request) (st : Db.store) :
  Http.jwt_identity req = None ->
  let answer := Http.handle (Routes.dispatch bind_text bind_bool r) req st in
  Http.status_code (fst answer) = 401
  /\ Http.success (fst answer) = false
  /\ Http.data (fst answer) = None
  /\ snd answer = st
  /\ Http.error (fst answer)
     = Some (match Http.jwt_error req with
             | Http.NoAuthorization => PyStr.lit "Unauthorized"
             | Http.InvalidToken => PyStr.lit "Invalid Token"
             | Http.ExpiredToken => PyStr.lit "Token Expired"
             end)
  /\ Http.message (fst answer)
     = Some (match Http.jwt_error req with
             | Http.NoAuthorization =>
                 PyStr.lit "Missing or invalid authorization token"
             | Http.InvalidToken =>
                 PyStr.lit "The token is invalid. Please login again."
             | Http.ExpiredToken =>
                 PyStr.lit "The token has expired. Please login again."
             end).
Proof.
  intros H. cbv zeta.
  assert (E : Http.handle (Routes.dispatch bind_text bind_bool r) req st
              = (Http.jwt_error_response (Http.jwt_error req), st)).
  { destruct r; simpl Routes.dispatch;
      unfold Routes.create_configuration, Routes.get_configuration,
        Routes.update_configuration, Routes.delete_configuration,
        Routes.get_configuration_versions, Routes.get_configuration_version,
        Routes.list_templates, Routes.create_from_template;
      now apply RoutesFacts.handle_jwt_missing. }
  rewrite E. destruct (Http.jwt_error req); now repeat split.
Qed.

(** X1 at a concrete input: a DELETE on Alice's configuration with an
    expired token. *)
Lemma X1_witness :
  Http.status_code
    (fst (Http.handle (Routes.dispatch Routes.strict_text Routes.strict_bool
                         (Routes.DELETE_config 1))
                      (Http.mk_request None JNull 200 None (PyStr.lit "curl")
                                       Http.ExpiredToken)
                      Samples.st_alice)) = 401
  /\ Http.error
       (fst (Http.handle (Routes.dispatch Routes.strict_text Routes.strict_bool
                            (Routes.DELETE_config 1))
                         (Http.mk_request None JNull 200 None (PyStr.lit "curl")
                                          Http.ExpiredToken)
                         Samples.st_alice)) = Some (PyStr.lit "Token Expired")
  /\ snd (Http.handle (Routes.dispatch Routes.strict_text Routes.strict_bool
                         (Routes.DELETE_config 1))
                      (Http.mk_request None JNull 200 None (PyStr.lit "curl")
                                       Http.ExpiredToken)
                      Samples.st_alice) = Samples.st_alice.
Proof.
  destruct (@X1_every_route_requires_token Routes.strict_text Routes.strict_bool
              (Routes.DELETE_config 1)
              (Http.mk_request None JNull 200 None (PyStr.lit "curl")
                               Http.ExpiredToken)
              Samples.st_alice eq_refl)
    as (H401 & _ & _ & Hst & Herr & _).
  split; [exact H401|]. split; [exact Herr|exact Hst].
Defined.

(** X2: a request is all or nothing.  Whatever the route and the body, a
    request that is not answered with the route's success status (an
    error answer, or an exception turned into 500) leaves the three tables
    exactly as they were, and the routes that only read leave them so in
    every case. *)
Theorem X2_failed_request_changes_nothing
        (bind_text : json -> option (option str)) (bind_bool : json -> option bool)
        (r : Routes.route) (req : Http.request) (st : Db.store) :
  Http.status_code (fst (Http.handle (Routes.dispatch bind_text bind_bool r) req st))
  <> Audited.success_code r
  \/ Audited.action_of r = None ->
  snd (Http.handle (Routes.dispatch bind_text bind_bool r) req st) = st.
Proof.
  destruct r as [|i|i|i|i|i n| |i]; simpl Routes.dispatch;
    simpl Audited.success_code; simpl Audited.action_of; intros H.
  - destruct H as [H|H]; [|discriminate].
    destruct (RoutesFacts.create_configuration_cases bind_text bind_bool req st)
      as [[Hs _]|(? & ? & ? & ? & _ & _ & _ & _ & _ & Hok & _)];
      [exact Hs|contradiction].
  - apply RoutesFacts.get_configuration_store.
  - destruct H as [H|H]; [|discriminate].
    destruct (RoutesFacts.update_configuration_cases bind_text bind_bool (Z.of_N i) req st)
      as [[Hs _]|(? & ? & ? & ? & ? & _ & _ & _ & _ & _ & _ & _ & _ & Hok & _)];
      [exact Hs|contradiction].
  - destruct H as [H|H]; [|discriminate].
    destruct (RoutesFacts.delete_configuration_cases (Z.of_N i) req st)
      as [[Hs _]|(? & ? & _ & _ & _ & Hok & _)];
      [exact Hs|contradiction].
  - apply RoutesFacts.get_configuration_versions_store.
  - apply RoutesFacts.get_configuration_version_store.
  - apply RoutesFacts.list_templates_store.
  - destruct H as [H|H]; [|discriminate].
    destruct (RoutesFacts.create_from_template_cases (Z.of_N i) req st)
      as [[Hs _]|(? & ? & ? & ? & ? & _ & _ & _ & _ & _ & _ & _ & _ & _ & Hok & _)];
      [exact Hs|contradiction].
Qed.

(** X2 at a concrete input: Alice's update with an over-long tag (422). *)
Lemma X2_witness :
  snd (Samples.serve (Routes.PUT_config 1)
         (Samples.request_of Samples.alice Samples.patch_data_long_tag 200)
         Samples.st_alice)
  = Samples.st_alice.
Proof.
  apply (@X2_failed_request_changes_nothing Routes.strict_text Routes.strict_bool
           (Routes.PUT_config 1)
           (Samples.request_of Samples.alice Samples.patch_data_long_tag 200)
           Samples.st_alice).
  left. vm_compute. discriminate.
Defined.

(** X3: the audit table is append-only and written once per change.  A
    request answered with the success status of a changing route (create,
    update, delete, create from template) appends exactly one entry after
    the existing ones: it names the caller, the action of the route, the
    resource type ["configuration"], the id of the configuration concerned,
    the client address and agent of the request, and its clock. *)
Theorem X3_success_appends_one_audit_entry
        (bind_text : json -> option (option str)) (bind_bool : json -> option bool)
        (r : Routes.route) (req : Http.request) (st : Db.store) (action : str) :
  Audited.action_of r = Some action ->
  Http.status_code (fst (Http.handle (Routes.dispatch bind_text bind_bool r) req st))
  = Audited.success_code r ->
  exists caller entry,
    Http.jwt_identity req = Some caller
    /\ Db.audit_log (snd (Http.handle (Routes.dispatch bind_text bind_bool r) req st))
       = Db.audit_log st ++ [entry]
    /\ AuditLog.user_id entry = caller
    /\ AuditLog.action entry = action
    /\ AuditLog.resource_type entry = PyStr.lit "configuration"
    /\ AuditLog.resource_id entry = Some (Audited.resource_of r st)
    /\ AuditLog.ip_address entry = Http.remote_addr req
    /\ AuditLog.user_agent entry = Some (Http.user_agent req)
    /\ AuditLog.created_at entry = Http.now req
    /\ AuditLog.id entry = Db.next_id (map AuditLog.id (Db.audit_log st)).
Proof.
  destruct r as [|i|i|i|i|i n| |i]; simpl Routes.dispatch;
    simpl Audited.success_code; simpl Audited.action_of;
    simpl Audited.resource_of; intros Ha Hok; try discriminate;
    inversion Ha; subst action; clear Ha.
  - destruct (CommitFacts.create_configuration_commit bind_text bind_bool req st Hok)
      as (caller & config & name & Hj & Hid & _ & _ & _ & _ & -> & _).
    exists caller. eexists. split; [exact Hj|]. split; [reflexivity|].
    simpl. rewrite Hid. now repeat split.
  - destruct (RoutesFacts.update_configuration_cases bind_text bind_bool (Z.of_N i) req st)
      as [[_ Hno]|(caller & old & new & hd & vs & Hj & _ & _ & _ & _ & _ & _ & _ & _
                   & ->)];
      [contradiction|].
    exists caller. eexists. split; [exact Hj|]. split; [reflexivity|].
    now repeat split.
  - destruct (RoutesFacts.delete_configuration_cases (Z.of_N i) req st)
      as [[_ Hno]|(caller & old & Hj & _ & _ & _ & ->)];
      [contradiction|].
    exists caller. eexists. split; [exact Hj|]. split; [reflexivity|].
    now repeat split.
  - destruct (CommitFacts.create_from_template_commit (Z.of_N i) req st Hok)
      as (caller & template & Hj & _ & _ & ->).
    exists caller. eexists. split; [exact Hj|]. split; [reflexivity|].
    now repeat split.
Qed.

(** X3 at a concrete input: Alice's update of her configuration. *)
Lemma X3_witness :
  exists entry,
    Db.audit_log (snd (Samples.serve (Routes.PUT_config 1)
                         (Samples.request_of Samples.alice Samples.patch_data 200)
                         Samples.st_alice))
    = Db.audit_log Samples.st_alice ++ [entry]
    /\ AuditLog.user_id entry = Samples.alice
    /\ AuditLog.action entry = PyStr.lit "update".
Proof.
  destruct (@X3_success_appends_one_audit_entry
              Routes.strict_text Routes.strict_bool (Routes.PUT_config 1)
              (Samples.request_of Samples.alice Samples.patch_data 200)
              Samples.st_alice (PyStr.lit "update") eq_refl eq_refl)
    as (caller & entry & Hj & Hlog & Hu & Ha & _).
  exists entry. split; [exact Hlog|]. split; [|exact Ha].
  rewrite Hu. now inversion Hj.
Defined.

(** X4: a deletion by the owner, under an id the database can hold, is
    answered 200 and cascades.  In the store it leaves the configuration
    is gone and so is each of its versions, every other configuration and
    its versions are as before, and a get, version listing, version read
    or update on the id that is served on that store, by anyone, is
    answered 404. *)
Theorem X4_delete_cascades
        (bind_text : json -> option (option str)) (bind_bool : json -> option bool)
        (st : Db.store) (req : Http.request) (config_id : N)
        (old : Configuration.t) :
  Http.jwt_identity req = Some (Configuration.user_id old) ->
  Z.of_N config_id <= Db.max_integer ->
  Db.get st (Z.of_N config_id) = Some old ->
  let deleted :=
    Http.handle (Routes.dispatch bind_text bind_bool (Routes.DELETE_config config_id))
                req st in
  Http.status_code (fst deleted) = 200
  /\ Db.get (snd deleted) (Z.of_N config_id) = None
  /\ Db.versions_of (snd deleted) (Z.of_N config_id) = []
  /\ (forall other, other <> Z.of_N config_id ->
        Db.get (snd deleted) other = Db.get st other
        /\ Db.versions_of (snd deleted) other = Db.versions_of st other)
  /\ (forall next anyone n,
        Http.jwt_identity next = Some anyone ->
        truthy (Http.get_json next) = true ->
        let serve r :=
          Http.handle (Routes.dispatch bind_text bind_bool r) next (snd deleted) in
        Http.answers (serve (Routes.GET_config config_id)) 404 (snd deleted)
        /\ Http.answers (serve (Routes.GET_config_versions config_id))
                        404 (snd deleted)
        /\ Http.answers (serve (Routes.GET_config_version config_id n))
                        404 (snd deleted)
        /\ Http.answers (serve (Routes.PUT_config config_id)) 404 (snd deleted)).
Proof.
  intros Hjwt Hrange Hget deleted. subst deleted. cbn [Routes.dispatch].
  assert (Hbind : forall s, Db.session_get s (Z.of_N config_id)
                            = Ok (Db.get s (Z.of_N config_id))).
  { intros s. apply DbFacts.session_get_in_range.
    split; [unfold Db.min_integer; lia|exact Hrange]. }
  destruct (RoutesFacts.delete_configuration_cases (Z.of_N config_id) req st)
    as [[_ Hno]|(caller & old' & _ & _ & _ & Hok & Hst)].
  { exfalso. apply Hno.
    unfold Http.handle, Routes.delete_configuration, Http.jwt_required.
    rewrite Hjwt, Hbind, Hget. simpl. rewrite Z.eqb_refl. reflexivity. }
  split; [exact Hok|]. rewrite Hst.
  assert (Hgone : forall a b c d e,
             Db.get (Http.log req (Db.delete st (Z.of_N config_id)) a b c d e)
                    (Z.of_N config_id) = None).
  { intros. rewrite LookupFacts.get_log. apply LookupFacts.get_delete_same. }
  split; [apply Hgone|].
  split; [rewrite LookupFacts.versions_of_log;
          apply LookupFacts.versions_of_delete_same|].
  split.
  - intros other Hne. rewrite LookupFacts.get_log, LookupFacts.versions_of_log.
    split; [now apply LookupFacts.get_delete_other
           |now apply LookupFacts.versions_of_delete_other].
  - intros next anyone n Hnext Hbody. cbv zeta. cbn [Routes.dispatch].
    unfold Http.answers, Http.handle, Routes.get_configuration,
      Routes.get_configuration_versions, Routes.get_configuration_version,
      Routes.update_configuration, Http.jwt_required.
    rewrite Hnext, Hbody, Hbind, Hgone. simpl. now repeat split.
Qed.

(** X4 at a concrete input: Alice deletes her configuration. *)
Lemma X4_witness :
  Db.get (snd (Http.handle (Routes.dispatch Routes.strict_text Routes.strict_bool
                              (Routes.DELETE_config 1))
                           (Samples.request_of Samples.alice JNull 300)
                           Samples.st_alice)) 1 = None
  /\ Db.versions_of
       (snd (Http.handle (Routes.dispatch Routes.strict_text Routes.strict_bool
                            (Routes.DELETE_config 1))
                         (Samples.request_of Samples.alice JNull 300)
                         Samples.st_alice)) 1 = [].
Proof.
  destruct (@X4_delete_cascades
              Routes.strict_text Routes.strict_bool Samples.st_alice
              (Samples.request_of Samples.alice JNull 300) 1
              (Configuration.mk 1 Samples.alice (PyStr.lit "ipsec") (PyStr.lit "T1")
                 (Some []) (JObj [(PyStr.lit "k", JStr (PyStr.lit "v"))])
                 None false 100 100)
              eq_refl) as (_ & H1 & H2 & _).
  - unfold Db.max_integer. lia.
  - reflexivity.
  - split; [exact H1|exact H2].
Defined.

(** ** The stores the application reaches *)

(** X5: in every store the application reaches by serving requests, those
    of registration, login and logout included, the tables of the
    configurations satisfy their constraints: primary keys are unique, so
    that a lookup by id returns the very row; every version belongs to a
    configuration that exists; and no configuration is without a version:
    its version count, as [to_dict] reports it, is at least 1 and equals
    the number of its latest version. *)
Theorem X5_reachable_integrity
        (lib : Auth.library)
        (bind_text : json -> option (option str)) (bind_bool : json -> option bool)
        (st : Auth.store) :
  Auth.reachable lib bind_text bind_bool st ->
  Db.consistent (Auth.db st)
  /\ NoDup (map Configuration.id (Db.configurations (Auth.db st)))
  /\ (forall c, In c (Db.configurations (Auth.db st)) ->
        Db.get (Auth.db st) (Configuration.id c) = Some c)
  /\ (forall v, In v (Db.configuration_versions (Auth.db st)) ->
        exists c, Db.get (Auth.db st) (ConfigurationVersion.config_id v) = Some c)
  /\ (forall c, In c (Db.configurations (Auth.db st)) ->
        1 <= Db.version_count (Auth.db st) (Configuration.id c)
        /\ ConfigurationVersion.max_version
             (Db.versions_of (Auth.db st) (Configuration.id c))
           = Some (Db.version_count (Auth.db st) (Configuration.id c))
        /\ ConfigurationVersion.get_next_version_number
             (Db.configuration_versions (Auth.db st)) (Configuration.id c)
           = Db.version_count (Auth.db st) (Configuration.id c) + 1).
Proof.
  intros Hreach.
  pose proof (AuthFacts.reachable_consistent Hreach) as Hst.
  split; [exact Hst|].
  destruct Hst as (Hpk & _ & Hfk & Hnum).
  clear Hreach. generalize dependent (Auth.db st). clear st.
  intros st Hpk Hfk Hnum.
  split; [exact Hpk|]. split; [|split].
  - intros c Hc. now apply LookupFacts.get_of_In.
  - intros v Hv. specialize (Hfk v Hv).
    apply in_map_iff in Hfk as [c [Hid Hc]].
    exists c. rewrite <- Hid. now apply LookupFacts.get_of_In.
  - intros c Hc.
    destruct (Hnum (Configuration.id c) (in_map _ _ _ Hc)) as [n [Hn Hseq]].
    assert (Hcount : Db.version_count st (Configuration.id c) = Z.of_nat n).
    { unfold Db.version_count.
      rewrite <- (length_map ConfigurationVersion.version), Hseq.
      now rewrite length_map, length_seq. }
    rewrite Hcount. split; [lia|].
    pose proof (DbFacts.max_version_seq _ Hn Hseq) as Hmax.
    split; [exact Hmax|].
    rewrite DbFacts.get_next_version_number_spec.
    unfold Db.versions_of in Hmax. now rewrite Hmax.
Qed.

(** X5 at a concrete input: the store after Carol's registration, her
    creation of T1 and her update of it. *)
Lemma X5_witness :
  NoDup (map Configuration.id
             (Db.configurations (Auth.db AuthSamples.st_carol_t1_updated)))
  /\ forall v,
       In v (Db.configuration_versions (Auth.db AuthSamples.st_carol_t1_updated)) ->
       exists c, Db.get (Auth.db AuthSamples.st_carol_t1_updated)
                        (ConfigurationVersion.config_id v) = Some c.
Proof.
  destruct (@X5_reachable_integrity
              Auth.sample_library Routes.strict_text Routes.strict_bool
              AuthSamples.st_carol_t1_updated
              AuthSamplesFacts.st_carol_t1_updated_reachable)
    as (_ & H1 & _ & H3 & _).
  split; [exact H1|exact H3].
Defined.

(** X6: in a store that satisfies the constraints of the tables, as every
    store the application reaches does, the owner's version listing of a
    configuration under an id the database can hold is answered 200 with
    one summary per version of the configuration, the data left out,
    numbered n, n-1, ..., 1 from the latest down, n being the version
    count; the store is unchanged. *)
Theorem X6_versions_listed_latest_first
        (bind_text : json -> option (option str)) (bind_bool : json -> option bool)
        (st : Db.store) (req : Http.request) (config_id : N)
        (config : Configuration.t) :
  Db.consistent st ->
  Http.jwt_identity req = Some (Configuration.user_id config) ->
  Z.of_N config_id <= Db.max_integer ->
  Db.get st (Z.of_N config_id) = Some config ->
  let answer :=
    Http.handle (Routes.dispatch bind_text bind_bool
                   (Routes.GET_config_versions config_id)) req st in
  exists l,
    Http.status_code (fst answer) = 200
    /\ Http.success (fst answer) = true
    /\ Http.data (fst answer) = Some (Http.VersionsData l)
    /\ snd answer = st
    /\ map ConfigurationVersion.d_version l
       = map Z.of_nat (rev (seq 1 (List.length l)))
    /\ Z.of_nat (List.length l) = Db.version_count st (Z.of_N config_id)
    /\ Forall (fun d => ConfigurationVersion.d_data d = None
                        /\ ConfigurationVersion.d_config_id d = Z.of_N config_id) l.
Proof.
  intros Hst Hjwt Hrange Hget answer. subst answer. cbn [Routes.dispatch].
  destruct Hst as (_ & _ & _ & Hnum).
  destruct (DbFacts.get_Some _ _ Hget) as [Hin Hid].
  destruct (Hnum (Z.of_N config_id)) as [n [Hn Hseq]];
    [rewrite <- Hid; now apply in_map|].
  unfold Http.handle, Routes.get_configuration_versions, Http.jwt_required.
  rewrite Hjwt.
  rewrite DbFacts.session_get_in_range
    by (split; [unfold Db.min_integer; lia|exact Hrange]).
  rewrite Hget. simpl Py.bind. cbv iota. rewrite Z.eqb_refl. simpl negb. cbv iota.
  eexists. split; [reflexivity|]. split; [reflexivity|]. split; [reflexivity|].
  split; [reflexivity|].
  rewrite (@LookupFacts.order_by_desc_numbered _ _ _ _ _ Hseq).
  assert (Hlen : List.length (Db.versions_of st (Z.of_N config_id)) = n).
  { rewrite <- (length_map ConfigurationVersion.version), Hseq.
    now rewrite length_map, length_seq. }
  split; [|split].
  - rewrite length_map, length_rev, Hlen.
    rewrite map_map.
    rewrite (map_ext _ ConfigurationVersion.version) by reflexivity.
    rewrite !map_rev. now rewrite Hseq.
  - unfold Db.version_count. now rewrite length_map, length_rev.
  - apply Forall_forall. intros d Hd.
    apply in_map_iff in Hd as [v [<- Hv]]. simpl. split; [reflexivity|].
    apply in_rev in Hv. apply filter_In in Hv as [_ Hv]. now apply Z.eqb_eq.
Qed.

(** X6 at a concrete input: Alice lists the version of her configuration. *)
Lemma X6_witness :
  exists l,
    Http.data
      (fst (Http.handle (Routes.dispatch Routes.strict_text Routes.strict_bool
                           (Routes.GET_config_versions 1))
                        (Samples.request_of Samples.alice JNull 300)
                        Samples.st_alice))
    = Some (Http.VersionsData l)
    /\ map ConfigurationVersion.d_version l
       = map Z.of_nat (rev (seq 1 (List.length l))).
Proof.
  destruct (@X6_versions_listed_latest_first
              Routes.strict_text Routes.strict_bool Samples.st_alice
              (Samples.request_of Samples.alice JNull 300) 1
              (Configuration.mk 1 Samples.alice (PyStr.lit "ipsec") (PyStr.lit "T1")
                 (Some []) (JObj [(PyStr.lit "k", JStr (PyStr.lit "v"))])
                 None false 100 100)
              SamplesFacts.st_alice_consistent eq_refl)
    as (l & _ & _ & H1 & _ & H2 & _).
  - unfold Db.max_integer. lia.
  - reflexivity.
  - exists l. split; [exact H1|exact H2].
Defined.

(** X7: in a store that satisfies the constraints of the tables, the
    owner's request for version k of a configuration with n versions,
    k being the number in the path (it has no sign), is answered 200,
    with version k of that configuration and its data, when
    1 <= k <= n; 404 ("Version not found") when k is 0 or exceeds n and
    is below 2^63; and 500 when k is 2^63 or more, a number the database
    cannot bind.  The store is unchanged in every case. *)
Theorem X7_version_found_iff_in_range
        (bind_text : json -> option (option str)) (bind_bool : json -> option bool)
        (st : Db.store) (req : Http.request) (config_id k : N)
        (config : Configuration.t) :
  Db.consistent st ->
  Http.jwt_identity req = Some (Configuration.user_id config) ->
  Z.of_N config_id <= Db.max_integer ->
  Db.get st (Z.of_N config_id) = Some config ->
  let answer :=
    Http.handle (Routes.dispatch bind_text bind_bool
                   (Routes.GET_config_version config_id k)) req st in
  (1 <= Z.of_N k <= Db.version_count st (Z.of_N config_id) ->
   Z.of_N k <= Db.max_integer ->
   exists v,
     In v (Db.configuration_versions st)
     /\ ConfigurationVersion.config_id v = Z.of_N config_id
     /\ ConfigurationVersion.version v = Z.of_N k
     /\ Http.status_code (fst answer) = 200
     /\ Http.data (fst answer)
        = Some (Http.VersionData (ConfigurationVersion.to_dict v true))
     /\ ConfigurationVersion.d_data (ConfigurationVersion.to_dict v true)
        = Some (ConfigurationVersion.data_json v)
     /\ snd answer = st)
  /\ (k = 0%N
      \/ Db.version_count st (Z.of_N config_id) < Z.of_N k <= Db.max_integer ->
      answer = (Http.not_found_response (PyStr.lit "Version"), st)
      /\ Http.status_code (fst answer) = 404
      /\ Http.error (fst answer) = Some (PyStr.lit "Version not found"))
  /\ (Db.max_integer < Z.of_N k ->
      answer = (Http.handle_unexpected_error, st)
      /\ Http.status_code (fst answer) = 500).
Proof.
  intros Hst Hjwt Hrange Hget answer. subst answer. cbn [Routes.dispatch].
  destruct Hst as (_ & _ & _ & Hnum).
  destruct (DbFacts.get_Some _ _ Hget) as [Hin Hid].
  destruct (Hnum (Z.of_N config_id)) as [n [Hn Hseq]];
    [rewrite <- Hid; now apply in_map|].
  assert (Hcount : Db.version_count st (Z.of_N config_id) = Z.of_nat n).
  { unfold Db.version_count.
    rewrite <- (length_map ConfigurationVersion.version), Hseq.
    now rewrite length_map, length_seq. }
  rewrite Hcount.
  unfold Http.handle, Routes.get_configuration_version, Http.jwt_required.
  rewrite Hjwt.
  rewrite DbFacts.session_get_in_range
    by (split; [unfold Db.min_integer; lia|exact Hrange]).
  rewrite Hget. cbn [Py.bind]. rewrite Z.eqb_refl. cbn [negb].
  set (p := fun v => (ConfigurationVersion.config_id v =? Z.of_N config_id)
                     && (ConfigurationVersion.version v =? Z.of_N k)).
  split; [|split].
  - intros Hk Hkmax.
    rewrite DbFacts.bind_integer_in_range
      by (split; [unfold Db.min_integer; lia|exact Hkmax]).
    cbn [Py.bind]. fold p.
    assert (Hex : In (Z.of_N k)
                     (map ConfigurationVersion.version
                          (Db.versions_of st (Z.of_N config_id)))).
    { rewrite Hseq. apply in_map_iff. exists (N.to_nat k).
      split; [lia|apply in_seq; lia]. }
    apply in_map_iff in Hex as [w [Hw Hwin]].
    apply filter_In in Hwin as [Hwin Hwc].
    destruct (find p (Db.configuration_versions st)) as [v|] eqn:E.
    + apply find_some in E as [Hv Hp]. unfold p in Hp.
      apply andb_true_iff in Hp as [Hc Hver].
      apply Z.eqb_eq in Hc, Hver.
      exists v. split; [exact Hv|]. split; [exact Hc|]. split; [exact Hver|].
      split; [reflexivity|]. split; [reflexivity|]. split; reflexivity.
    + exfalso. pose proof (find_none _ _ E w Hwin) as Hp. unfold p in Hp.
      rewrite Hwc, Hw, Z.eqb_refl in Hp. discriminate.
  - intros Hk.
    rewrite DbFacts.bind_integer_in_range
      by (split; [unfold Db.min_integer; lia|unfold Db.max_integer in *; lia]).
    cbn [Py.bind]. fold p.
    destruct (find p (Db.configuration_versions st)) as [v|] eqn:E;
      [|now repeat split].
    exfalso. apply find_some in E as [Hv Hp]. unfold p in Hp.
    apply andb_true_iff in Hp as [Hc Hver]. apply Z.eqb_eq in Hver.
    assert (Hex : In (Z.of_N k)
                     (map ConfigurationVersion.version
                          (Db.versions_of st (Z.of_N config_id)))).
    { rewrite <- Hver. apply in_map. apply filter_In. now split. }
    rewrite Hseq in Hex. apply in_map_iff in Hex as [j [Hj Hjin]].
    apply in_seq in Hjin. lia.
  - intros Hk. rewrite (DbFacts.bind_integer_overflow Hk). now split.
Qed.

(** X7 at a concrete input: Alice asks for version 3 of a configuration
    that has one. *)
Lemma X7_witness :
  Http.handle (Routes.dispatch Routes.strict_text Routes.strict_bool
                 (Routes.GET_config_version 1 3))
              (Samples.request_of Samples.alice JNull 300) Samples.st_alice
  = (Http.not_found_response (PyStr.lit "Version"), Samples.st_alice).
Proof.
  refine (proj1 (proj1 (proj2 (@X7_version_found_iff_in_range
                   Routes.strict_text Routes.strict_bool Samples.st_alice
                   (Samples.request_of Samples.alice JNull 300) 1 3
                   (Configuration.mk 1 Samples.alice (PyStr.lit "ipsec")
                      (PyStr.lit "T1") (Some [])
                      (JObj [(PyStr.lit "k", JStr (PyStr.lit "v"))])
                      None false 100 100)
                   SamplesFacts.st_alice_consistent eq_refl _ eq_refl)) _)).
  - unfold Db.max_integer. lia.
  - right. vm_compute. split; [reflexivity|discriminate].
Defined.

(** ** Templates *)

(** X8: creating from a template.  In a store that satisfies the
    constraints of the tables, an authenticated caller, owner of the
    template or not, gets 500 for an id of 2^63 or more, which the
    database cannot bind, and for an id below: 404 when no configuration
    has it, 400 for a configuration that is not a template, and 201 for a
    template.  A new configuration is then stored under a fresh id, owned
    by the caller, not a template, with the template's type, data and
    tags, the name "<template name> - New" and one version; the template
    and its versions are untouched. *)
Theorem X8_create_from_template
        (bind_text : json -> option (option str)) (bind_bool : json -> option bool)
        (st : Db.store) (req : Http.request) (template_id : N) (caller : Z) :
  Db.consistent st ->
  Http.jwt_identity req = Some caller ->
  let answer :=
    Http.handle (Routes.dispatch bind_text bind_bool
                   (Routes.POST_template_create template_id)) req st in
  (Db.max_integer < Z.of_N template_id ->
   answer = (Http.handle_unexpected_error, st)
   /\ Http.status_code (fst answer) = 500)
  /\ (Z.of_N template_id <= Db.max_integer ->
      Db.get st (Z.of_N template_id) = None ->
      answer = (Http.not_found_response (PyStr.lit "Template"), st)
      /\ Http.status_code (fst answer) = 404
      /\ Http.error (fst answer) = Some (PyStr.lit "Template not found"))
  /\ (forall t,
        Z.of_N template_id <= Db.max_integer ->
        Db.get st (Z.of_N template_id) = Some t ->
        Configuration.is_template t = false ->
        answer
        = (Http.error_response (PyStr.lit "This configuration is not a template")
                               [] 400,
           st)
        /\ Http.status_code (fst answer) = 400)
  /\ (forall t,
        Z.of_N template_id <= Db.max_integer ->
        Db.get st (Z.of_N template_id) = Some t ->
        Configuration.is_template t = true ->
        exists new,
          Http.status_code (fst answer) = 201
          /\ Db.get st (Configuration.id new) = None
          /\ Db.get (snd answer) (Configuration.id new) = Some new
          /\ Configuration.user_id new = caller
          /\ Configuration.is_template new = false
          /\ Configuration.config_type new = Configuration.config_type t
          /\ Configuration.data_json new = Configuration.data_json t
          /\ Configuration.get_tags_list new = Configuration.get_tags_list t
          /\ Configuration.name new = Configuration.name t ++ PyStr.lit " - New"
          /\ Db.version_count (snd answer) (Configuration.id new) = 1
          /\ Db.get (snd answer) (Z.of_N template_id) = Some t
          /\ Db.versions_of (snd answer) (Z.of_N template_id)
             = Db.versions_of st (Z.of_N template_id)).
Proof.
  intros Hst Hjwt answer. subst answer. cbn [Routes.dispatch].
  unfold Http.handle, Routes.create_from_template, Http.jwt_required.
  rewrite Hjwt.
  assert (Hbind : Z.of_N template_id <= Db.max_integer ->
                  Db.session_get st (Z.of_N template_id)
                  = Ok (Db.get st (Z.of_N template_id))).
  { intros H. apply DbFacts.session_get_in_range.
    split; [unfold Db.min_integer; lia|exact H]. }
  split; [|split; [|split]].
  - intros Hover. rewrite (DbFacts.session_get_overflow st Hover). now split.
  - intros Hrange Hget. rewrite (Hbind Hrange), Hget. now repeat split.
  - intros t Hrange Hget Ht. rewrite (Hbind Hrange), Hget. cbn [Py.bind].
    rewrite Ht. now split.
  - intros t Hrange Hget Ht. rewrite (Hbind Hrange), Hget. cbn [Py.bind].
    rewrite Ht. cbn [negb].
    destruct (InsertFacts.next_id_unused Hst) as [Hc Hr].
    rewrite InsertFacts.add_version_fresh by (intros r Hin; simpl; now apply Hr).
    cbn [Py.bind].
    match goal with
    | |- context [Db.configurations st ++ [?c]] => exists c
    end.
    cbn [fst snd]. rewrite !LookupFacts.get_log.
    unfold Db.version_count. rewrite !LookupFacts.versions_of_log.
    split; [reflexivity|]. split.
    { simpl. unfold Db.get.
      destruct (find _ (Db.configurations st)) as [x|] eqn:E; [|reflexivity].
      apply find_some in E as [Hx Hid]. apply Z.eqb_eq in Hid.
      now elim (Hc x Hx). }
    split; [now apply InsertFacts.get_inserted|].
    split; [reflexivity|]. split; [reflexivity|]. split; [reflexivity|].
    split; [reflexivity|]. split.
    { unfold Configuration.get_tags_list. simpl.
      now destruct (Configuration.tags t) as [[|? ?]|]. }
    split; [reflexivity|]. split.
    { now rewrite InsertFacts.versions_of_inserted. }
    split; [now apply InsertFacts.get_kept|].
    apply InsertFacts.versions_of_kept. simpl. intros E.
    apply DbFacts.get_Some in Hget as [Hin Hid]. apply (Hc t Hin). congruence.
Qed.

(** X8 at a concrete input: Bob instantiates Alice's template. *)
Lemma X8_witness :
  exists new,
    Db.get (snd (Http.handle (Routes.dispatch Routes.strict_text Routes.strict_bool
                                (Routes.POST_template_create 1))
                             (Samples.request_of Samples.bob JNull 200)
                             Samples.st_template))
           (Configuration.id new) = Some new
    /\ Configuration.user_id new = Samples.bob
    /\ Configuration.is_template new = false.
Proof.
  destruct (proj2 (proj2 (proj2 (@X8_create_from_template
                            Routes.strict_text Routes.strict_bool
                            Samples.st_template
                            (Samples.request_of Samples.bob JNull 200)
                            1 Samples.bob
                            SamplesFacts.st_template_consistent
                            eq_refl)))
              (Configuration.mk 1 Samples.alice (PyStr.lit "ipsec") (PyStr.lit "T1")
                 (Some []) (JObj [(PyStr.lit "k", JStr (PyStr.lit "v"))])
                 None true 100 100))
    as (new & _ & _ & H1 & H2 & H3 & _).
  - unfold Db.max_integer. lia.
  - reflexivity.
  - reflexivity.
  - exists new. split; [exact H1|]. split; [exact H2|exact H3].
Defined.

(** ** Creating a configuration *)

(** X9: the required-field checks of a creation.  For an authenticated
    caller and a JSON object as body, the view answers 400 and changes
    nothing when the body is empty ("No data provided"), else when 'name'
    is absent or falsy ("Configuration name is required"), else when
    'config_type' is ("Configuration type is required"), else when 'data'
    is ("Configuration data is required"): the first failing check
    decides, and an empty 'data' object counts as missing.  A body that
    is a non-empty JSON array has no method [get]; the request is
    answered 500 and changes nothing. *)
Theorem X9_create_required_fields
        (bind_text : json -> option (option str)) (bind_bool : json -> option bool)
        (st : Db.store) (req : Http.request) (caller : Z)
        (m : list (str * json)) :
  Http.jwt_identity req = Some caller ->
  let field k := match assoc k m with Some v => v | None => JNull end in
  let create body :=
    Http.handle (Routes.create_configuration bind_text bind_bool)
                (Http.mk_request (Http.jwt_identity req) body (Http.now req)
                                 (Http.remote_addr req) (Http.user_agent req)
                                 (Http.jwt_error req))
                st in
  create (JObj []) = (Http.error_response (PyStr.lit "No data provided") [] 400, st)
  /\ (m <> [] -> truthy (field (PyStr.lit "name")) = false ->
      create (JObj m)
      = (Http.error_response (PyStr.lit "Configuration name is required") [] 400,
         st))
  /\ (truthy (field (PyStr.lit "name")) = true -> truthy (field (PyStr.lit "config_type")) = false ->
      create (JObj m)
      = (Http.error_response (PyStr.lit "Configuration type is required") [] 400,
         st))
  /\ (truthy (field (PyStr.lit "name")) = true -> truthy (field (PyStr.lit "config_type")) = true ->
      truthy (field (PyStr.lit "data")) = false ->
      create (JObj m)
      = (Http.error_response (PyStr.lit "Configuration data is required") [] 400,
         st))
  /\ (forall l, l <> [] -> create (JArr l) = (Http.handle_unexpected_error, st)).
Proof.
  intros Hjwt field create. subst field create.
  unfold Http.handle, Routes.create_configuration, Http.jwt_required.
  cbn [Http.jwt_identity Http.get_json]. rewrite Hjwt.
  split; [reflexivity|].
  assert (Hm : forall k, truthy match assoc k m with
                                | Some v => v
                                | None => JNull
                                end = true -> truthy (JObj m) = true).
  { intros k. destruct m; [discriminate|reflexivity]. }
  split; [|split; [|split]].
  - intros Hne Hn. destruct m as [|p r]; [now elim Hne|].
    cbn [truthy negb py_get Py.bind]. now rewrite Hn.
  - intros Hn Ht. rewrite (Hm _ Hn).
    cbn [negb py_get Py.bind]. now rewrite Hn, Ht.
  - intros Hn Ht Hd. rewrite (Hm _ Hn).
    cbn [negb py_get Py.bind]. now rewrite Hn, Ht, Hd.
  - intros [|x l] Hl; [now elim Hl|reflexivity].
Qed.

(** X9 at a concrete input: a body whose 'data' is the empty object. *)
Lemma X9_witness :
  Http.handle (Routes.create_configuration Routes.strict_text Routes.strict_bool)
              (Samples.request_of Samples.alice
                 (JObj [(PyStr.lit "name", JStr (PyStr.lit "n"));
                        (PyStr.lit "config_type", JStr (PyStr.lit "ipsec"));
                        (PyStr.lit "data", JObj [])]) 100)
              Db.empty
  = (Http.error_response (PyStr.lit "Configuration data is required") [] 400,
     Db.empty).
Proof.
  exact (proj1 (proj2 (proj2 (proj2
           (@X9_create_required_fields
              Routes.strict_text Routes.strict_bool Db.empty
              (Samples.request_of Samples.alice JNull 100) Samples.alice
              [(PyStr.lit "name", JStr (PyStr.lit "n"));
               (PyStr.lit "config_type", JStr (PyStr.lit "ipsec"));
               (PyStr.lit "data", JObj [])]
              eq_refl))))
         eq_refl eq_refl eq_refl).
Defined.

Module CreateFacts.

Import Http Routes.

Lemma validate_config_type_In (s : str) :
  In s Validators.valid_types -> Validators.validate_config_type s = Validators.valid.
Proof.
  intros H. unfold Validators.validate_config_type.
  replace (existsb (PyStr.eqb s) Validators.valid_types) with true; [reflexivity|].
  symmetry. apply existsb_exists. exists s. split; [exact H|].
  apply PyStrFacts.eqb_refl.
Qed.

Lemma validate_config_type_not_In (s : str) :
  ~ In s Validators.valid_types ->
  Validators.validate_config_type s
  = Validators.invalid Validators.InvalidConfigType.
Proof.
  intros H. unfold Validators.validate_config_type.
  destruct (existsb (PyStr.eqb s) Validators.valid_types) eqn:E; [|reflexivity].
  apply existsb_exists in E as [x [Hx Hs]]. apply PyStrFacts.eqb_eq in Hs.
  subst x. now elim H.
Qed.

Section Driver.

Variable bind_text : json -> option (option str).
Variable bind_bool : json -> option bool.

(** The view past its required-field checks, on a body with a string
    name, a string type and truthy data. *)
Lemma create_configuration_validated req st caller m n ct d descr tags it :
  jwt_identity req = Some caller ->
  get_json req = JObj m ->
  assoc (lit "name") m = Some (JStr n) -> n <> [] ->
  assoc (lit "config_type") m = Some (JStr ct) -> ct <> [] ->
  assoc (lit "data") m = Some d -> truthy d = true ->
  py_get (JObj m) (lit "description") (JStr []) = Ok (JStr descr) ->
  py_get (JObj m) (lit "tags") (JArr []) = Ok tags ->
  py_get (JObj m) (lit "is_template") (JBool false) = Ok it ->
  create_configuration bind_text bind_bool req st
  = (let '(config_type_valid, config_type_error) :=
       Validators.validate_config_type (PyStr.strip ct) in
     '(tags_valid, tags_error) <- Validators.validate_tags tags ;;
     let errors :=
       (if config_type_valid then [] else [(lit "config_type", config_type_error)])
       ++ (if tags_valid then [] else [(lit "tags", tags_error)]) in
     match errors with
     | _ :: _ => Ok (validation_error_response errors, st)
     | [] =>
         let new_id := Db.next_id (map Configuration.id (Db.configurations st)) in
         let config :=
           Configuration.mk new_id caller (PyStr.strip ct) (PyStr.strip n)
             (Some (PyStr.strip descr)) d None false (now req) (now req) in
         config <- (if truthy tags then assign_tags bind_text config tags
                    else Ok config) ;;
         is_template <- boolean_column bind_bool it ;;
         let config := Configuration.with_is_template config is_template in
         let version :=
           ConfigurationVersion.mk
             (Db.next_id (map ConfigurationVersion.id (Db.configuration_versions st)))
             new_id 1 d (Some (lit "Initial version")) (now req) caller in
         versions <- Db.add_version (Db.configuration_versions st) version ;;
         let st1 := Db.mk (Db.configurations st ++ [config]) versions
                          (Db.audit_log st) in
         let st2 := log req st1 caller (lit "create") (lit "configuration")
                        (Some new_id)
                        (JObj [(lit "name", JStr (PyStr.strip n));
                               (lit "config_type", JStr (PyStr.strip ct))]) in
         Ok (success_response
               (Some (ConfigData
                        (Configuration.to_dict config
                           (Db.version_count st2 new_id) true)))
               (Some (lit "Configuration created successfully")) 201,
             st2)
     end)%py.
Proof.
  intros Hjwt Hbody Hn Hn0 Ht Ht0 Hd Hd0 Hdescr Htags Hit.
  unfold create_configuration, jwt_required. rewrite Hjwt, Hbody.
  rewrite Hdescr, Htags, Hit.
  assert (Hm : truthy (JObj m) = true) by (destruct m; [discriminate|reflexivity]).
  rewrite Hm. unfold py_get. rewrite Hn, Ht, Hd.
  cbn [negb Py.bind py_strip]. rewrite Hd0.
  assert (truthy (JStr n) = true) as -> by (destruct n; [now elim Hn0|reflexivity]).
  assert (truthy (JStr ct) = true) as -> by (destruct ct; [now elim Ht0|reflexivity]).
  reflexivity.
Qed.

End Driver.

End CreateFacts.

(** X10: validation errors of a creation are reported together.  For a
    body that passes the required-field checks (string name and type,
    truthy data), the type is looked up after trimming; if it is not one
    of the known types or the tags fail [validate_tags], the answer is
    422 "Validation failed" with one entry per failing field, 'config_type'
    before 'tags' and both present when both fail, and the store is
    unchanged. *)
Theorem X10_create_validation_errors_batched
        (bind_text : json -> option (option str)) (bind_bool : json -> option bool)
        (st : Db.store) (req : Http.request) (caller : Z)
        (m : list (str * json)) (n ct descr : str) (d tags it : json)
        (tags_valid : bool) (tags_error : option Validators.message) :
  Http.jwt_identity req = Some caller ->
  Http.get_json req = JObj m ->
  assoc (PyStr.lit "name") m = Some (JStr n) -> n <> [] ->
  assoc (PyStr.lit "config_type") m = Some (JStr ct) -> ct <> [] ->
  assoc (PyStr.lit "data") m = Some d -> truthy d = true ->
  py_get (JObj m) (PyStr.lit "description") (JStr []) = Ok (JStr descr) ->
  py_get (JObj m) (PyStr.lit "tags") (JArr []) = Ok tags ->
  py_get (JObj m) (PyStr.lit "is_template") (JBool false) = Ok it ->
  Validators.validate_tags tags = Ok (tags_valid, tags_error) ->
  ~ In (PyStr.strip ct) Validators.valid_types \/ tags_valid = false ->
  Http.handle (Routes.create_configuration bind_text bind_bool) req st
  = (Http.validation_error_response
       ((if existsb (PyStr.eqb (PyStr.strip ct)) Validators.valid_types
         then []
         else [(PyStr.lit "config_type", Some Validators.InvalidConfigType)])
        ++ (if tags_valid then [] else [(PyStr.lit "tags", tags_error)])),
     st).
Proof.
  intros Hjwt Hbody Hn Hn0 Ht Ht0 Hd Hd0 Hdescr Htags Hit Hv Hbad.
  unfold Http.handle.
  rewrite (@CreateFacts.create_configuration_validated
             bind_text bind_bool req st _ _ _ _ _ _ _ _ Hjwt Hbody Hn Hn0 Ht Ht0 Hd Hd0 Hdescr Htags Hit).
  rewrite Hv. cbn [Py.bind].
  unfold Validators.validate_config_type.
  destruct (existsb (PyStr.eqb (PyStr.strip ct)) Validators.valid_types) eqn:E.
  - destruct Hbad as [Hbad| ->]; [|reflexivity].
    elim Hbad. apply existsb_exists in E as [x [Hx Hs]].
    apply PyStrFacts.eqb_eq in Hs. now subst x.
  - destruct tags_valid; reflexivity.
Qed.

(** X10 at a concrete input: an unknown type and a tag of 51 characters. *)
Lemma X10_witness :
  Http.handle (Routes.create_configuration Routes.strict_text Routes.strict_bool)
              (Samples.request_of Samples.alice
                 (JObj [(PyStr.lit "name", JStr (PyStr.lit "n"));
                        (PyStr.lit "config_type", JStr (PyStr.lit "nat"));
                        (PyStr.lit "data", JObj [(PyStr.lit "k", JNum 1)]);
                        (PyStr.lit "tags", JArr [JStr Samples.long_tag])]) 100)
              Db.empty
  = (Http.validation_error_response
       [(PyStr.lit "config_type", Some Validators.InvalidConfigType);
        (PyStr.lit "tags",
         Some (Validators.TagTooLong (JStr Samples.long_tag)))],
     Db.empty).
Proof.
  apply (@X10_create_validation_errors_batched
           Routes.strict_text Routes.strict_bool Db.empty
           (Samples.request_of Samples.alice
              (JObj [(PyStr.lit "name", JStr (PyStr.lit "n"));
                     (PyStr.lit "config_type", JStr (PyStr.lit "nat"));
                     (PyStr.lit "data", JObj [(PyStr.lit "k", JNum 1)]);
                     (PyStr.lit "tags", JArr [JStr Samples.long_tag])]) 100)
           Samples.alice
           [(PyStr.lit "name", JStr (PyStr.lit "n"));
            (PyStr.lit "config_type", JStr (PyStr.lit "nat"));
            (PyStr.lit "data", JObj [(PyStr.lit "k", JNum 1)]);
            (PyStr.lit "tags", JArr [JStr Samples.long_tag])]
           (PyStr.lit "n") (PyStr.lit "nat") (PyStr.lit "")
           (JObj [(PyStr.lit "k", JNum 1)]) (JArr [JStr Samples.long_tag])
           (JBool false) false
           (Some (Validators.TagTooLong (JStr Samples.long_tag)))).
  all: try reflexivity.
  - discriminate.
  - discriminate.
  - right. reflexivity.
Defined.



(** ** Updating a configuration *)

Module FrameFacts.

Lemma get_update_row_other now old new st vs a other :
  Configuration.id new = Configuration.id old ->
  other <> Configuration.id old ->
  Db.get (Db.mk (Db.update_row now old new (Db.configurations st)) vs a) other
  = Db.get st other.
Proof.
  intros Hid Hne.
  assert (Hw : (Configuration.id (Db.written now old new) =? other) = false).
  { apply Z.eqb_neq. unfold Db.written.
    destruct (Db.row_changed old new); simpl; congruence. }
  unfold Db.get, Db.update_row. simpl.
  induction (Db.configurations st) as [|c r IH]; simpl; [reflexivity|].
  destruct (Configuration.id c =? Configuration.id old) eqn:E.
  - rewrite Hw. apply Z.eqb_eq in E.
    replace (Configuration.id c =? other) with false
      by (symmetry; apply Z.eqb_neq; congruence).
    exact IH.
  - destruct (Configuration.id c =? other); [reflexivity|exact IH].
Qed.

Lemma written_frame now old new :
  Configuration.id (Db.written now old new) = Configuration.id new
  /\ Configuration.user_id (Db.written now old new) = Configuration.user_id new
  /\ Configuration.config_type (Db.written now old new)
     = Configuration.config_type new
  /\ Configuration.created_at (Db.written now old new)
     = Configuration.created_at new
  /\ (Configuration.updated_at (Db.written now old new)
      = Configuration.updated_at new
      \/ Configuration.updated_at (Db.written now old new) = now).
Proof.
  unfold Db.written. destruct (Db.row_changed old new); simpl; repeat split; auto.
Qed.

End FrameFacts.

(** X12: what an accepted update cannot touch.  When a PUT on a
    configuration is answered 200, the caller is the owner and the row
    read back under the same id has the id, the owner, the type and the
    creation time it had (a 'config_type' or 'user_id' in the body is
    ignored); its modification time is the previous one or the clock of
    the request; every other configuration and the versions of every
    other configuration are as before; and the versions the configuration
    had are all kept, at most one being appended after them. *)
Theorem X12_update_frame
        (bind_text : json -> option (option str)) (bind_bool : json -> option bool)
        (st : Db.store) (req : Http.request) (config_id : Z) :
  Http.status_code
    (fst (Http.handle (Routes.update_configuration bind_text bind_bool config_id)
                      req st)) = 200 ->
  let st' :=
    snd (Http.handle (Routes.update_configuration bind_text bind_bool config_id)
                     req st) in
  exists old row,
    Db.get st config_id = Some old
    /\ Db.get st' config_id = Some row
    /\ Http.jwt_identity req = Some (Configuration.user_id old)
    /\ Configuration.id row = config_id
    /\ Configuration.user_id row = Configuration.user_id old
    /\ Configuration.config_type row = Configuration.config_type old
    /\ Configuration.created_at row = Configuration.created_at old
    /\ (Configuration.updated_at row = Configuration.updated_at old
        \/ Configuration.updated_at row = Http.now req)
    /\ (forall other, other <> config_id ->
          Db.get st' other = Db.get st other
          /\ Db.versions_of st' other = Db.versions_of st other)
    /\ (exists added,
          Db.versions_of st' config_id = Db.versions_of st config_id ++ added
          /\ (List.length added <= 1)%nat).
Proof.
  intros H200 st'. subst st'.
  destruct (RoutesFacts.update_configuration_cases
              bind_text bind_bool config_id req st)
    as [[_ Hno]|(caller & old & new & has_data & versions' & Hjwt & _ & Hget
                 & Hown & Hpatch & _ & Hkeep & Hadd & _ & Hst')];
    [now elim Hno|].
  rewrite Hst'. clear Hst' H200.
  destruct (@RoutesFacts.apply_fields_patched _ _ _ _ _ Hpatch)
    as (Hid & Huser & Htype & Hcreated & Hupdated & _).
  destruct (FrameFacts.written_frame (Http.now req) old new)
    as (Wid & Wuser & Wtype & Wcreated & Wupdated).
  pose proof (DbFacts.get_Some _ _ Hget) as [_ Hold].
  exists old, (Db.written (Http.now req) old new).
  split; [exact Hget|]. split.
  { rewrite LookupFacts.get_log. now apply UpdateFacts.get_update_row. }
  split; [now rewrite Hjwt, Hown|].
  split; [congruence|]. split; [congruence|]. split; [congruence|].
  split; [congruence|]. split.
  { destruct Wupdated as [W|W]; [left; congruence|now right]. }
  assert (Hvs : versions' = Db.configuration_versions st
                \/ exists v, versions' = Db.configuration_versions st ++ [v]
                             /\ ConfigurationVersion.config_id v = config_id).
  { destruct has_data.
    - right. destruct (Hadd eq_refl) as (v_descr & descr & _ & _ & ->).
      eexists. split; reflexivity.
    - left. now apply Hkeep. }
  split.
  - intros other Hne. rewrite LookupFacts.get_log, LookupFacts.versions_of_log.
    split.
    + apply FrameFacts.get_update_row_other; congruence.
    + unfold Db.versions_of, ConfigurationVersion.filter_by_config_id. simpl.
      destruct Hvs as [->|(v & -> & Hv)]; [reflexivity|].
      rewrite filter_app. simpl.
      replace (ConfigurationVersion.config_id v =? other) with false
        by (symmetry; apply Z.eqb_neq; congruence).
      apply app_nil_r.
  - rewrite LookupFacts.versions_of_log.
    unfold Db.versions_of, ConfigurationVersion.filter_by_config_id. simpl.
    destruct Hvs as [->|(v & -> & Hv)].
    + exists []. split; [now rewrite app_nil_r|simpl; lia].
    + exists [v]. rewrite filter_app. simpl. rewrite Hv, Z.eqb_refl.
      split; [reflexivity|simpl; lia].
Qed.

(** X12 at a concrete input: Alice sends new data for T1. *)
Lemma X12_witness :
  exists row,
    Db.get (snd (Http.handle
                   (Routes.update_configuration
                      Routes.strict_text Routes.strict_bool 1)
                   (Samples.request_of Samples.alice Samples.patch_data 200)
                   Samples.st_alice)) 1 = Some row
    /\ Configuration.config_type row = PyStr.lit "ipsec"
    /\ Configuration.created_at row = 100.
Proof.
  destruct (@X12_update_frame
              Routes.strict_text Routes.strict_bool Samples.st_alice
              (Samples.request_of Samples.alice Samples.patch_data 200) 1
              eq_refl)
    as (old & row & Hold & Hrow & _ & _ & _ & Htype & Hcreated & _).
  exists row. split; [exact Hrow|].
  assert (Some old = Some (Configuration.mk 1 Samples.alice (PyStr.lit "ipsec")
                             (PyStr.lit "T1") (Some [])
                             (JObj [(PyStr.lit "k", JStr (PyStr.lit "v"))])
                             None false 100 100)) as E
    by (rewrite <- Hold; reflexivity).
  injection E as ->. split; [exact Htype|exact Hcreated].
Defined.

(** ** What one request can do to the tables *)

Module StepFacts.

Import Http Routes.

Section Driver.

Variable bind_text : json -> option (option str).
Variable bind_bool : json -> option bool.

(** The tables a request leaves: as they were; one configuration of the
    caller and its version appended; one configuration of the caller
    rewritten in place, with at most one version appended for it; or one
    configuration of the caller deleted with its versions. *)
Lemma step_shape r req st :
  let st' := snd (handle (dispatch bind_text bind_bool r) req st) in
  st' = st
  \/ (exists caller c v a,
        jwt_identity req = Some caller
        /\ Configuration.user_id c = caller
        /\ Configuration.id c
           = Db.next_id (map Configuration.id (Db.configurations st))
        /\ ConfigurationVersion.config_id v = Configuration.id c
        /\ st' = Db.mk (Db.configurations st ++ [c])
                       (Db.configuration_versions st ++ [v]) a)
  \/ (exists caller cid old new vs a,
        jwt_identity req = Some caller
        /\ Db.get st cid = Some old
        /\ Configuration.user_id old = caller
        /\ Configuration.id new = Configuration.id old
        /\ Configuration.config_type new = Configuration.config_type old
        /\ (vs = Db.configuration_versions st
            \/ exists v, vs = Db.configuration_versions st ++ [v]
                         /\ ConfigurationVersion.config_id v = cid)
        /\ st' = Db.mk (Db.update_row (now req) old new (Db.configurations st))
                       vs a)
  \/ (exists caller cid old a,
        r = DELETE_config cid
        /\ jwt_identity req = Some caller
        /\ Db.get st (Z.of_N cid) = Some old
        /\ Configuration.user_id old = caller
        /\ st' = Db.mk (Db.configurations (Db.delete st (Z.of_N cid)))
                       (Db.configuration_versions (Db.delete st (Z.of_N cid))) a).
Proof.
  destruct r as [|i|i|i|i|i n| |i]; simpl dispatch; cbv zeta.
  - destruct (RoutesFacts.create_configuration_cases bind_text bind_bool req st)
      as [[Hs _]|(caller & c & v & a & Hj & Hid & Hu & Hv & _ & _ & Hst)];
      [now left|].
    right. left. exists caller, c, v, a. subst v. now repeat split.
  - left. apply RoutesFacts.get_configuration_store.
  - destruct (RoutesFacts.update_configuration_cases bind_text bind_bool (Z.of_N i) req st)
      as [[Hs _]|(caller & old & new & hd & vs & Hj & _ & Hget & Hown & Hpatch & _
                  & Hkeep & Hadd & _ & Hst)];
      [now left|].
    right. right. left.
    destruct (@RoutesFacts.apply_fields_patched _ _ _ _ _ Hpatch)
      as (Hid & _ & Htype & _).
    exists caller, (Z.of_N i), old, new, vs. eexists.
    split; [exact Hj|]. split; [exact Hget|]. split; [exact Hown|].
    split; [exact Hid|]. split; [exact Htype|]. split; [|exact Hst].
    destruct hd.
    + right. destruct (Hadd eq_refl) as (v_descr & descr & _ & _ & ->).
      eexists. split; reflexivity.
    + left. now apply Hkeep.
  - destruct (RoutesFacts.delete_configuration_cases (Z.of_N i) req st)
      as [[Hs _]|(caller & old & Hj & Hget & Hown & _ & Hst)];
      [now left|].
    right. right. right. exists caller, i, old. eexists.
    split; [reflexivity|]. split; [exact Hj|]. split; [exact Hget|]. split; [exact Hown|exact Hst].
  - left. apply RoutesFacts.get_configuration_versions_store.
  - left. apply RoutesFacts.get_configuration_version_store.
  - left. apply RoutesFacts.list_templates_store.
  - destruct (RoutesFacts.create_from_template_cases (Z.of_N i) req st)
      as [[Hs _]|(caller & t & c & v & a & Hj & _ & _ & Hid & Hu & _ & _ & Hv & _ & _
                  & Hst)];
      [now left|].
    right. left. exists caller, c, v, a. subst v. now repeat split.
Qed.

End Driver.

End StepFacts.

(** X13: no request touches another user's data.  Whatever the route, the
    body and the outcome, a stored configuration whose owner is not the
    authenticated caller of the request (or any stored configuration, when
    the request carries no valid token) is found unchanged under its id
    afterwards, with exactly the versions it had. *)
Theorem X13_other_users_data_untouched
        (bind_text : json -> option (option str)) (bind_bool : json -> option bool)
        (r : Routes.route) (req : Http.request) (st : Db.store)
        (c : Configuration.t) :
  Db.get st (Configuration.id c) = Some c ->
  Http.jwt_identity req <> Some (Configuration.user_id c) ->
  Db.get (snd (Http.handle (Routes.dispatch bind_text bind_bool r) req st))
         (Configuration.id c) = Some c
  /\ Db.versions_of
       (snd (Http.handle (Routes.dispatch bind_text bind_bool r) req st))
       (Configuration.id c)
     = Db.versions_of st (Configuration.id c).
Proof.
  intros Hget Hother.
  pose proof (DbFacts.get_Some _ _ Hget) as [Hin _].
  destruct (StepFacts.step_shape bind_text bind_bool r req st)
    as [->|[(caller & x & v & a & Hj & Hu & Hid & Hv & ->)
           |[(caller & cid & old & new & vs & a & Hj & Hold & Hown & Hid & _
              & Hvs & ->)
            |(caller & cid & old & a & _ & Hj & Hold & Hown & ->)]]].
  - now split.
  - split; [now apply InsertFacts.get_kept|].
    apply InsertFacts.versions_of_kept. rewrite Hv, Hid. intros E.
    pose proof (DbFacts.next_id_fresh _ _ (in_map Configuration.id _ _ Hin)). lia.
  - assert (Hne : Configuration.id c <> cid).
    { intros E. rewrite E in Hget. rewrite Hold in Hget.
      inversion Hget; subst. now elim Hother. }
    pose proof (DbFacts.get_Some _ _ Hold) as [_ Hcid].
    split.
    + rewrite <- Hget. apply FrameFacts.get_update_row_other; congruence.
    + unfold Db.versions_of, ConfigurationVersion.filter_by_config_id. simpl.
      destruct Hvs as [->|(v & -> & Hv)]; [reflexivity|].
      rewrite filter_app. simpl.
      replace (ConfigurationVersion.config_id v =? Configuration.id c) with false
        by (symmetry; apply Z.eqb_neq; congruence).
      apply app_nil_r.
  - assert (Hne : Configuration.id c <> Z.of_N cid).
    { intros E. rewrite E in Hget. rewrite Hold in Hget.
      inversion Hget; subst. now elim Hother. }
    split.
    + rewrite <- Hget. exact (LookupFacts.get_delete_other st Hne).
    + exact (LookupFacts.versions_of_delete_other st Hne).
Qed.

(** X13 at a concrete input: Bob tries to delete Alice's configuration. *)
Lemma X13_witness :
  Db.get (snd (Samples.serve (Routes.DELETE_config 1)
                 (Samples.request_of Samples.bob JNull 200) Samples.st_alice))
         1
  = Db.get Samples.st_alice 1.
Proof.
  exact (proj1 (@X13_other_users_data_untouched
                  Routes.strict_text Routes.strict_bool (Routes.DELETE_config 1)
                  (Samples.request_of Samples.bob JNull 200) Samples.st_alice
                  (Configuration.mk 1 Samples.alice (PyStr.lit "ipsec")
                     (PyStr.lit "T1") (Some [])
                     (JObj [(PyStr.lit "k", JStr (PyStr.lit "v"))])
                     None false 100 100)
                  eq_refl ltac:(discriminate))).
Defined.

(** X14: stored versions are never edited.  Whatever the request, the
    version table afterwards is the table before with at most one row
    appended, every earlier row unchanged and in place; the one exception
    is a DELETE by the owner of an existing configuration, which removes
    the versions of that configuration and no other row. *)
Theorem X14_versions_are_immutable
        (bind_text : json -> option (option str)) (bind_bool : json -> option bool)
        (r : Routes.route) (req : Http.request) (st : Db.store) :
  let st' := snd (Http.handle (Routes.dispatch bind_text bind_bool r) req st) in
  (exists added,
     Db.configuration_versions st' = Db.configuration_versions st ++ added
     /\ (List.length added <= 1)%nat)
  \/ (exists cid old,
        r = Routes.DELETE_config cid
        /\ Db.get st (Z.of_N cid) = Some old
        /\ Http.jwt_identity req = Some (Configuration.user_id old)
        /\ Db.configuration_versions st'
           = filter (fun v => negb (ConfigurationVersion.config_id v =? Z.of_N cid))
                    (Db.configuration_versions st)).
Proof.
  cbv zeta.
  destruct (StepFacts.step_shape bind_text bind_bool r req st)
    as [->|[(caller & x & v & a & _ & _ & _ & _ & ->)
           |[(caller & cid & old & new & vs & a & _ & _ & _ & _ & _ & Hvs & ->)
            |(caller & cid & old & a & -> & Hj & Hold & Hown & Hst)]]].
  - left. exists []. rewrite app_nil_r. split; [reflexivity|simpl; lia].
  - left. exists [v]. split; [reflexivity|simpl; lia].
  - left. destruct Hvs as [->|(v & -> & _)].
    + exists []. rewrite app_nil_r. split; [reflexivity|simpl; lia].
    + exists [v]. split; [reflexivity|simpl; lia].
  - right. exists cid, old. split; [reflexivity|]. split; [exact Hold|].
    split; [now rewrite Hj, Hown|]. rewrite Hst. reflexivity.
Qed.

(** ** The types of the stored configurations *)

Module TypeFacts.

Import Http Routes RoutesFacts.

Lemma validate_config_type_true (s : str) e :
  Validators.validate_config_type s = (true, e) -> In s Validators.valid_types.
Proof.
  unfold Validators.validate_config_type.
  destruct (existsb (PyStr.eqb s) Validators.valid_types) eqn:E; [|discriminate].
  intros _. apply existsb_exists in E as [x [Hx Hs]].
  apply PyStrFacts.eqb_eq in Hs. now subst x.
Qed.

Section Driver.

Variable bind_text : json -> option (option str).
Variable bind_bool : json -> option bool.

(** A creation stores nothing but a configuration of a known type. *)
Lemma create_configuration_type req st c :
  In c (Db.configurations
          (snd (handle (create_configuration bind_text bind_bool) req st))) ->
  In c (Db.configurations st)
  \/ In (Configuration.config_type c) Validators.valid_types.
Proof.
  unfold handle.
  destruct (create_configuration bind_text bind_bool req st)
    as [[resp st']|e] eqn:H.
  2:{ destruct e; now left. }
  unfold create_configuration, jwt_required in H.
  inv_ok H.
  all: try (inversion H; subst; clear H; now left).
  inversion H; subst; clear H. simpl.
  intros Hin. apply in_app_or in Hin as [Hin|[<-|[]]]; [now left|]. right.
  lazymatch goal with
  | Hv : Validators.validate_config_type ?s = (?b, _),
    He : (if ?b then _ else _) ++ _ = [],
    Ht : (if truthy ?tags then _ else _) = Ok ?c |- _ =>
      assert (Hb : b = true) by (destruct b; [reflexivity|discriminate He]);
      subst b; apply validate_config_type_true in Hv;
      assert (Hc : Configuration.config_type c = s)
        by (destruct (truthy tags);
            [apply assign_tags_inv in Ht; destruct Ht as [x ->]; reflexivity
            |inversion Ht; reflexivity])
  end.
  simpl. now rewrite Hc.
Qed.

(** The type of every configuration a request leaves is known, or is the
    type of a configuration that was there. *)
Lemma step_types r req st c :
  In c (Db.configurations
          (snd (handle (dispatch bind_text bind_bool r) req st))) ->
  In (Configuration.config_type c) Validators.valid_types
  \/ exists c0, In c0 (Db.configurations st)
                /\ Configuration.config_type c = Configuration.config_type c0.
Proof.
  assert (Hsame : In c (Db.configurations st) ->
                  In (Configuration.config_type c) Validators.valid_types
                  \/ exists c0, In c0 (Db.configurations st)
                                /\ Configuration.config_type c
                                   = Configuration.config_type c0)
    by (intros Hin; right; now exists c).
  destruct r as [|i|i|i|i|i n| |i]; simpl dispatch.
  - intros Hin. apply create_configuration_type in Hin as [Hin|Hin]; auto.
  - now rewrite get_configuration_store.
  - destruct (update_configuration_cases bind_text bind_bool (Z.of_N i) req st)
      as [[-> _]|(caller & old & new & hd & vs & _ & _ & Hold & _ & Hpatch & _ & _
                  & _ & _ & ->)];
      [exact Hsame|].
    destruct (@apply_fields_patched _ _ _ _ _ Hpatch) as (_ & _ & Htype & _).
    simpl. unfold Db.update_row. intros Hin.
    apply in_map_iff in Hin as [c0 [Hc Hin]].
    destruct (Configuration.id c0 =? Configuration.id old).
    + right. exists old. apply DbFacts.get_Some in Hold as [Ho _].
      split; [exact Ho|]. subst c.
      destruct (FrameFacts.written_frame (now req) old new)
        as (_ & _ & Wtype & _).
      congruence.
    + subst c0. now apply Hsame.
  - destruct (delete_configuration_cases (Z.of_N i) req st)
      as [[-> _]|(caller & old & _ & _ & _ & _ & ->)]; [exact Hsame|].
    simpl. intros Hin. apply filter_In in Hin as [Hin _]. now apply Hsame.
  - now rewrite get_configuration_versions_store.
  - now rewrite get_configuration_version_store.
  - now rewrite list_templates_store.
  - destruct (create_from_template_cases (Z.of_N i) req st)
      as [[-> _]|(? & ? & ? & ? & ? & _ & _ & _ & _ & _ & _ & _ & _ & _ & Hok & _)];
      [exact Hsame|].
    destruct (CommitFacts.create_from_template_commit (Z.of_N i) req st Hok)
      as (caller & template & _ & Hget & _ & ->).
    simpl. intros Hin. apply in_app_or in Hin as [Hin|[<-|[]]]; [now apply Hsame|].
    right. exists template. apply DbFacts.get_Some in Hget as [Ht _].
    split; [exact Ht|reflexivity].
Qed.

End Driver.

End TypeFacts.

(** X15: only known types are stored.  In every store the application
    reaches by serving requests, those of registration, login and logout
    included, the type of every configuration is one of the eleven types
    [validate_config_type] accepts: a creation checks it, an update cannot
    change it, an instance of a template takes the template's, and the
    other routes write no configuration. *)
Theorem X15_stored_types_are_valid
        (lib : Auth.library)
        (bind_text : json -> option (option str)) (bind_bool : json -> option bool)
        (st : Auth.store) (c : Configuration.t) :
  Auth.reachable lib bind_text bind_bool st ->
  In c (Db.configurations (Auth.db st)) ->
  Validators.validate_config_type (Configuration.config_type c) = Validators.valid
  /\ In (Configuration.config_type c) Validators.valid_types.
Proof.
  intros Hreach Hin.
  enough (H : In (Configuration.config_type c) Validators.valid_types).
  { split; [now apply CreateFacts.validate_config_type_In|exact H]. }
  revert c Hin.
  induction Hreach as [|st r req _ IH]; intros c Hin; [destruct Hin|].
  destruct (AuthFacts.serve_db lib bind_text bind_bool r req st)
    as [(r' & _ & E)|[E|(u & a & t & i & d & E)]]; rewrite E in Hin.
  - destruct (TypeFacts.step_types bind_text bind_bool r' req (Auth.db st) c Hin)
      as [Hk|(c0 & Hin0 & Heq)]; [exact Hk|].
    rewrite Heq. exact (IH c0 Hin0).
  - exact (IH c Hin).
  - exact (IH c Hin).
Qed.

(** X15 at a concrete input: the store that holds Carol's T1. *)
Lemma X15_witness :
  Validators.validate_config_type (PyStr.lit "ipsec") = Validators.valid.
Proof.
  apply (@X15_stored_types_are_valid
           Auth.sample_library Routes.strict_text Routes.strict_bool
           (AuthSamples.st_carol_t1 false)
           (Configuration.mk 1 AuthSamples.carol (PyStr.lit "ipsec")
              (PyStr.lit "T1") (Some [])
              (JObj [(PyStr.lit "k", JStr (PyStr.lit "v"))])
              None false 150 150)).
  - apply AuthSamplesFacts.st_carol_t1_reachable.
  - left. reflexivity.
Defined.

(** ** The audit trail *)

Module AuditFacts.

Import Http Routes RoutesFacts.

Section Driver.

Variable bind_text : json -> option (option str).
Variable bind_bool : json -> option bool.

Lemma audit_grows r req st :
  exists added,
    Db.audit_log (snd (handle (dispatch bind_text bind_bool r) req st))
    = Db.audit_log st ++ added.
Proof.
  destruct r as [|i|i|i|i|i n| |i]; simpl dispatch.
  - destruct (create_configuration_cases bind_text bind_bool req st)
      as [[-> _]|(? & ? & ? & ? & _ & _ & _ & _ & _ & Hok & _)];
      [exists []; now rewrite app_nil_r|].
    destruct (CommitFacts.create_configuration_commit bind_text bind_bool req st Hok)
      as (caller & config & name & _ & _ & _ & _ & _ & _ & -> & _).
    eexists. reflexivity.
  - rewrite get_configuration_store. exists []. now rewrite app_nil_r.
  - destruct (update_configuration_cases bind_text bind_bool (Z.of_N i) req st)
      as [[-> _]|(? & ? & ? & ? & ? & _ & _ & _ & _ & _ & _ & _ & _ & _ & ->)];
      [exists []; now rewrite app_nil_r|].
    eexists. reflexivity.
  - destruct (delete_configuration_cases (Z.of_N i) req st)
      as [[-> _]|(? & ? & _ & _ & _ & _ & ->)];
      [exists []; now rewrite app_nil_r|].
    eexists. reflexivity.
  - rewrite get_configuration_versions_store. exists []. now rewrite app_nil_r.
  - rewrite get_configuration_version_store. exists []. now rewrite app_nil_r.
  - rewrite list_templates_store. exists []. now rewrite app_nil_r.
  - destruct (create_from_template_cases (Z.of_N i) req st)
      as [[-> _]|(? & ? & ? & ? & ? & _ & _ & _ & _ & _ & _ & _ & _ & _ & Hok & _)];
      [exists []; now rewrite app_nil_r|].
    destruct (CommitFacts.create_from_template_commit (Z.of_N i) req st Hok)
      as (caller & template & _ & _ & _ & ->).
    eexists. reflexivity.
Qed.

(** A configuration a request leaves was there, under the same id and
    owner, or its creation is in the audit table. *)
Lemma step_accounted r req st c :
  In c (Db.configurations
          (snd (handle (dispatch bind_text bind_bool r) req st))) ->
  (exists c0, In c0 (Db.configurations st)
              /\ Configuration.id c = Configuration.id c0
              /\ Configuration.user_id c = Configuration.user_id c0)
  \/ exists e,
       In e (Db.audit_log (snd (handle (dispatch bind_text bind_bool r) req st)))
       /\ AuditLog.resource_type e = lit "configuration"
       /\ AuditLog.resource_id e = Some (Configuration.id c)
       /\ AuditLog.user_id e = Configuration.user_id c
       /\ (AuditLog.action e = lit "create"
           \/ AuditLog.action e = lit "create_from_template").
Proof.
  assert (Hsame : In c (Db.configurations st) ->
                  exists c0, In c0 (Db.configurations st)
                             /\ Configuration.id c = Configuration.id c0
                             /\ Configuration.user_id c = Configuration.user_id c0)
    by (intros Hin; now exists c).
  destruct r as [|i|i|i|i|i n| |i]; simpl dispatch.
  - destruct (create_configuration_cases bind_text bind_bool req st)
      as [[-> _]|(? & ? & ? & ? & _ & _ & _ & _ & _ & Hok & _)];
      [left; now apply Hsame|].
    destruct (CommitFacts.create_configuration_commit bind_text bind_bool req st Hok)
      as (caller & config & name & _ & Hid & Hu & _ & _ & _ & -> & _).
    simpl. intros Hin. apply in_app_or in Hin as [Hin|[<-|[]]];
      [left; now apply Hsame|].
    right. eexists. split; [apply in_or_app; right; left; reflexivity|].
    simpl. rewrite Hu. auto.
  - rewrite get_configuration_store. left. now apply Hsame.
  - destruct (update_configuration_cases bind_text bind_bool (Z.of_N i) req st)
      as [[-> _]|(caller & old & new & hd & vs & _ & _ & Hold & _ & Hpatch & _ & _
                  & _ & _ & ->)];
      [left; now apply Hsame|].
    destruct (@apply_fields_patched _ _ _ _ _ Hpatch) as (Hid & Huser & _).
    simpl. unfold Db.update_row. intros Hin. left.
    apply in_map_iff in Hin as [c0 [Hc Hin]].
    destruct (Configuration.id c0 =? Configuration.id old).
    + exists old. apply DbFacts.get_Some in Hold as [Ho _].
      split; [exact Ho|]. subst c.
      destruct (FrameFacts.written_frame (now req) old new) as (Wid & Wuser & _).
      split; congruence.
    + subst c0. now apply Hsame.
  - destruct (delete_configuration_cases (Z.of_N i) req st)
      as [[-> _]|(caller & old & _ & _ & _ & _ & ->)];
      [left; now apply Hsame|].
    simpl. intros Hin. apply filter_In in Hin as [Hin _]. left. now apply Hsame.
  - rewrite get_configuration_versions_store. left. now apply Hsame.
  - rewrite get_configuration_version_store. left. now apply Hsame.
  - rewrite list_templates_store. left. now apply Hsame.
  - destruct (create_from_template_cases (Z.of_N i) req st)
      as [[-> _]|(? & ? & ? & ? & ? & _ & _ & _ & _ & _ & _ & _ & _ & _ & Hok & _)];
      [left; now apply Hsame|].
    destruct (CommitFacts.create_from_template_commit (Z.of_N i) req st Hok)
      as (caller & template & _ & _ & _ & ->).
    simpl. intros Hin. apply in_app_or in Hin as [Hin|[<-|[]]];
      [left; now apply Hsame|].
    right. eexists. split; [apply in_or_app; right; left; reflexivity|].
    simpl. auto.
Qed.

(** The same along the routes of the application as a whole. *)
Lemma audit_grows_serve lib r req (st : Auth.store) :
  exists added,
    Db.audit_log (Auth.db (Auth.serve lib bind_text bind_bool r req st))
    = Db.audit_log (Auth.db st) ++ added.
Proof.
  destruct (AuthFacts.serve_db lib bind_text bind_bool r req st)
    as [(r' & _ & ->)|[->|(u & a & t & i & d & ->)]].
  - apply audit_grows.
  - exists []. now rewrite app_nil_r.
  - eexists. reflexivity.
Qed.

End Driver.

End AuditFacts.

(** X16: every stored configuration is accounted for.  In every store the
    application reaches by serving requests, those of registration, login
    and logout included, the audit table holds, for each configuration,
    an entry of resource type "configuration" with the configuration's
    id, its owner as the acting user and the action "create" or
    "create_from_template": no configuration exists that the trail does
    not attribute to its owner.  And no request removes an entry: the
    audit table a request leaves is the table it found, with entries
    appended. *)
Theorem X16_every_configuration_is_accounted_for
        (lib : Auth.library)
        (bind_text : json -> option (option str)) (bind_bool : json -> option bool)
        (st : Auth.store) :
  Auth.reachable lib bind_text bind_bool st ->
  (forall c,
     In c (Db.configurations (Auth.db st)) ->
     exists e,
       In e (Db.audit_log (Auth.db st))
       /\ AuditLog.resource_type e = PyStr.lit "configuration"
       /\ AuditLog.resource_id e = Some (Configuration.id c)
       /\ AuditLog.user_id e = Configuration.user_id c
       /\ (AuditLog.action e = PyStr.lit "create"
           \/ AuditLog.action e = PyStr.lit "create_from_template"))
  /\ (forall r req,
        exists added,
          Db.audit_log (Auth.db (Auth.serve lib bind_text bind_bool r req st))
          = Db.audit_log (Auth.db st) ++ added).
Proof.
  intros Hreach.
  split; [|intros r req; apply AuditFacts.audit_grows_serve].
  induction Hreach as [|st r req _ IH]; intros c Hin; [destruct Hin|].
  assert (Hkept : forall c0,
             In c0 (Db.configurations (Auth.db st)) ->
             Configuration.id c = Configuration.id c0 ->
             Configuration.user_id c = Configuration.user_id c0 ->
             exists e,
               In e (Db.audit_log
                       (Auth.db (Auth.serve lib bind_text bind_bool r req st)))
               /\ AuditLog.resource_type e = PyStr.lit "configuration"
               /\ AuditLog.resource_id e = Some (Configuration.id c)
               /\ AuditLog.user_id e = Configuration.user_id c
               /\ (AuditLog.action e = PyStr.lit "create"
                   \/ AuditLog.action e = PyStr.lit "create_from_template")).
  { intros c0 Hin0 Hid Hu.
    destruct (IH c0 Hin0) as (e & He & Ht & Hr & Hown & Ha).
    destruct (AuditFacts.audit_grows_serve bind_text bind_bool lib r req st)
      as [added ->].
    exists e. split; [apply in_or_app; now left|].
    split; [exact Ht|]. split; [congruence|]. split; [congruence|exact Ha]. }
  destruct (AuthFacts.serve_db lib bind_text bind_bool r req st)
    as [(r' & Hr' & E)|[E|(u & a & t & i & d & E)]].
  - rewrite E in Hin.
    destruct (AuditFacts.step_accounted bind_text bind_bool r' req (Auth.db st) c Hin)
      as [(c0 & Hin0 & Hid & Hu)|(e & He & Hentry)].
    + now apply (Hkept c0).
    + rewrite E. exists e. split; [exact He|exact Hentry].
  - rewrite E in Hin. now apply (Hkept c).
  - rewrite E in Hin. now apply (Hkept c).
Qed.

(** X16 at a concrete input: the store that holds Carol's T1. *)
Lemma X16_witness :
  exists e,
    In e (Db.audit_log (Auth.db (AuthSamples.st_carol_t1 false)))
    /\ AuditLog.resource_id e = Some 1
    /\ AuditLog.user_id e = AuthSamples.carol.
Proof.
  destruct (proj1 (@X16_every_configuration_is_accounted_for
                     Auth.sample_library Routes.strict_text Routes.strict_bool
                     (AuthSamples.st_carol_t1 false)
                     (AuthSamplesFacts.st_carol_t1_reachable false))
              (Configuration.mk 1 AuthSamples.carol (PyStr.lit "ipsec")
                 (PyStr.lit "T1") (Some [])
                 (JObj [(PyStr.lit "k", JStr (PyStr.lit "v"))])
                 None false 150 150)
              (or_introl eq_refl))
    as (e & He & _ & Hr & Hu & _).
  exists e. split; [exact He|]. split; [exact Hr|exact Hu].
Defined.

(** ** Validators *)

(** X17: when [validate_port_range] raises.  The function raises, and then
    [ValueError], exactly on the strings that split on ['-'] into two
    parts of which one is empty while both pass [validate_port] (the
    empty part passes as an absent port): ["-"], ["80-"], ["-443"] and the
    like.  On every other string it returns its pair. *)
Theorem X17_validate_port_range_raises_iff
        (unicode_decimal : PyStr.char -> option Z) (s : str) :
  (Validators.validate_port_range unicode_decimal s = Raise ValueError
   <-> exists p0 p1,
         PyStr.split PyStr.hyphen s = [p0; p1]
         /\ (p0 = [] \/ p1 = [])
         /\ Validators.validate_port unicode_decimal (JStr p0) = Ok Validators.valid
         /\ Validators.validate_port unicode_decimal (JStr p1) = Ok Validators.valid)
  /\ (forall e, Validators.validate_port_range unicode_decimal s = Raise e ->
                e = ValueError).
Proof.
  unfold Validators.validate_port_range.
  destruct s as [|c r].
  { split; [split; [discriminate|intros (p0 & p1 & H & _); discriminate H]
           |discriminate]. }
  destruct (PyStr.contains PyStr.hyphen (c :: r)) eqn:C.
  2:{ rewrite ValidatorsCases.validate_port_str.
      split; [split; [discriminate|]|discriminate].
      intros (p0 & p1 & H & _).
      rewrite PyStrFacts.split_no_sep in H by exact C. discriminate H. }
  destruct (PyStr.split PyStr.hyphen (c :: r)) as [|p0 [|p1 [|p2 ps]]];
    try (split; [split; [discriminate|intros (q0 & q1 & H & _); discriminate H]
                |discriminate]).
  assert (Hinv : forall P : str -> str -> Prop,
             (exists q0 q1, [p0; p1] = [q0; q1] /\ P q0 q1) <-> P p0 p1).
  { intros P. split.
    - intros (q0 & q1 & H & HP). now inversion H; subst.
    - intros HP. now exists p0, p1. }
  rewrite (Hinv (fun q0 q1 =>
                   (q0 = [] \/ q1 = [])
                   /\ Validators.validate_port unicode_decimal (JStr q0)
                      = Ok Validators.valid
                   /\ Validators.validate_port unicode_decimal (JStr q1)
                      = Ok Validators.valid)).
  rewrite !ValidatorsCases.validate_port_str. simpl Py.bind.
  destruct p0 as [|c0 r0]; [|destruct (Validators.int_of_str unicode_decimal
                                          (c0 :: r0)) as [n|e0];
                             [destruct ((1 <=? n) && (n <=? 65535))|]];
    simpl negb; cbv iota;
    (destruct p1 as [|c1 r1]; [|destruct (Validators.int_of_str unicode_decimal
                                            (c1 :: r1)) as [m|e1];
                                [destruct ((1 <=? m) && (m <=? 65535))|]]);
    simpl; try (destruct (n >? m));
    (split; [split; [first [discriminate|intros _; tauto]
                    |first [intros (_ & H0 & H1); discriminate
                           |intros ([H|H] & _); discriminate H
                           |reflexivity]]
            |intros e He; first [discriminate He|now inversion He]]).
Qed.

(** X18: the usernames [validate_username] accepts are exactly the
    strings of 3 to 80 characters, each of them alphanumeric, a hyphen or
    an underscore, of which at least one is alphanumeric; and the three
    checks come in this order: length below 3, length above 80, then the
    characters. *)
Theorem X18_validate_username_characterised
        (unicode_alnum : PyStr.char -> bool) (username : str) :
  (Validators.validate_username unicode_alnum username = Validators.valid
   <-> 3 <= PyStr.len username <= 80
       /\ Forall (fun c => c = PyStr.hyphen \/ c = PyStr.underscore
                           \/ Validators.char_isalnum unicode_alnum c = true)
                 username
       /\ Exists (fun c => Validators.char_isalnum unicode_alnum c = true) username)
  /\ (PyStr.len username < 3 ->
      Validators.validate_username unicode_alnum username
      = Validators.invalid Validators.UsernameTooShort)
  /\ (80 < PyStr.len username ->
      Validators.validate_username unicode_alnum username
      = Validators.invalid Validators.UsernameTooLong).
Proof.
  split; [|split].
  - rewrite (ValidatorsCases.validate_username_accepts
               Validators.ascii_decimal unicode_alnum username).
    split; intros (Hlen & Hall & Hex); (split; [exact Hlen|split; [exact Hall|]]).
    + apply Exists_exists in Hex as (c & Hin & Hh & Hu).
      apply Exists_exists. exists c. split; [exact Hin|].
      destruct (proj1 (Forall_forall _ _) Hall c Hin) as [E|[E|E]];
        [now elim Hh|now elim Hu|exact E].
    + apply Exists_exists in Hex as (c & Hin & Hc).
      apply Exists_exists. exists c. split; [exact Hin|].
      split; intros ->; vm_compute in Hc; discriminate Hc.
  - intros H. unfold Validators.validate_username.
    replace (PyStr.len username <? 3) with true
      by (symmetry; now apply Z.ltb_lt).
    reflexivity.
  - intros H. unfold Validators.validate_username.
    replace (PyStr.len username <? 3) with false
      by (symmetry; apply Z.ltb_ge; lia).
    replace (PyStr.len username >? 80) with true
      by (rewrite Z.gtb_ltb; symmetry; now apply Z.ltb_lt).
    reflexivity.
Qed.

(** ** Tags as read back *)

Module SplitFacts.

Import PyStr.

Lemma split_pieces_free sep (s : str) :
  Forall (fun p => contains sep p = false) (split sep s).
Proof.
  induction s as [|c r IH]; simpl; [now repeat constructor|].
  destruct (N.eqb c sep) eqn:E; [now constructor|].
  destruct (split sep r) as [|p ps].
  { constructor; [|constructor]. unfold contains. simpl.
    now rewrite N.eqb_sym, E. }
  inversion IH as [|? ? Hp Hps]; subst. constructor; [|exact Hps].
  unfold contains in *. simpl. now rewrite N.eqb_sym, E.
Qed.

Lemma contains_false_Forall c (s : str) :
  contains c s = false <-> Forall (fun x => x <> c) s.
Proof.
  unfold contains. induction s as [|x r IH]; simpl.
  - split; [constructor|reflexivity].
  - rewrite orb_false_iff, IH, N.eqb_neq. split.
    + intros [H1 H2]. constructor; [congruence|exact H2].
    + intros H. inversion H; subst. split; [congruence|assumption].
Qed.

Lemma strip_free c (s : str) :
  contains c s = false -> contains c (strip s) = false.
Proof.
  rewrite !contains_false_Forall. apply PyStrFacts.strip_by_Forall.
Qed.

Lemma lstrip_by_length sp (s : str) :
  (List.length (lstrip_by sp s) <= List.length s)%nat.
Proof.
  induction s as [|x r IH]; simpl; [lia|]. destruct (sp x); simpl; lia.
Qed.

Lemma strip_length (s : str) : len (strip s) <= len s.
Proof.
  unfold len, strip, strip_by, rstrip_by.
  rewrite length_rev.
  pose proof (lstrip_by_length isspace (rev (lstrip_by isspace s))) as H1.
  pose proof (lstrip_by_length isspace s) as H2.
  rewrite length_rev in H1. lia.
Qed.

End SplitFacts.

(** X19: tags as read back.  Whatever string the tags column of a
    configuration holds, every tag [get_tags_list] returns is free of
    commas and of leading and trailing whitespace ([strip] leaves it as it
    is); and the list is empty exactly when the column is empty or
    NULL. *)
Theorem X19_tags_read_back_normalised (config : Configuration.t) :
  Forall (fun tag => PyStr.contains PyStr.comma tag = false
                     /\ PyStr.strip tag = tag)
         (Configuration.get_tags_list config)
  /\ (Configuration.get_tags_list config = []
      <-> Configuration.tags config = None
          \/ Configuration.tags config = Some []).
Proof.
  unfold Configuration.get_tags_list.
  destruct (Configuration.tags config) as [[|c r]|].
  - split; [constructor|]. split; auto.
  - split.
    + apply Forall_forall. intros tag Hin.
      apply in_map_iff in Hin as [p [<- Hp]].
      split.
      * apply SplitFacts.strip_free.
        exact (proj1 (Forall_forall _ _)
                     (SplitFacts.split_pieces_free PyStr.comma (c :: r)) p Hp).
      * apply PyStrFacts.strip_by_idem.
    + split.
      * intros H. apply map_eq_nil in H.
        now elim (PyStrFacts.split_not_nil PyStr.comma (c :: r)).
      * intros [H|H]; discriminate H.
  - split; [constructor|]. split; auto.
Qed.

(** ** The regular expressions *)

Module ReFacts.

Import Re.

(** What [cs{min,}] followed by [k] matches: a prefix of at least [min]
    characters of the set, then [k] on the rest. *)
Lemma rep_spec cs k (s : str) : forall min start,
  rep cs k min start s = true
  <-> exists pre suf,
        s = pre ++ suf
        /\ Forall (fun c => in_set cs c = true) pre
        /\ (min <= List.length pre)%nat
        /\ k (match pre with [] => start | _ => false end) suf = true.
Proof.
  induction s as [|c t IH]; intros min start.
  - simpl. rewrite orb_false_r. split.
    + destruct min; [|discriminate]. intros H. exists [], [].
      split; [reflexivity|]. split; [constructor|]. split; [simpl; lia|exact H].
    + intros (pre & suf & Hs & _ & Hmin & Hk).
      symmetry in Hs. apply app_eq_nil in Hs as [-> ->].
      simpl in Hmin. destruct min; [exact Hk|lia].
  - cbn [rep]. rewrite orb_true_iff, andb_true_iff, IH. split.
    + intros [H|[Hc (pre & suf & Ht & Hall & Hmin & Hk)]].
      * destruct min; [|discriminate]. exists [], (c :: t).
        split; [reflexivity|]. split; [constructor|]. split; [simpl; lia|exact H].
      * exists (c :: pre), suf. split; [simpl; now rewrite Ht|].
        split; [now constructor|]. split; [simpl; lia|].
        now destruct pre.
    + intros (pre & suf & Hs & Hall & Hmin & Hk).
      destruct pre as [|x pre].
      * left. simpl in Hmin, Hs. subst suf. destruct min; [exact Hk|lia].
      * right. simpl in Hs. inversion Hs; subst x t.
        inversion Hall as [|? ? Hx Hpre]; subst.
        split; [exact Hx|]. exists pre, suf.
        split; [reflexivity|]. split; [exact Hpre|]. split; [simpl in Hmin; lia|].
        now destruct pre.
Qed.

Lemma at_end_spec (s : str) : at_end s = true <-> s = [] \/ s = [10%N].
Proof.
  destruct s as [|c [|d r]]; simpl.
  - split; auto.
  - rewrite N.eqb_eq. split; [intros ->; now right|].
    intros [H|H]; [discriminate|now inversion H].
  - split; [discriminate|]. intros [H|H]; discriminate.
Qed.

(** [^[cs]+$] *)
Lemma match_anchored_set cs (s : str) :
  re_match [Bol; Rep cs 1; Eol] s = true
  <-> exists body,
        (s = body \/ s = body ++ [10%N])
        /\ body <> []
        /\ Forall (fun c => in_set cs c = true) body.
Proof.
  unfold re_match. cbn [match_here andb]. rewrite rep_spec. split.
  - intros (pre & suf & Hs & Hall & Hmin & Hk).
    rewrite andb_true_r in Hk. apply at_end_spec in Hk.
    exists pre. split; [|split; [|exact Hall]].
    + destruct Hk as [->| ->]; [left; now rewrite app_nil_r in Hs|now right].
    + intros ->. simpl in Hmin. lia.
  - intros (body & Hs & Hne & Hall).
    destruct body as [|x body]; [now elim Hne|].
    destruct Hs as [->| ->].
    + exists (x :: body), []. rewrite app_nil_r.
      split; [reflexivity|]. split; [exact Hall|]. split; [simpl; lia|reflexivity].
    + exists (x :: body), [10%N].
      split; [reflexivity|]. split; [exact Hall|]. split; [simpl; lia|reflexivity].
Qed.

(** The sets of the validators, character by character. *)
Lemma in_name_set c :
  in_set (set (PyStr.lit "a-zA-Z0-9_-")) c = true
  <-> Validators.char_isalnum Validators.ascii_alnum c = true
      \/ c = PyStr.underscore \/ c = PyStr.hyphen.
Proof.
  unfold Validators.char_isalnum, Validators.ascii_alnum, PyStr.underscore,
    PyStr.hyphen.
  vm_compute set. cbn [in_set existsb fst snd].
  rewrite orb_false_r.
  destruct (c <? 128)%N eqn:E.
  - rewrite !orb_true_iff, !andb_true_iff, !N.leb_le. lia.
  - apply N.ltb_ge in E.
    rewrite !orb_true_iff, !andb_true_iff, !N.leb_le.
    split; [lia|]. intros [H|H]; [discriminate|lia].
Qed.

Lemma in_interface_set c :
  in_set (set (PyStr.lit "a-zA-Z0-9._-")) c = true
  <-> Validators.char_isalnum Validators.ascii_alnum c = true
      \/ c = 46%N \/ c = PyStr.underscore \/ c = PyStr.hyphen.
Proof.
  unfold Validators.char_isalnum, Validators.ascii_alnum, PyStr.underscore,
    PyStr.hyphen.
  vm_compute set. cbn [in_set existsb fst snd].
  rewrite orb_false_r.
  destruct (c <? 128)%N eqn:E.
  - rewrite !orb_true_iff, !andb_true_iff, !N.leb_le. lia.
  - apply N.ltb_ge in E.
    rewrite !orb_true_iff, !andb_true_iff, !N.leb_le.
    split; [lia|]. intros [H|H]; [discriminate|lia].
Qed.

End ReFacts.

(** ** Names *)

Module NamesFacts.

Import Names.

(** The shape both patterns accept: one or more characters of the set,
    and possibly one newline after them. *)
Lemma anchored_name cs (P : PyStr.char -> Prop) (name : str) :
  (forall c, Re.in_set cs c = true <-> P c) ->
  Re.re_match [Re.Bol; Re.Rep cs 1; Re.Eol] name = true
  <-> exists body,
        (name = body \/ name = body ++ [10%N]) /\ body <> [] /\ Forall P body.
Proof.
  intros HP. rewrite ReFacts.match_anchored_set.
  split; intros (body & Hs & Hne & Hall); exists body;
    (split; [exact Hs|split; [exact Hne|]]);
    apply Forall_forall; intros c Hc; apply HP;
    exact (proj1 (Forall_forall _ _) Hall c Hc).
Qed.

Lemma gtb_false_le a b : (a >? b) = false <-> a <= b.
Proof. rewrite Z.gtb_ltb. apply Z.ltb_ge. Qed.

(** A non-empty name passes the pattern and then the length. *)
Lemma checked_name (re : list Re.item) (limit : Z) (name : str)
      (bad long : message) :
  (if negb (Re.re_match re name) then invalid bad
   else if PyStr.len name >? limit then invalid long
   else valid) = valid
  <-> PyStr.len name <= limit /\ Re.re_match re name = true.
Proof.
  destruct (Re.re_match re name); simpl negb; cbv iota.
  - destruct (PyStr.len name >? limit) eqn:E.
    + split; [discriminate|]. intros [H _].
      apply gtb_false_le in H. congruence.
    + apply gtb_false_le in E. split; [now split|reflexivity].
  - split; [discriminate|]. intros [_ H]; discriminate.
Qed.

Lemma vdom_accepts (name : str) :
  validate_vdom_name (Some name) = valid
  <-> name = []
      \/ (PyStr.len name <= 31
          /\ exists body,
               (name = body \/ name = body ++ [10%N])
               /\ body <> []
               /\ Forall (fun c =>
                            Validators.char_isalnum Validators.ascii_alnum c = true
                            \/ c = PyStr.underscore \/ c = PyStr.hyphen)
                         body).
Proof.
  destruct name as [|c r].
  { split; [now left|reflexivity]. }
  unfold validate_vdom_name. rewrite checked_name.
  unfold name_re.
  rewrite (@anchored_name _ _ (c :: r) ReFacts.in_name_set).
  split; [now right|]. intros [H|H]; [discriminate|exact H].
Qed.

Lemma phase1_accepts (name : str) :
  validate_phase1_name (Some name) = valid
  <-> PyStr.len name <= 35
      /\ exists body,
           (name = body \/ name = body ++ [10%N])
           /\ body <> []
           /\ Forall (fun c =>
                        Validators.char_isalnum Validators.ascii_alnum c = true
                        \/ c = PyStr.underscore \/ c = PyStr.hyphen)
                     body.
Proof.
  destruct name as [|c r].
  { split; [discriminate|]. intros (_ & body & [H|H] & Hne & _).
    - now elim Hne.
    - destruct body; discriminate H. }
  unfold validate_phase1_name. rewrite checked_name.
  unfold name_re.
  now rewrite (@anchored_name _ _ (c :: r) ReFacts.in_name_set).
Qed.

End NamesFacts.

(** X20: the interface names accepted.  [validate_interface_name] accepts
    a string exactly when it is empty, or has at most 35 characters and
    consists of one or more ASCII letters, digits, dots, underscores and
    hyphens, possibly followed by one newline: [$] also matches before a
    final newline, so a name that ends in a newline passes. *)
Theorem X20_validate_interface_name_accepts (name : str) :
  Names.validate_interface_name (Some name) = Names.valid
  <-> name = []
      \/ (PyStr.len name <= 35
          /\ exists body,
               (name = body \/ name = body ++ [10%N])
               /\ body <> []
               /\ Forall (fun c =>
                            Validators.char_isalnum Validators.ascii_alnum c = true
                            \/ c = 46%N \/ c = PyStr.underscore \/ c = PyStr.hyphen)
                         body).
Proof.
  destruct name as [|c r].
  { split; [now left|reflexivity]. }
  unfold Names.validate_interface_name. rewrite NamesFacts.checked_name.
  unfold Names.interface_re.
  rewrite (@NamesFacts.anchored_name _ _ (c :: r) ReFacts.in_interface_set).
  split; [now right|]. intros [H|H]; [discriminate|exact H].
Qed.

(** X21: VDOM and Phase1 names.  Both validators accept one or more ASCII
    letters, digits, underscores and hyphens, possibly followed by one
    newline, of at most 31 (VDOM) and 35 (Phase1) characters in all; the
    empty string is a valid VDOM name and no valid Phase1 name.  Hence
    every non-empty valid VDOM name is a valid Phase1 name, and every
    valid Phase1 name is a valid interface name. *)
Theorem X21_vdom_and_phase1_names (name : str) :
  let well_formed :=
    exists body,
      (name = body \/ name = body ++ [10%N])
      /\ body <> []
      /\ Forall (fun c =>
                   Validators.char_isalnum Validators.ascii_alnum c = true
                   \/ c = PyStr.underscore \/ c = PyStr.hyphen)
                body in
  (Names.validate_vdom_name (Some name) = Names.valid
   <-> name = [] \/ (PyStr.len name <= 31 /\ well_formed))
  /\ (Names.validate_phase1_name (Some name) = Names.valid
      <-> PyStr.len name <= 35 /\ well_formed)
  /\ (name <> [] -> Names.validate_vdom_name (Some name) = Names.valid ->
      Names.validate_phase1_name (Some name) = Names.valid)
  /\ (Names.validate_phase1_name (Some name) = Names.valid ->
      Names.validate_interface_name (Some name) = Names.valid).
Proof.
  cbv zeta.
  split; [apply NamesFacts.vdom_accepts|].
  split; [apply NamesFacts.phase1_accepts|]. split.
  - intros Hne Hv. apply NamesFacts.phase1_accepts.
    apply NamesFacts.vdom_accepts in Hv as [Hv|[Hlen Hw]]; [now elim Hne|].
    split; [lia|exact Hw].
  - intros Hp.
    apply NamesFacts.phase1_accepts in Hp as (Hlen & body & Hs & Hne & Hall).
    destruct name as [|c r]; [reflexivity|].
    unfold Names.validate_interface_name. apply NamesFacts.checked_name.
    split; [exact Hlen|]. unfold Names.interface_re.
    apply (@NamesFacts.anchored_name _ _ (c :: r) ReFacts.in_interface_set).
    exists body. split; [exact Hs|]. split; [exact Hne|].
    apply Forall_forall. intros x Hx.
    destruct (proj1 (Forall_forall _ _) Hall x Hx) as [H|[H|H]]; auto.
Qed.

(** ** E-mail addresses and passwords *)

Module CredentialsFacts.

Import Re Credentials.

Lemma match_rep cs min p start (s : str) :
  match_here (Rep cs min :: p) start s = true
  <-> exists pre suf,
        s = pre ++ suf
        /\ Forall (fun c => in_set cs c = true) pre
        /\ (min <= List.length pre)%nat
        /\ match_here p (match pre with [] => start | _ => false end) suf = true.
Proof. cbn [match_here]. apply ReFacts.rep_spec. Qed.

Lemma match_chr c p start (s : str) :
  match_here (Chr c :: p) start s = true
  <-> exists t, s = c :: t /\ match_here p false t = true.
Proof.
  cbn [match_here]. destruct s as [|x t].
  - split; [discriminate|]. intros (t & H & _). discriminate H.
  - rewrite andb_true_iff, N.eqb_eq. split.
    + intros [-> H]. now exists t.
    + intros (t' & H & Hm). inversion H; subst. now split.
Qed.

Lemma match_eol start (s : str) :
  match_here [Eol] start s = true <-> s = [] \/ s = [10%N].
Proof. cbn [match_here]. rewrite andb_true_r. apply ReFacts.at_end_spec. Qed.

(** The three sets of the pattern, character by character. *)
Lemma in_local_set c :
  in_set (set (PyStr.lit "a-zA-Z0-9._%+-")) c = true
  <-> Validators.char_isalnum Validators.ascii_alnum c = true
      \/ c = 46%N \/ c = PyStr.underscore \/ c = 37%N \/ c = PyStr.plus_sign
      \/ c = PyStr.hyphen.
Proof.
  unfold Validators.char_isalnum, Validators.ascii_alnum, PyStr.underscore,
    PyStr.hyphen, PyStr.plus_sign.
  vm_compute set. cbn [in_set existsb fst snd]. rewrite orb_false_r.
  destruct (c <? 128)%N eqn:E.
  - rewrite !orb_true_iff, !andb_true_iff, !N.leb_le. lia.
  - apply N.ltb_ge in E.
    rewrite !orb_true_iff, !andb_true_iff, !N.leb_le.
    split; [lia|]. intros [H|H]; [discriminate|lia].
Qed.

Lemma in_domain_set c :
  in_set (set (PyStr.lit "a-zA-Z0-9.-")) c = true
  <-> Validators.char_isalnum Validators.ascii_alnum c = true
      \/ c = 46%N \/ c = PyStr.hyphen.
Proof.
  unfold Validators.char_isalnum, Validators.ascii_alnum, PyStr.hyphen.
  vm_compute set. cbn [in_set existsb fst snd]. rewrite orb_false_r.
  destruct (c <? 128)%N eqn:E.
  - rewrite !orb_true_iff, !andb_true_iff, !N.leb_le. lia.
  - apply N.ltb_ge in E.
    rewrite !orb_true_iff, !andb_true_iff, !N.leb_le.
    split; [lia|]. intros [H|H]; [discriminate|lia].
Qed.

Lemma in_letter_set c :
  in_set (set (PyStr.lit "a-zA-Z")) c = true
  <-> (65 <= c <= 90 \/ 97 <= c <= 122)%N.
Proof.
  vm_compute set. cbn [in_set existsb fst snd]. rewrite orb_false_r.
  rewrite !orb_true_iff, !andb_true_iff, !N.leb_le. lia.
Qed.

Lemma Forall_iff {A} (P Q : A -> Prop) (l : list A) :
  (forall x, P x <-> Q x) -> Forall P l <-> Forall Q l.
Proof.
  intros H. split; intros HF; apply Forall_forall; intros x Hx;
    apply H; exact (proj1 (Forall_forall _ _) HF x Hx).
Qed.

(** What the pattern of [validate_email] matches. *)
Lemma email_regex_matches (email : str) :
  re_match email_regex email = true
  <-> exists local domain tld,
        (email = local ++ [64%N] ++ domain ++ [46%N] ++ tld
         \/ email = local ++ [64%N] ++ domain ++ [46%N] ++ tld ++ [10%N])
        /\ local <> []
        /\ Forall (fun c =>
                     Validators.char_isalnum Validators.ascii_alnum c = true
                     \/ c = 46%N \/ c = PyStr.underscore \/ c = 37%N
                     \/ c = PyStr.plus_sign \/ c = PyStr.hyphen) local
        /\ domain <> []
        /\ Forall (fun c =>
                     Validators.char_isalnum Validators.ascii_alnum c = true
                     \/ c = 46%N \/ c = PyStr.hyphen) domain
        /\ (2 <= List.length tld)%nat
        /\ Forall (fun c => (65 <= c <= 90 \/ 97 <= c <= 122)%N) tld.
Proof.
  unfold re_match, email_regex.
  change (match_here (Bol :: ?p) true email) with (match_here p true email).
  split.
  - intros H.
    apply match_rep in H as (local & s1 & -> & Hl & Hn1 & H).
    apply match_chr in H as (s2 & -> & H).
    apply match_rep in H as (domain & s3 & -> & Hd & Hn2 & H).
    apply match_chr in H as (s4 & -> & H).
    apply match_rep in H as (tld & s5 & -> & Ht & Hn3 & H).
    apply match_eol in H.
    exists local, domain, tld.
    split; [destruct H as [->| ->]; [left; now rewrite app_nil_r|now right]|].
    split; [intros ->; simpl in Hn1; lia|].
    split; [exact (proj1 (Forall_iff _ _ local in_local_set) Hl)|].
    split; [intros ->; simpl in Hn2; lia|].
    split; [exact (proj1 (Forall_iff _ _ domain in_domain_set) Hd)|].
    split; [exact Hn3|].
    exact (proj1 (Forall_iff _ _ tld in_letter_set) Ht).
  - intros (local & domain & tld & Hs & Hl0 & Hl & Hd0 & Hd & Hn & Ht).
    assert (Hend : exists tail, (tail = [] \/ tail = [10%N])
                                /\ email = local ++ [64%N] ++ domain ++ [46%N]
                                            ++ tld ++ tail).
    { destruct Hs as [->| ->]; [exists []|exists [10%N]]; split; auto.
      now rewrite app_nil_r. }
    destruct Hend as (tail & Htail & ->). clear Hs.
    apply match_rep. exists local. eexists.
    split; [reflexivity|].
    split; [exact (proj2 (Forall_iff _ _ local in_local_set) Hl)|].
    split; [destruct local; [now elim Hl0|simpl; lia]|].
    apply match_chr. eexists. split; [reflexivity|].
    apply match_rep. exists domain. eexists.
    split; [reflexivity|].
    split; [exact (proj2 (Forall_iff _ _ domain in_domain_set) Hd)|].
    split; [destruct domain; [now elim Hd0|simpl; lia]|].
    apply match_chr. eexists. split; [reflexivity|].
    apply match_rep. exists tld, tail.
    split; [reflexivity|].
    split; [exact (proj2 (Forall_iff _ _ tld in_letter_set) Ht)|].
    split; [exact Hn|].
    apply match_eol. exact Htail.
Qed.

End CredentialsFacts.

Module PasswordFacts.

Import Credentials.

Lemma any_of_chars (f : json -> result bool) (g : PyStr.char -> bool) (s : str) :
  (forall c, f (JStr [c]) = Ok (g c)) ->
  any_of f (map (fun c => JStr [c]) s) = Ok (existsb g s).
Proof.
  intros H. induction s as [|c r IH]; simpl; [reflexivity|].
  rewrite H. simpl. destruct (g c); [reflexivity|exact IH].
Qed.

Section Unicode.

Variable unicode_isdigit : PyStr.char -> bool.
Variable unicode_isupper : PyStr.char -> bool.
Variable unicode_islower : PyStr.char -> bool.
Variable unicode_istitle : PyStr.char -> bool.

(** On a string the validator returns, and what it returns is decided by
    the characters one by one. *)
Lemma validate_password_str (password : str) :
  validate_password unicode_isdigit unicode_isupper unicode_islower
                    unicode_istitle (JStr password)
  = Ok (if PyStr.len password <? 8 then invalid PasswordTooShort
        else if negb (existsb (isdigit unicode_isdigit) password)
             then invalid PasswordNeedsNumber
        else if negb (existsb (isupper unicode_isupper) password)
             then invalid PasswordNeedsUppercase
        else if negb (existsb (islower unicode_islower) password)
             then invalid PasswordNeedsLowercase
        else valid).
Proof.
  unfold validate_password. cbn [py_len Py.bind py_iter].
  destruct (PyStr.len password <? 8); [reflexivity|].
  rewrite (any_of_chars _ (isdigit unicode_isdigit)); cbn [Py.bind].
  2:{ intros c. simpl. now rewrite andb_true_r. }
  destruct (existsb (isdigit unicode_isdigit) password); [|reflexivity].
  cbn [negb].
  rewrite (any_of_chars _ (isupper unicode_isupper)) by reflexivity.
  cbn [Py.bind].
  destruct (existsb (isupper unicode_isupper) password); [|reflexivity].
  cbn [negb].
  rewrite (any_of_chars _ (islower unicode_islower)) by reflexivity.
  cbn [Py.bind].
  now destruct (existsb (islower unicode_islower) password).
Qed.

Lemma validate_password_accepts (password : str) :
  validate_password unicode_isdigit unicode_isupper unicode_islower
                    unicode_istitle (JStr password) = Ok valid
  <-> 8 <= PyStr.len password
      /\ existsb (isdigit unicode_isdigit) password = true
      /\ existsb (isupper unicode_isupper) password = true
      /\ existsb (islower unicode_islower) password = true.
Proof.
  rewrite validate_password_str.
  destruct (PyStr.len password <? 8) eqn:E.
  { apply Z.ltb_lt in E. split; [discriminate|]. intros [H _]. lia. }
  apply Z.ltb_ge in E.
  destruct (existsb (isdigit unicode_isdigit) password);
    [|split; [discriminate|intros (_ & H & _); discriminate H]].
  destruct (existsb (isupper unicode_isupper) password);
    [|split; [discriminate|intros (_ & _ & H & _); discriminate H]].
  destruct (existsb (islower unicode_islower) password);
    [|split; [discriminate|intros (_ & _ & _ & H); discriminate H]].
  split; [now repeat split|reflexivity].
Qed.

End Unicode.

Lemma count_occ_none (l : str) c :
  Forall (fun x => x <> c) l -> count_occ N.eq_dec l c = 0%nat.
Proof.
  intros H. apply count_occ_not_In. intros Hin.
  exact (proj1 (Forall_forall _ _) H c Hin eq_refl).
Qed.

End PasswordFacts.

(** X22: the addresses [validate_email] accepts.  An address passes
    exactly when it reads local@domain.tld, possibly followed by one
    newline, where local is one or more ASCII letters, digits and
    [._%+-], domain one or more ASCII letters, digits, dots and hyphens,
    and tld two or more ASCII letters.  An accepted address therefore
    holds exactly one [@]; consecutive dots, and a dot or hyphen next to
    the [@], are not excluded. *)
Theorem X22_validate_email_accepts (email : str) :
  (Credentials.validate_email email = Credentials.valid
   <-> exists local domain tld,
         (email = local ++ [64%N] ++ domain ++ [46%N] ++ tld
          \/ email = local ++ [64%N] ++ domain ++ [46%N] ++ tld ++ [10%N])
         /\ local <> []
         /\ Forall (fun c =>
                      Validators.char_isalnum Validators.ascii_alnum c = true
                      \/ c = 46%N \/ c = PyStr.underscore \/ c = 37%N
                      \/ c = PyStr.plus_sign \/ c = PyStr.hyphen) local
         /\ domain <> []
         /\ Forall (fun c =>
                      Validators.char_isalnum Validators.ascii_alnum c = true
                      \/ c = 46%N \/ c = PyStr.hyphen) domain
         /\ (2 <= List.length tld)%nat
         /\ Forall (fun c => (65 <= c <= 90 \/ 97 <= c <= 122)%N) tld)
  /\ (Credentials.validate_email email = Credentials.valid ->
      count_occ N.eq_dec email 64%N = 1%nat).
Proof.
  assert (Hiff : Credentials.validate_email email = Credentials.valid
                 <-> Re.re_match Credentials.email_regex email = true).
  { unfold Credentials.validate_email.
    destruct (Re.re_match Credentials.email_regex email); simpl;
      split; (reflexivity || discriminate). }
  split.
  - rewrite Hiff. apply CredentialsFacts.email_regex_matches.
  - intros H. apply Hiff, CredentialsFacts.email_regex_matches in H.
    destruct H as (local & domain & tld & Hs & _ & Hl & _ & Hd & _ & Ht).
    assert (Hlocal : count_occ N.eq_dec local 64%N = 0%nat).
    { apply PasswordFacts.count_occ_none. apply Forall_forall. intros c Hc.
      pose proof (proj1 (Forall_forall _ _) Hl c Hc) as Hk. intros ->.
      vm_compute in Hk. intuition discriminate. }
    assert (Hdomain : count_occ N.eq_dec domain 64%N = 0%nat).
    { apply PasswordFacts.count_occ_none. apply Forall_forall. intros c Hc.
      pose proof (proj1 (Forall_forall _ _) Hd c Hc) as Hk. intros ->.
      vm_compute in Hk. intuition discriminate. }
    assert (Htld : count_occ N.eq_dec tld 64%N = 0%nat).
    { apply PasswordFacts.count_occ_none. apply Forall_forall. intros c Hc.
      pose proof (proj1 (Forall_forall _ _) Ht c Hc) as Hk. intros ->. lia. }
    destruct Hs as [->| ->]; rewrite !count_occ_app, Hlocal, Hdomain, Htld;
      reflexivity.
Qed.

(** X23: passwords.  On a string [validate_password] always returns; it
    accepts exactly the strings of at least 8 characters that hold a
    digit, an uppercase and a lowercase character; there is no upper
    bound and no forbidden character, so an accepted password stays
    accepted whatever is put before or after it. *)
Theorem X23_validate_password_accepts
        (unicode_isdigit unicode_isupper unicode_islower unicode_istitle
           : PyStr.char -> bool)
        (password : str) :
  let validate :=
    Credentials.validate_password unicode_isdigit unicode_isupper
                                  unicode_islower unicode_istitle in
  (exists v, validate (JStr password) = Ok v)
  /\ (validate (JStr password) = Ok Credentials.valid
      <-> 8 <= PyStr.len password
          /\ Exists (fun c => Credentials.isdigit unicode_isdigit c = true) password
          /\ Exists (fun c => Credentials.isupper unicode_isupper c = true) password
          /\ Exists (fun c => Credentials.islower unicode_islower c = true) password)
  /\ (validate (JStr password) = Ok Credentials.valid ->
      forall before after,
        validate (JStr (before ++ password ++ after)) = Ok Credentials.valid).
Proof.
  cbv zeta. split; [|split].
  - rewrite PasswordFacts.validate_password_str. eexists. reflexivity.
  - rewrite PasswordFacts.validate_password_accepts.
    rewrite !Exists_exists, !existsb_exists. reflexivity.
  - intros H before after.
    apply PasswordFacts.validate_password_accepts in H as (Hlen & Hd & Hu & Hl).
    apply PasswordFacts.validate_password_accepts.
    rewrite !existsb_app, Hd, Hu, Hl, !orb_true_r. simpl.
    split; [|now repeat split].
    unfold PyStr.len in *. rewrite !length_app. lia.
Qed.

(** ** The cases of the test suite for names, run on the model *)

Example test_interface_names :
  map (fun s => fst (Names.validate_interface_name (Some (PyStr.lit s))))
      ["wan1"; "wan2"; "lan"; "port1"; "port10"; "dmz"; "internal"; "ssl.root";
       "test-interface"; "test_interface"; "Interface123"; ""]%string
  = repeat true 12
  /\ Names.validate_interface_name (Some (PyStr.lit "wan@1"))
     = Names.invalid (Names.InvalidInterfaceName (PyStr.lit "wan@1"))
  /\ Names.validate_interface_name (Some (PyStr.lit "wan 1"))
     = Names.invalid (Names.InvalidInterfaceName (PyStr.lit "wan 1"))
  /\ Names.validate_interface_name (Some (repeat 97%N 35)) = Names.valid
  /\ Names.validate_interface_name (Some (repeat 97%N 36))
     = Names.invalid (Names.InterfaceNameTooLong (repeat 97%N 36)).
Proof. vm_compute. repeat split. Qed.

Example test_vdom_and_phase1_names :
  map (fun s => fst (Names.validate_vdom_name (Some (PyStr.lit s))))
      ["root"; "vdom1"; "customer-vdom"; "test_vdom"; "VDOM123"; "";
       "vdom.test"; "vdom@123"]%string
  = [true; true; true; true; true; true; false; false]
  /\ Names.validate_vdom_name (Some (repeat 97%N 31)) = Names.valid
  /\ Names.validate_vdom_name (Some (repeat 97%N 32))
     = Names.invalid (Names.VdomNameTooLong (repeat 97%N 32))
  /\ map (fun s => fst (Names.validate_phase1_name (Some (PyStr.lit s))))
         ["aws-vpn"; "azure_tunnel"; "site2site"; "VPN123"; "tunnel-1";
          "vpn.tunnel"; "vpn@123"]%string
     = [true; true; true; true; true; false; false]
  /\ Names.validate_phase1_name (Some (PyStr.lit ""))
     = Names.invalid Names.Phase1NameRequired
  /\ Names.validate_phase1_name None = Names.invalid Names.Phase1NameRequired
  /\ Names.validate_phase1_name (Some (repeat 97%N 36))
     = Names.invalid (Names.Phase1NameTooLong (repeat 97%N 36)).
Proof. vm_compute. repeat split. Qed.

Example test_policy_names :
  map (fun s => Names.validate_policy_name (Some (PyStr.lit s)))
      ["Allow-Internal-to-DMZ"; "Block Malicious Traffic"; "Policy #123";
       "VPN-Access"; ""]%string
  = repeat Names.valid 5
  /\ Names.validate_policy_name (Some (repeat 97%N 255)) = Names.valid
  /\ Names.validate_policy_name (Some (repeat 97%N 256))
     = Names.invalid (Names.PolicyNameTooLong (repeat 97%N 256)).
Proof. vm_compute. repeat split. Qed.

Example email_and_password_samples :
  map (fun s => fst (Credentials.validate_email (PyStr.lit s)))
      ["test_1@test.com"; "a.b+c@d-e.f.gh"; "a@b.c"; "a@b"; "@b.co"; "a@@b.co";
       "a b@c.de"; "a@b.co1"]%string
  = [true; true; false; false; false; false; false; false]
  /\ Credentials.validate_email (PyStr.lit "a@b.co" ++ [10%N]) = Credentials.valid
  /\ map (fun s => Credentials.validate_password
                     (fun _ => false) (fun _ => false) (fun _ => false)
                     (fun _ => false) (JStr (PyStr.lit s)))
         ["TestPass123"; "short1A"; "alllowercase1"; "ALLUPPER1234";
          "NoDigitsHere"]%string
     = [Ok Credentials.valid;
        Ok (Credentials.invalid Credentials.PasswordTooShort);
        Ok (Credentials.invalid Credentials.PasswordNeedsUppercase);
        Ok (Credentials.invalid Credentials.PasswordNeedsLowercase);
        Ok (Credentials.invalid Credentials.PasswordNeedsNumber)]
  /\ Credentials.validate_password
       (fun _ => false) (fun _ => false) (fun _ => false) (fun _ => false)
       (JNum 12345678) = Raise TypeError
  /\ Credentials.validate_password
       (fun _ => false) (fun _ => false) (fun _ => false) (fun _ => false)
       (JArr (map (fun s => JStr (PyStr.lit s))
                  ["12"; "AB"; "cd"; "x"; "x"; "x"; "x"; "x"]%string))
     = Ok Credentials.valid.
Proof. vm_compute. repeat split. Qed.

Module UsersFacts.

Import Http Auth.

Lemma email_has_at (email : str) :
  Credentials.validate_email email = Credentials.valid -> In 64%N email.
Proof.
  intros H.
  assert (Hm : Re.re_match Credentials.email_regex email = true).
  { unfold Credentials.validate_email in H.
    destruct (Re.re_match Credentials.email_regex email);
      [reflexivity|discriminate H]. }
  apply CredentialsFacts.email_regex_matches in Hm
    as (local & domain & tld & [->| ->] & _);
    apply in_or_app; right; now left.
Qed.

Lemma username_has_no_at unicode_alnum (username : str) :
  Validators.validate_username unicode_alnum username = Validators.valid ->
  ~ In 64%N username.
Proof.
  intros H Hin.
  apply (ValidatorsCases.validate_username_accepts Validators.ascii_decimal) in H
    as (_ & Hall & _).
  destruct (proj1 (Forall_forall _ _) Hall _ Hin) as [E|[E|E]];
    vm_compute in E; discriminate E.
Qed.

Section Library.

Variable lib : library.
Variable bind_text : json -> option (option str).
Variable bind_bool : json -> option bool.

(** What holds of the users table in every store the application
    reaches. *)
Lemma users_invariant st :
  reachable lib bind_text bind_bool st ->
  unique_columns (users st)
  /\ forall u, In u (users st) ->
       User.is_active u = true
       /\ User.is_admin u = false
       /\ Validators.validate_username (unicode_alnum lib) (User.username u)
          = Validators.valid
       /\ Credentials.validate_email (User.email u) = Credentials.valid.
Proof.
  induction 1 as [|st r req _ [(Hid & Hname & Hmail) Hall]].
  { split; [repeat split; constructor|]. intros u []. }
  destruct (AuthFacts.serve_users lib bind_text bind_bool r req st)
    as [->|(username & email & h & Hn & He & Hfree & ->)].
  { split; [now repeat split|exact Hall]. }
  split.
  - unfold unique_columns. rewrite !map_app. simpl.
    split; [|split]; apply ConsistencyFacts.NoDup_snoc; try assumption.
    + intros Hin. pose proof (DbFacts.next_id_fresh _ _ Hin). lia.
    + intros Hin. apply in_map_iff in Hin as (u & Hu & Hin).
      now destruct (Hfree u Hin).
    + intros Hin. apply in_map_iff in Hin as (u & Hu & Hin).
      now destruct (Hfree u Hin).
  - intros u Hin. apply in_app_or in Hin as [Hin|[<-|[]]]; [now apply Hall|].
    simpl. now repeat split.
Qed.

End Library.

End UsersFacts.

(** ** Users *)

(** X24: the users table.  In every store the application reaches, the
    ids, the usernames and the e-mail addresses of the users are pairwise
    distinct; every username passes [validate_username] and every address
    [validate_email], so that no username is the address of any user (an
    address holds an [@], a username none). *)
Theorem X24_users_unique_and_validated
        (lib : Auth.library)
        (bind_text : json -> option (option str)) (bind_bool : json -> option bool)
        (st : Auth.store) :
  Auth.reachable lib bind_text bind_bool st ->
  Auth.unique_columns (Auth.users st)
  /\ (forall u, In u (Auth.users st) ->
        Validators.validate_username (Auth.unicode_alnum lib) (User.username u)
        = Validators.valid
        /\ Credentials.validate_email (User.email u) = Credentials.valid)
  /\ (forall u v, In u (Auth.users st) -> In v (Auth.users st) ->
        User.username u <> User.email v).
Proof.
  intros Hreach.
  destruct (UsersFacts.users_invariant Hreach) as [Huniq Hall].
  split; [exact Huniq|]. split.
  - intros u Hin. now destruct (Hall u Hin) as (_ & _ & Hn & He).
  - intros u v Hu Hv Heq.
    destruct (Hall u Hu) as (_ & _ & Hn & _).
    destruct (Hall v Hv) as (_ & _ & _ & He).
    apply (UsersFacts.username_has_no_at _ _ Hn).
    rewrite Heq. now apply UsersFacts.email_has_at.
Qed.

(** X25: no administrator through the API.  In every store the
    application reaches, every user is active and none is an
    administrator, whatever the registration bodies held; a view guarded
    by [admin_required] is therefore never run: a request with a valid
    token is answered 403 "Admin privileges required", one without is
    answered 401, and the store is left as it was. *)
Theorem X25_no_administrator_through_the_api
        (lib : Auth.library)
        (bind_text : json -> option (option str)) (bind_bool : json -> option bool)
        (st : Auth.store) :
  Auth.reachable lib bind_text bind_bool st ->
  (forall u, In u (Auth.users st) ->
     User.is_active u = true /\ User.is_admin u = false)
  /\ (forall fn req,
        snd (Auth.handle (Auth.admin_required fn) req st) = st
        /\ match Http.jwt_identity req with
           | Some _ =>
               fst (Auth.handle (Auth.admin_required fn) req st)
               = Auth.admin_forbidden
           | None =>
               Auth.status_code (fst (Auth.handle (Auth.admin_required fn) req st))
               = 401
           end).
Proof.
  intros Hreach.
  destruct (UsersFacts.users_invariant Hreach) as [_ Hall].
  split.
  - intros u Hin. now destruct (Hall u Hin) as (Ha & Hb & _).
  - intros fn req. unfold Auth.handle, Auth.admin_required, Auth.jwt_required.
    destruct (Http.jwt_identity req) as [user_id|];
      [|destruct (Http.jwt_error req); now split].
    unfold Auth.get_user.
    destruct (find (fun u => User.id u =? user_id) (Auth.users st)) as [u|] eqn:E;
      [|now split].
    apply find_some in E as [Hin _].
    destruct (Hall u Hin) as (_ & Hadmin & _). rewrite Hadmin. now split.
Qed.

(** X24 at a concrete input: the store after Carol's registration. *)
Lemma X24_witness : Auth.unique_columns (Auth.users AuthSamples.st_carol).
Proof.
  exact (proj1 (@X24_users_unique_and_validated
                  Auth.sample_library Routes.strict_text Routes.strict_bool
                  AuthSamples.st_carol
                  (Auth.reachable_step (Auth.POST_register 7)
                     (AuthSamples.anonymous AuthSamples.register_carol 100)
                     (Auth.reachable_empty Auth.sample_library
                        Routes.strict_text Routes.strict_bool)))).
Defined.

(** X25 at a concrete input: Carol asked for administrator rights when
    she registered; a guarded view answers her 403. *)
Lemma X25_witness :
  fst (Auth.handle (Auth.admin_required Auth.logout)
                   (Samples.request_of 1 JNull 200) AuthSamples.st_carol)
  = Auth.admin_forbidden.
Proof.
  exact (proj2 (proj2 (@X25_no_administrator_through_the_api
                         Auth.sample_library Routes.strict_text Routes.strict_bool
                         AuthSamples.st_carol
                         (Auth.reachable_step (Auth.POST_register 7)
                            (AuthSamples.anonymous AuthSamples.register_carol 100)
                            (Auth.reachable_empty Auth.sample_library
                               Routes.strict_text Routes.strict_bool)))
                      Auth.logout (Samples.request_of 1 JNull 200))).
Defined.

(** ** Registration and login *)

Module SessionFacts.

Import Http Auth.

Lemma truthy_str (s : str) : s <> [] -> truthy (JStr s) = true.
Proof. destruct s; [now intros H; elim H|reflexivity]. Qed.

Lemma validate_password_verdict d u l t password v :
  Credentials.validate_password d u l t password = Ok v ->
  v = Credentials.valid \/ fst v = false.
Proof.
  unfold Credentials.validate_password. intros H.
  RoutesFacts.inv_ok H; inversion H; subst; auto.
Qed.

Section Library.

Variable lib : library.

(** The registration past its field checks: on a body that holds a
    non-empty string under each required key, the view validates the
    three values and looks for a user with the username or the
    address. *)
Lemma register_run entropy req st m u0 e0 password :
  get_json req = JObj m ->
  assoc (lit "username") m = Some (JStr u0) -> u0 <> [] ->
  assoc (lit "email") m = Some (JStr e0) -> e0 <> [] ->
  assoc (lit "password") m = Some password -> truthy password = true ->
  Validators.validate_username (unicode_alnum lib) (PyStr.strip u0)
  = Validators.valid ->
  Credentials.validate_email (lower lib (PyStr.strip e0)) = Credentials.valid ->
  Credentials.validate_password
    (unicode_isdigit lib) (unicode_isupper lib) (unicode_islower lib)
    (unicode_istitle lib) password = Ok Credentials.valid ->
  register lib entropy req st
  = match first lib (filter (fun x => PyStr.eqb (User.username x) (PyStr.strip u0)
                                      || PyStr.eqb (User.email x)
                                                   (lower lib (PyStr.strip e0)))
                            (users st)) with
    | Some existing =>
        if PyStr.eqb (User.username existing) (PyStr.strip u0) then
          Ok (error_response (lit "Username already exists") [] 409, st)
        else
          Ok (error_response (lit "Email already exists") [] 409, st)
    | None =>
        (password_hash <- generate_password_hash lib password entropy ;;
         let user :=
           User.mk (Db.next_id (map User.id (users st)))
                   (PyStr.strip u0) (lower lib (PyStr.strip e0))
                   password_hash true false (now req) (now req) in
         rows <- add_user (users st) user ;;
         Ok (success_response
               (Some (UserData (User.to_dict user true)))
               (Some (lit "User registered successfully")) 201,
             log req (mk_store rows (db st)) (User.id user)
                 (lit "register") (lit "user") (Some (User.id user)) JNull))%py
    end.
Proof.
  intros Hbody Hu Hu0 He He0 Hp Hp0 Vu Ve Vp.
  unfold register. rewrite Hbody.
  assert (Hm : truthy (JObj m) = true) by (destruct m; [discriminate|reflexivity]).
  rewrite Hm. cbn [negb missing required_fields].
  unfold py_get. rewrite Hu, He, Hp. cbn [Py.bind].
  rewrite (truthy_str Hu0), (truthy_str He0), Hp0.
  cbn [negb Py.bind py_strip]. rewrite Vu, Ve, Vp.
  cbn [Py.bind]. unfold Validators.valid, Credentials.valid. cbn [app].
  reflexivity.
Qed.

(** The login past its field checks. *)
Lemma login_run entropy req st m i0 password :
  get_json req = JObj m ->
  assoc (lit "username") m = Some (JStr i0) -> PyStr.strip i0 <> [] ->
  assoc (lit "password") m = Some password -> truthy password = true ->
  login lib entropy req st
  = match first lib (filter (fun x => PyStr.eqb (User.username x) (PyStr.strip i0)
                                      || PyStr.eqb (User.email x)
                                                   (lower lib (PyStr.strip i0)))
                            (users st)) with
    | None => Ok (error_response (lit "Invalid username or password") [] 401, st)
    | Some user =>
        (password_ok <- check_password_hash lib (User.password_hash user) password ;;
         if negb password_ok then
           Ok (error_response (lit "Invalid username or password") [] 401,
               log req st (User.id user) (lit "login_failed") (lit "user")
                   (Some (User.id user))
                   (JObj [(lit "reason", JStr (lit "invalid_password"))]))
         else if negb (User.is_active user) then
           Ok (error_response (lit "Account is inactive") [] 401, st)
         else
           Ok (success_response
                 (Some (LoginData (User.to_dict user true)
                                  (create_access_token lib (User.id user) entropy)
                                  (create_refresh_token lib (User.id user) entropy)))
                 (Some (lit "Login successful")) 200,
               log req st (User.id user) (lit "login") (lit "user")
                   (Some (User.id user)) JNull))%py
    end.
Proof.
  intros Hbody Hi Hi0 Hp Hp0.
  unfold login. rewrite Hbody.
  assert (Hm : truthy (JObj m) = true) by (destruct m; [discriminate|reflexivity]).
  rewrite Hm. cbn [negb]. unfold py_get. rewrite Hi, Hp.
  cbn [Py.bind py_strip]. rewrite Hp0.
  assert (PyStr.nonempty (PyStr.strip i0) = true) as ->
    by (destruct (PyStr.strip i0); [now elim Hi0|reflexivity]).
  reflexivity.
Qed.

(** The query of the two views finds no row exactly when no user has
    the username or the address. *)
Lemma lookup_none (rows : list User.t) (name address : str) :
  filter (fun x => PyStr.eqb (User.username x) name
                   || PyStr.eqb (User.email x) address) rows = []
  <-> forall x, In x rows -> User.username x <> name /\ User.email x <> address.
Proof.
  split.
  - intros H x Hin.
    assert (Hf : PyStr.eqb (User.username x) name
                 || PyStr.eqb (User.email x) address = false).
    { destruct (PyStr.eqb (User.username x) name
                || PyStr.eqb (User.email x) address) eqn:E; [|reflexivity].
      assert (Hin' : In x (filter (fun x => PyStr.eqb (User.username x) name
                                            || PyStr.eqb (User.email x) address)
                                  rows))
        by (apply filter_In; now split).
      rewrite H in Hin'. destruct Hin'. }
    apply orb_false_iff in Hf as [H1 H2].
    split; intros Heq; [rewrite Heq, PyStrFacts.eqb_refl in H1
                       |rewrite Heq, PyStrFacts.eqb_refl in H2]; discriminate.
  - intros H. apply ConsistencyFacts.filter_none. intros x Hin.
    destruct (H x Hin) as [H1 H2]. apply orb_false_iff.
    split.
    + destruct (PyStr.eqb (User.username x) name) eqn:E; [|reflexivity].
      apply PyStrFacts.eqb_eq in E. now elim H1.
    + destruct (PyStr.eqb (User.email x) address) eqn:E; [|reflexivity].
      apply PyStrFacts.eqb_eq in E. now elim H2.
Qed.

(** An insertion the query found no objection to passes the UNIQUE
    constraints. *)
Lemma add_user_free (rows : list User.t) (u : User.t) :
  (forall x, In x rows ->
     User.username x <> User.username u /\ User.email x <> User.email u) ->
  add_user rows u = Ok (rows ++ [u]).
Proof.
  intros H. unfold add_user.
  destruct (existsb _ rows) eqn:E; [|reflexivity].
  apply existsb_exists in E as (x & Hin & Hx).
  destruct (H x Hin) as [H1 H2].
  apply orb_true_iff in Hx as [Hx|Hx]; apply PyStrFacts.eqb_eq in Hx;
    [now elim H1|now elim H2].
Qed.

(** A filter that keeps one row of a duplicate-free list. *)
Lemma filter_single {A} (p : A -> bool) (l : list A) (x : A) :
  NoDup l -> In x l -> p x = true ->
  (forall y, In y l -> p y = true -> y = x) ->
  filter p l = [x].
Proof.
  induction l as [|a r IH]; intros Hnd Hin Hp Hall; [destruct Hin|].
  inversion Hnd as [|? ? Ha Hr]; subst. simpl.
  destruct Hin as [->|Hin].
  - rewrite Hp. f_equal. apply ConsistencyFacts.filter_none.
    intros y Hy. destruct (p y) eqn:E; [|reflexivity].
    elim Ha. rewrite <- (Hall y (or_intror Hy) E). exact Hy.
  - destruct (p a) eqn:E.
    + elim Ha. rewrite (Hall a (or_introl eq_refl) E). exact Hin.
    + apply IH; auto. intros y Hy. apply Hall. now right.
Qed.

End Library.

End SessionFacts.

Module LoginFacts.

Import Http Auth.

(** Rows of a table are told apart by a column declared unique. *)
Lemma same_key_same_row {R K} (column : R -> K) (rows : list R) (a b : R) :
  NoDup (map column rows) -> In a rows -> In b rows ->
  column a = column b -> a = b.
Proof.
  induction rows as [|r rest IH]; intros Hnd Ha Hb Heq; [destruct Ha|].
  simpl in Hnd. inversion Hnd as [|? ? Hr Hrest]; subst.
  destruct Ha as [->|Ha], Hb as [->|Hb]; auto.
  - elim Hr. rewrite Heq. now apply in_map.
  - elim Hr. rewrite <- Heq. now apply in_map.
Qed.

Section Library.

Variable lib : library.
Variable bind_text : json -> option (option str).
Variable bind_bool : json -> option bool.

(** Lowering a string brings no [@] that was not there. *)
Hypothesis lower_keeps_at :
  forall s, In 64%N (unicode_lower lib s) -> In 64%N s.

Lemma lower_at (s : str) : In 64%N (lower lib s) -> In 64%N s.
Proof.
  unfold lower.
  destruct (forallb (fun c => (c <? 128)%N) s); [|apply lower_keeps_at].
  intros H. apply in_map_iff in H as (c & Hc & Hin).
  destruct ((65 <=? c)%N && (c <=? 90)%N) eqn:E.
  - apply andb_true_iff in E as [E1 E2].
    apply N.leb_le in E1, E2. lia.
  - now subst c.
Qed.

(** In a store the application reaches, the query of a login returns
    the one user that has the identifier as username or, lowered, as
    address. *)
Lemma lookup_found st (ident : str) (x : User.t) :
  reachable lib bind_text bind_bool st ->
  In x (users st) ->
  User.username x = ident \/ User.email x = lower lib ident ->
  first lib (filter (fun y => PyStr.eqb (User.username y) ident
                              || PyStr.eqb (User.email y) (lower lib ident))
                    (users st))
  = Some x.
Proof.
  intros Hreach Hin Hmatch.
  destruct (UsersFacts.users_invariant Hreach) as [(Hid & Hname & Hmail) Hall].
  rewrite (@SessionFacts.filter_single _ _ (users st) x).
  - apply AuthFacts.first_single.
  - exact (NoDup_map_inv _ _ Hid).
  - exact Hin.
  - apply orb_true_iff.
    destruct Hmatch as [<-| <-]; [left|right]; apply PyStrFacts.eqb_refl.
  - intros y Hy Hp.
    destruct (Hall x Hin) as (_ & _ & Hxn & Hxe).
    destruct (Hall y Hy) as (_ & _ & Hyn & Hye).
    apply orb_true_iff in Hp as [Hp|Hp]; apply PyStrFacts.eqb_eq in Hp.
    + destruct Hmatch as [Hx|Hx].
      * apply (same_key_same_row User.username (users st)); auto. congruence.
      * exfalso. apply (UsersFacts.username_has_no_at _ _ Hyn).
        rewrite Hp. apply lower_at. rewrite <- Hx.
        now apply UsersFacts.email_has_at.
    + destruct Hmatch as [Hx|Hx].
      * exfalso. apply (UsersFacts.username_has_no_at _ _ Hxn).
        rewrite Hx. apply lower_at. rewrite <- Hp.
        now apply UsersFacts.email_has_at.
      * apply (same_key_same_row User.email (users st)); auto. congruence.
Qed.

End Library.

End LoginFacts.

(** X26: what a registration answers.  For a body that holds a non-empty
    string username and address and a password, the three passing their
    validators (the username trimmed, the address trimmed and lowered):
    if no user has the username or the address and the password is
    hashed, the answer is 201, the user is appended under the next id
    with these values, active and no administrator, one "register" entry
    is logged, and the UNIQUE constraints of the table are never
    violated; if some user has the username (and whoever has the address
    has it too) the answer is 409 "Username already exists"; if no user
    has the username but one has the address, 409 "Email already exists";
    whenever a user has one of the two, the answer is 409 and nothing
    changes. *)
Theorem X26_register_outcomes
        (lib : Auth.library) (entropy : N) (req : Http.request) (st : Auth.store)
        (m : list (str * json)) (u0 e0 : str) (password : json) :
  Http.get_json req = JObj m ->
  assoc (PyStr.lit "username") m = Some (JStr u0) -> u0 <> [] ->
  assoc (PyStr.lit "email") m = Some (JStr e0) -> e0 <> [] ->
  assoc (PyStr.lit "password") m = Some password -> truthy password = true ->
  Validators.validate_username (Auth.unicode_alnum lib) (PyStr.strip u0)
  = Validators.valid ->
  Credentials.validate_email (Auth.lower lib (PyStr.strip e0)) = Credentials.valid ->
  Credentials.validate_password
    (Auth.unicode_isdigit lib) (Auth.unicode_isupper lib)
    (Auth.unicode_islower lib) (Auth.unicode_istitle lib) password
  = Ok Credentials.valid ->
  let username := PyStr.strip u0 in
  let email := Auth.lower lib (PyStr.strip e0) in
  let answer := Auth.handle (Auth.register lib entropy) req st in
  (forall password_hash,
     (forall x, In x (Auth.users st) ->
        User.username x <> username /\ User.email x <> email) ->
     Auth.generate_password_hash lib password entropy = Ok password_hash ->
     let user :=
       User.mk (Db.next_id (map User.id (Auth.users st))) username email
               password_hash true false (Http.now req) (Http.now req) in
     answer
     = (Auth.success_response
          (Some (Auth.UserData (User.to_dict user true)))
          (Some (PyStr.lit "User registered successfully")) 201,
        Auth.log req (Auth.mk_store (Auth.users st ++ [user]) (Auth.db st))
                 (User.id user) (PyStr.lit "register") (PyStr.lit "user")
                 (Some (User.id user)) JNull))
  /\ ((exists x, In x (Auth.users st) /\ User.username x = username) ->
      (forall x, In x (Auth.users st) -> User.email x = email ->
                 User.username x = username) ->
      answer
      = (Auth.error_response (PyStr.lit "Username already exists") [] 409, st))
  /\ ((forall x, In x (Auth.users st) -> User.username x <> username) ->
      (exists x, In x (Auth.users st) /\ User.email x = email) ->
      answer
      = (Auth.error_response (PyStr.lit "Email already exists") [] 409, st))
  /\ ((exists x, In x (Auth.users st)
                 /\ (User.username x = username \/ User.email x = email)) ->
      Auth.status_code (fst answer) = 409 /\ snd answer = st).
Proof.
  intros Hbody Hu Hu0 He He0 Hp Hp0 Vu Ve Vp username email answer.
  subst answer. unfold Auth.handle.
  rewrite (@SessionFacts.register_run lib entropy req st m u0 e0 password
             Hbody Hu Hu0 He He0 Hp Hp0 Vu Ve Vp).
  fold username. fold email.
  set (found := filter (fun x => PyStr.eqb (User.username x) username
                                 || PyStr.eqb (User.email x) email)
                       (Auth.users st)).
  assert (Hfound : forall x, Auth.first lib found = Some x ->
                             In x (Auth.users st)
                             /\ (User.username x = username
                                 \/ User.email x = email)).
  { intros x Hx. apply AuthFacts.first_In in Hx. unfold found in Hx.
    apply filter_In in Hx as [Hin Hx]. split; [exact Hin|].
    apply orb_true_iff in Hx as [Hx|Hx]; apply PyStrFacts.eqb_eq in Hx; auto. }
  assert (Hsome : (exists x, In x (Auth.users st)
                             /\ (User.username x = username
                                 \/ User.email x = email)) ->
                  exists x, Auth.first lib found = Some x).
  { intros (x & Hin & Hx).
    destruct (Auth.first lib found) as [y|] eqn:E; [now exists y|].
    apply AuthFacts.first_None in E. unfold found in E.
    destruct (proj1 (SessionFacts.lookup_none _ _ _) E x Hin) as [H1 H2].
    destruct Hx; contradiction. }
  split; [|split; [|split]].
  - intros h Hfree Hhash. cbv zeta.
    replace (Auth.first lib found) with (@None User.t).
    2:{ symmetry. apply AuthFacts.first_None.
        now apply SessionFacts.lookup_none. }
    rewrite Hhash. cbn [Py.bind].
    rewrite SessionFacts.add_user_free by exact Hfree.
    reflexivity.
  - intros (x & Hin & Hx) Hmail.
    destruct (Hsome (ex_intro _ x (conj Hin (or_introl Hx)))) as [y Hy].
    rewrite Hy. destruct (Hfound y Hy) as [Hyin [Hyn|Hye]].
    + now rewrite Hyn, PyStrFacts.eqb_refl.
    + now rewrite (Hmail y Hyin Hye), PyStrFacts.eqb_refl.
  - intros Hname (x & Hin & Hx).
    destruct (Hsome (ex_intro _ x (conj Hin (or_intror Hx)))) as [y Hy].
    rewrite Hy. destruct (Hfound y Hy) as [Hyin _].
    destruct (PyStr.eqb (User.username y) username) eqn:E; [|reflexivity].
    apply PyStrFacts.eqb_eq in E. now elim (Hname y Hyin).
  - intros Hclash. destruct (Hsome Hclash) as [y Hy]. rewrite Hy.
    now destruct (PyStr.eqb (User.username y) username).
Qed.

(** X26 at a concrete input: a second registration under Carol's
    username, with another address. *)
Lemma X26_witness :
  Auth.handle (Auth.register Auth.sample_library 8)
              (AuthSamples.anonymous
                 (JObj [(PyStr.lit "username", JStr (PyStr.lit "carol_1"));
                        (PyStr.lit "email", JStr (PyStr.lit "c2@example.com"));
                        (PyStr.lit "password", JStr (PyStr.lit "OtherPass9"))])
                 200)
              AuthSamples.st_carol
  = (Auth.error_response (PyStr.lit "Username already exists") [] 409,
     AuthSamples.st_carol).
Proof.
  refine (proj1 (proj2
            (@X26_register_outcomes
               Auth.sample_library 8
               (AuthSamples.anonymous
                  (JObj [(PyStr.lit "username", JStr (PyStr.lit "carol_1"));
                         (PyStr.lit "email", JStr (PyStr.lit "c2@example.com"));
                         (PyStr.lit "password", JStr (PyStr.lit "OtherPass9"))])
                  200)
               AuthSamples.st_carol
               [(PyStr.lit "username", JStr (PyStr.lit "carol_1"));
                (PyStr.lit "email", JStr (PyStr.lit "c2@example.com"));
                (PyStr.lit "password", JStr (PyStr.lit "OtherPass9"))]
               (PyStr.lit "carol_1") (PyStr.lit "c2@example.com")
               (JStr (PyStr.lit "OtherPass9"))
               eq_refl eq_refl _ eq_refl _ eq_refl eq_refl eq_refl eq_refl eq_refl))
            _ _).
  - discriminate.
  - discriminate.
  - eexists. split; [left; reflexivity|reflexivity].
  - intros x [<-|[]]. vm_compute. discriminate.
Defined.



Module RegisteredFacts.

Import Http Auth RoutesFacts.

Section Library.

Variable lib : library.

(** A registration answered 201, read off its body. *)
Lemma register_created salt req st m u0 e0 password :
  get_json req = JObj m ->
  assoc (lit "username") m = Some (JStr u0) ->
  assoc (lit "email") m = Some (JStr e0) ->
  assoc (lit "password") m = Some password ->
  status_code (fst (handle (register lib salt) req st)) = 201 ->
  exists password_hash,
    generate_password_hash lib password salt = Ok password_hash
    /\ truthy password = true
    /\ Validators.validate_username (unicode_alnum lib) (PyStr.strip u0)
       = Validators.valid
    /\ Credentials.validate_email (lower lib (PyStr.strip e0)) = Credentials.valid
    /\ snd (handle (register lib salt) req st)
       = log req
           (mk_store (users st
                      ++ [User.mk (Db.next_id (map User.id (users st)))
                                  (PyStr.strip u0) (lower lib (PyStr.strip e0))
                                  password_hash true false (now req) (now req)])
                     (db st))
           (Db.next_id (map User.id (users st)))
           (lit "register") (lit "user")
           (Some (Db.next_id (map User.id (users st)))) JNull.
Proof.
  intros Hbody Hu He Hp. unfold handle.
  destruct (register lib salt req st) as [[resp st']|e] eqn:H.
  2:{ destruct e; discriminate. }
  unfold register in H. rewrite Hbody in H.
  cbn [missing required_fields] in H. unfold py_get in H.
  rewrite Hu, He, Hp in H.
  inv_ok H.
  all: try (inversion H; subst; clear H; discriminate).
  inversion H; subst; clear H. intros _.
  lazymatch goal with
  | Hmiss : _ = @nil str,
    Hname : Validators.validate_username _ _ = (?b, _),
    Hmail : Credentials.validate_email _ = (?b0, _),
    Herr : (if ?b then _ else _) ++ (if ?b0 then _ else _) ++ _ = [],
    Hhash : generate_password_hash lib _ _ = Ok ?h,
    Hadd : add_user _ _ = Ok _ |- _ =>
      exists h;
      assert (Hb : b = true) by (destruct b; [reflexivity|discriminate Herr]);
      subst b;
      assert (Hb0 : b0 = true) by (destruct b0; [reflexivity|discriminate Herr]);
      subst b0;
      unfold add_user in Hadd;
      match type of Hadd with
      | (if ?c then _ else _) = _ => destruct c; [discriminate Hadd|]
      end;
      inversion Hadd; subst; clear Hadd;
      split; [exact Hhash|];
      split; [destruct (truthy password) eqn:T; [reflexivity|];
              rewrite ?T in Hmiss; cbn [negb] in Hmiss;
              repeat match type of Hmiss with
                     | (if ?c then _ else _) = _ => destruct c
                     end; discriminate Hmiss|];
      split; [unfold Validators.validate_username, Validators.invalid in *;
              repeat match type of Hname with
                     | (if ?c then _ else _) = _ =>
                         destruct c; try discriminate Hname
                     end;
              first [reflexivity
                    |unfold Validators.valid in *; now inversion Hname]|];
      split; [unfold Credentials.validate_email, Credentials.invalid in *;
              destruct (negb (Re.re_match Credentials.email_regex _));
              [discriminate Hmail
              |first [reflexivity
                     |unfold Credentials.valid in *; now inversion Hmail]]
             |reflexivity]
  end.
Qed.

End Library.

End RegisteredFacts.

(** X28: who registered can log in.  Given a library whose check accepts
    the hash it made of a password, in a store the application reaches:
    after a registration answered 201 for a body with string username,
    address and password, a login that gives the same username (blanks
    around it or not) or the same address (in any letter case of ASCII)
    with the same password is answered 200 with the new user's dictionary
    and tokens issued for the id of the user just created. *)
Theorem X28_register_then_login
        (lib : Auth.library)
        (bind_text : json -> option (option str)) (bind_bool : json -> option bool)
        (salt entropy : N) (req req' : Http.request) (st : Auth.store)
        (m m' : list (str * json)) (u0 e0 p i0 : str) :
  (forall s, In 64%N (Auth.unicode_lower lib s) -> In 64%N s) ->
  (forall password s h,
     Auth.generate_password_hash lib (JStr password) s = Ok h ->
     Auth.check_password_hash lib h (JStr password) = Ok true) ->
  Auth.reachable lib bind_text bind_bool st ->
  Http.get_json req = JObj m ->
  assoc (PyStr.lit "username") m = Some (JStr u0) ->
  assoc (PyStr.lit "email") m = Some (JStr e0) ->
  assoc (PyStr.lit "password") m = Some (JStr p) ->
  Auth.status_code (fst (Auth.handle (Auth.register lib salt) req st)) = 201 ->
  Http.get_json req' = JObj m' ->
  assoc (PyStr.lit "username") m' = Some (JStr i0) ->
  assoc (PyStr.lit "password") m' = Some (JStr p) ->
  PyStr.strip i0 = PyStr.strip u0
  \/ Auth.lower lib (PyStr.strip i0) = Auth.lower lib (PyStr.strip e0) ->
  let st' := snd (Auth.handle (Auth.register lib salt) req st) in
  let user_id := Db.next_id (map User.id (Auth.users st)) in
  exists user,
    Auth.get_user st' user_id = Some user
    /\ User.username user = PyStr.strip u0
    /\ User.email user = Auth.lower lib (PyStr.strip e0)
    /\ fst (Auth.handle (Auth.login lib entropy) req' st')
       = Auth.success_response
           (Some (Auth.LoginData
                    (User.to_dict user true)
                    (Auth.create_access_token lib user_id entropy)
                    (Auth.create_refresh_token lib user_id entropy)))
           (Some (PyStr.lit "Login successful")) 200.
Proof.
  intros Hlower Hhash Hreach Hbody Hu He Hp H201 Hbody' Hi Hp' Hsame st' user_id.
  assert (Hreach' : Auth.reachable lib bind_text bind_bool st')
    by exact (Auth.reachable_step (Auth.POST_register salt) req Hreach).
  destruct (RegisteredFacts.register_created lib salt req st Hbody Hu He Hp H201)
    as (h & Hgen & Htruthy & Vu & Ve & Hst').
  fold st' in Hst'.
  set (user := User.mk user_id (PyStr.strip u0) (Auth.lower lib (PyStr.strip e0))
                       h true false (Http.now req) (Http.now req)).
  assert (Husers : Auth.users st' = Auth.users st ++ [user])
    by (rewrite Hst'; reflexivity).
  assert (Hin : In user (Auth.users st'))
    by (rewrite Husers; apply in_or_app; right; now left).
  exists user. split; [|split; [reflexivity|split; [reflexivity|]]].
  { unfold Auth.get_user. rewrite Husers, InsertFacts.find_app_missing.
    - simpl. now rewrite Z.eqb_refl.
    - intros x Hx. apply Z.eqb_neq. intros E.
      pose proof (DbFacts.next_id_fresh _ _ (in_map User.id _ _ Hx)).
      unfold user_id in E. lia. }
  assert (Hi0 : PyStr.strip i0 <> []).
  { intros E. destruct Hsame as [Hs|Hs]; rewrite E in Hs.
    - rewrite <- Hs in Vu. vm_compute in Vu. discriminate Vu.
    - rewrite <- Hs in Ve. vm_compute in Ve. discriminate Ve. }
  unfold Auth.handle.
  rewrite (@SessionFacts.login_run lib entropy req' st' m' i0 (JStr p)
             Hbody' Hi Hi0 Hp' Htruthy).
  rewrite (@LoginFacts.lookup_found lib bind_text bind_bool Hlower st'
             (PyStr.strip i0) user Hreach' Hin).
  2:{ destruct Hsame as [Hs|Hs]; [left|right]; now rewrite Hs. }
  cbn [User.password_hash user]. rewrite (Hhash p salt h Hgen).
  reflexivity.
Qed.

(** X28 at a concrete input: Carol logs in with her address in capitals. *)
Lemma X28_witness :
  Auth.status_code
    (fst (Auth.handle (Auth.login Auth.sample_library 9)
            (AuthSamples.anonymous
               (JObj [(PyStr.lit "username", JStr (PyStr.lit "CAROL@EXAMPLE.COM"));
                      (PyStr.lit "password", JStr (PyStr.lit "TestPass123"))]) 200)
            AuthSamples.st_carol))
  = 200.
Proof.
  destruct (@X28_register_then_login
              Auth.sample_library Routes.strict_text Routes.strict_bool 7 9
              (AuthSamples.anonymous AuthSamples.register_carol 100)
              (AuthSamples.anonymous
                 (JObj [(PyStr.lit "username",
                         JStr (PyStr.lit "CAROL@EXAMPLE.COM"));
                        (PyStr.lit "password", JStr (PyStr.lit "TestPass123"))])
                 200)
              Auth.empty
              [(PyStr.lit "username", JStr (PyStr.lit " carol_1 "));
               (PyStr.lit "email", JStr (PyStr.lit "Carol@Example.com"));
               (PyStr.lit "password", JStr (PyStr.lit "TestPass123"));
               (PyStr.lit "is_admin", JBool true)]
              [(PyStr.lit "username", JStr (PyStr.lit "CAROL@EXAMPLE.COM"));
               (PyStr.lit "password", JStr (PyStr.lit "TestPass123"))]
              (PyStr.lit " carol_1 ") (PyStr.lit "Carol@Example.com")
              (PyStr.lit "TestPass123") (PyStr.lit "CAROL@EXAMPLE.COM")
              (fun s H => H))
    as (user & _ & _ & _ & H).
  - intros password s h Hgen. simpl in Hgen. inversion Hgen; subst h.
    simpl Auth.check_password_hash. f_equal. apply PyStrFacts.eqb_refl.
  - apply Auth.reachable_empty.
  - reflexivity.
  - reflexivity.
  - reflexivity.
  - reflexivity.
  - reflexivity.
  - reflexivity.
  - reflexivity.
  - reflexivity.
  - right. reflexivity.
  - exact (f_equal Auth.status_code H).
Defined.

(** X29: the field checks of a registration.  For a non-empty JSON object
    as body: if some of 'username', 'email', 'password' are absent or
    falsy, the answer is 400 "Missing required fields: ..." naming all of
    them, in this order, separated by ", ", and nothing changes; if none
    is, but the username or the address is not a string, or the password
    is a number or a boolean, the request is answered 500 (the view calls
    [strip] and [len] on the values as they come) and nothing changes. *)
Theorem X29_register_field_checks
        (lib : Auth.library) (entropy : N) (req : Http.request) (st : Auth.store)
        (m : list (str * json)) :
  Http.get_json req = JObj m -> m <> [] ->
  let field k := match assoc k m with Some v => v | None => JNull end in
  let absent :=
    filter (fun k => negb (truthy (field k))) Auth.required_fields in
  let answer := Auth.handle (Auth.register lib entropy) req st in
  (absent <> [] ->
   answer
   = (Auth.error_response
        (PyStr.lit "Missing required fields: "
         ++ PyStr.join (PyStr.lit ", ") absent) [] 400,
      st))
  /\ (absent = [] ->
      (forall s, field (PyStr.lit "username") <> JStr s)
      \/ (forall s, field (PyStr.lit "email") <> JStr s)
      \/ (exists n, field (PyStr.lit "password") = JNum n)
      \/ (exists b, field (PyStr.lit "password") = JBool b) ->
      answer = (Auth.handle_unexpected_error, st)).
Proof.
  intros Hbody Hm field absent answer. subst answer.
  assert (Hmissing : Auth.missing (JObj m) Auth.required_fields = Ok absent).
  { unfold absent, Auth.required_fields. cbn [Auth.missing filter py_get Py.bind].
    fold (field (PyStr.lit "username")). fold (field (PyStr.lit "email")).
    fold (field (PyStr.lit "password")).
    destruct (negb (truthy (field (PyStr.lit "username"))));
      destruct (negb (truthy (field (PyStr.lit "email"))));
      destruct (negb (truthy (field (PyStr.lit "password")))); reflexivity. }
  assert (Htruthy : truthy (JObj m) = true)
    by (destruct m; [now elim Hm|reflexivity]).
  unfold Auth.handle, Auth.register. rewrite Hbody, Htruthy, Hmissing.
  cbn [negb Py.bind].
  split.
  - intros Hne. destruct absent as [|k r]; [now elim Hne|reflexivity].
  - intros Hnone Hbad. rewrite Hnone.
    unfold py_get.
    assert (Hu : match assoc (PyStr.lit "username") m with
                 | Some v => v
                 | None => JStr []
                 end = field (PyStr.lit "username")
                 \/ field (PyStr.lit "username") = JNull).
    { unfold field. destruct (assoc (PyStr.lit "username") m); auto. }
    assert (Hpresent : forall k, In k Auth.required_fields ->
                                 truthy (field k) = true).
    { intros k Hk. destruct (truthy (field k)) eqn:E; [reflexivity|].
      assert (Hin : In k absent)
        by (apply filter_In; split; [exact Hk|now rewrite E]).
      rewrite Hnone in Hin. destruct Hin. }
    assert (Tu : truthy (field (PyStr.lit "username")) = true)
      by (apply Hpresent; left; reflexivity).
    assert (Te : truthy (field (PyStr.lit "email")) = true)
      by (apply Hpresent; right; left; reflexivity).
    assert (Tp : truthy (field (PyStr.lit "password")) = true)
      by (apply Hpresent; right; right; left; reflexivity).
    unfold field in Tu, Te, Tp, Hbad.
    destruct (assoc (PyStr.lit "username") m) as [vu|]; [|discriminate Tu].
    destruct (assoc (PyStr.lit "email") m) as [ve|]; [|discriminate Te].
    destruct (assoc (PyStr.lit "password") m) as [vp|]; [|discriminate Tp].
    cbn [Py.bind].
    destruct vu as [| | |su| |]; cbn [py_strip Py.bind]; try reflexivity.
    destruct ve as [| | |se| |]; cbn [py_strip Py.bind]; try reflexivity.
    destruct Hbad as [H|[H|[[n H]|[b H]]]];
      [now elim (H su)|now elim (H se)| |]; subst vp.
    + destruct (Validators.validate_username _ _),
        (Credentials.validate_email _). reflexivity.
    + destruct (Validators.validate_username _ _),
        (Credentials.validate_email _). reflexivity.
Qed.

(** X29 at a concrete input: a body with an address only. *)
Lemma X29_witness :
  Auth.handle (Auth.register Auth.sample_library 7)
              (AuthSamples.anonymous
                 (JObj [(PyStr.lit "email", JStr (PyStr.lit "x@example.com"))]) 100)
              Auth.empty
  = (Auth.error_response
       (PyStr.lit "Missing required fields: username, password") [] 400,
     Auth.empty).
Proof.
  refine (proj1 (@X29_register_field_checks
                   Auth.sample_library 7
                   (AuthSamples.anonymous
                      (JObj [(PyStr.lit "email",
                              JStr (PyStr.lit "x@example.com"))]) 100)
                   Auth.empty
                   [(PyStr.lit "email", JStr (PyStr.lit "x@example.com"))]
                   eq_refl _) _); discriminate.
Defined.

(** ** A session, run on the model *)

Example scenario_register_login :
  let st1 := AuthSamples.st_carol in
  let again :=
    Auth.handle (Auth.register Auth.sample_library 8)
                (AuthSamples.anonymous AuthSamples.register_carol 150) st1 in
  let good :=
    Auth.handle (Auth.login Auth.sample_library 9)
                (AuthSamples.anonymous (AuthSamples.login_carol "TestPass123") 200)
                st1 in
  let bad :=
    Auth.handle (Auth.login Auth.sample_library 9)
                (AuthSamples.anonymous (AuthSamples.login_carol "testpass123") 200)
                st1 in
  let me := Auth.handle Auth.get_current_user (Samples.request_of 1 JNull 300) st1 in
  map User.username (Auth.users st1) = [PyStr.lit "carol_1"]
  /\ map User.email (Auth.users st1) = [PyStr.lit "carol@example.com"]
  /\ map User.is_admin (Auth.users st1) = [false]
  /\ Auth.status_code (fst again) = 409
  /\ Auth.status_code (fst good) = 200
  /\ map AuditLog.action (Db.audit_log (Auth.db (snd good)))
     = [PyStr.lit "register"; PyStr.lit "login"]
  /\ Auth.status_code (fst bad) = 401
  /\ map AuditLog.action (Db.audit_log (Auth.db (snd bad)))
     = [PyStr.lit "register"; PyStr.lit "login_failed"]
  /\ Auth.status_code (fst me) = 200
  /\ Auth.status_code
       (fst (Auth.handle Auth.get_current_user (Samples.request_of 5 JNull 300) st1))
     = 404.
Proof. vm_compute. repeat split. Qed.

(** ** Path numbers the database cannot hold, tokens that do not verify *)

Example path_numbers_out_of_range :
  let get i :=
    Http.status_code
      (fst (Samples.serve (Routes.GET_config i)
              (Samples.request_of Samples.alice JNull 300) Samples.st_alice)) in
  let version i k :=
    Http.status_code
      (fst (Samples.serve (Routes.GET_config_version i k)
              (Samples.request_of Samples.alice JNull 300) Samples.st_alice)) in
  get 1%N = 200
  /\ get 2%N = 404
  /\ get 9223372036854775807%N = 404
  /\ get 9223372036854775808%N = 500
  /\ version 1%N 1%N = 200
  /\ version 1%N 0%N = 404
  /\ version 1%N 9223372036854775807%N = 404
  /\ version 1%N 9223372036854775808%N = 500
  /\ version 2%N 9223372036854775808%N = 404.
Proof. vm_compute. repeat split. Qed.

Example answers_without_valid_token :
  let answer failure :=
    fst (Samples.serve Routes.GET_templates
           (Http.mk_request None JNull 300 None (PyStr.lit "curl") failure)
           Samples.st_template) in
  map (fun failure => (Http.status_code (answer failure), Http.error (answer failure)))
      [Http.NoAuthorization; Http.InvalidToken; Http.ExpiredToken]
  = [(401, Some (PyStr.lit "Unauthorized"));
     (401, Some (PyStr.lit "Invalid Token"));
     (401, Some (PyStr.lit "Token Expired"))].
Proof. vm_compute. reflexivity. Qed.
